(** * AWS cost reporter ([pricing.py]): a shallow embedding and its properties

    The program is a linear script: it reads its configuration from the
    environment, resolves a date window, queries the billing service,
    flattens the response, writes the records to disk, uploads the files
    and prints a total.  The embedding below follows the script function
    by function.  Library calls ([datetime], [decimal], [os.path], [boto3],
    [pandas]) are modelled by executable definitions of their documented
    behaviour; network and file effects are recorded in a trace. *)

From Stdlib Require Import ZArith List String Ascii Bool Lia.
From Stdlib Require Import DecimalString DecimalN Floats.SpecFloat.
Import ListNotations.

Local Open Scope string_scope.
Local Open Scope Z_scope.

(** ** Exceptions and results *)

Inductive exn : Type :=
| KeyError
| IndexError
| TypeError
| AttributeError
| ValueError
| InvalidOperation
| OverflowError
| RuntimeError (msg : string)
| ProfileNotFound
| ClientError.

Inductive result (A : Type) : Type :=
| Ok (a : A)
| Raise (e : exn).

Arguments Ok {A} a.
Arguments Raise {A} e.

Definition rbind {A B : Type} (r : result A) (k : A -> result B) : result B :=
  match r with
  | Ok a => k a
  | Raise e => Raise e
  end.

Declare Scope result_scope.
Delimit Scope result_scope with result.
Notation "'let?' x ':=' r 'in' k" := (rbind r (fun x => k))
  (at level 10, x pattern, r at level 100, k at level 200) : result_scope.
Local Open Scope result_scope.

Definition of_option {A : Type} (e : exn) (o : option A) : result A :=
  match o with
  | Some a => Ok a
  | None => Raise e
  end.

(** ** Characters and decimal digits *)

Definition code (c : ascii) : Z := Z.of_N (N_of_ascii c).

Definition is_digit (c : ascii) : bool := (48 <=? code c) && (code c <=? 57).

Definition digit_val (c : ascii) : Z := code c - 48.

Definition digit_char (k : Z) : ascii := ascii_of_N (Z.to_N (48 + k)).

Definition in_range (lo hi : Z) (c : ascii) : bool :=
  (lo <=? digit_val c) && (digit_val c <=? hi) && is_digit c.

(** ** The proleptic Gregorian calendar of [datetime.date] *)

Module Calendar.

Record date : Type := mkdate { year : Z; month : Z; day : Z }.

Definition MINYEAR : Z := 1.
Definition MAXYEAR : Z := 9999.

Definition is_leap (y : Z) : bool :=
  (y mod 4 =? 0) && (negb (y mod 100 =? 0) || (y mod 400 =? 0)).

Definition days_in_month (y m : Z) : Z :=
  match m with
  | 1 => 31
  | 2 => if is_leap y then 29 else 28
  | 3 => 31
  | 4 => 30
  | 5 => 31
  | 6 => 30
  | 7 => 31
  | 8 => 31
  | 9 => 30
  | 10 => 31
  | 11 => 30
  | 12 => 31
  | _ => 0
  end.

(** [date(y, m, d)] raises [ValueError] unless this holds. *)
Definition valid (d : date) : bool :=
  (MINYEAR <=? year d) && (year d <=? MAXYEAR) &&
  (1 <=? month d) && (month d <=? 12) &&
  (1 <=? day d) && (day d <=? days_in_month (year d) (month d)).

Definition days_before_year (y : Z) : Z :=
  let y' := y - 1 in
  y' * 365 + y' / 4 - y' / 100 + y' / 400.

Definition days_before_month (y m : Z) : Z :=
  match m with
  | 1 => 0
  | 2 => 31
  | 3 => 59
  | 4 => 90
  | 5 => 120
  | 6 => 151
  | 7 => 181
  | 8 => 212
  | 9 => 243
  | 10 => 273
  | 11 => 304
  | 12 => 334
  | _ => 0
  end + (if (2 <? m) && is_leap y then 1 else 0).

(** [date.toordinal()]: 0001-01-01 is day 1. *)
Definition toordinal (d : date) : Z :=
  days_before_year (year d) + days_before_month (year d) (month d) + day d.

Definition MAXORDINAL : Z := 3652059.

Definition date_min : date := mkdate 1 1 1.
Definition date_max : date := mkdate 9999 12 31.

(** Comparison of dates, as [date.__lt__] does it: on (year, month, day). *)
Definition date_ltb (a b : date) : bool :=
  (year a <? year b) ||
  ((year a =? year b) &&
   ((month a <? month b) || ((month a =? month b) && (day a <? day b)))).

Definition date_eqb (a b : date) : bool :=
  (year a =? year b) && (month a =? month b) && (day a =? day b).

(** [d + datetime.timedelta(days=1)]: the date whose ordinal is one more
    than that of [d]; past 9999-12-31 the addition raises [OverflowError]. *)
Definition add_one_day (d : date) : result date :=
  if day d <? days_in_month (year d) (month d) then
    Ok (mkdate (year d) (month d) (day d + 1))
  else if month d <? 12 then
    Ok (mkdate (year d) (month d + 1) 1)
  else if year d <? MAXYEAR then
    Ok (mkdate (year d + 1) 1 1)
  else Raise OverflowError.

(** [d - datetime.timedelta(days=1)]: the date whose ordinal is one less;
    before 0001-01-01 the subtraction raises [OverflowError]. *)
Definition sub_one_day (d : date) : result date :=
  if 1 <? day d then
    Ok (mkdate (year d) (month d) (day d - 1))
  else if 1 <? month d then
    Ok (mkdate (year d) (month d - 1) (days_in_month (year d) (month d - 1)))
  else if MINYEAR <? year d then
    Ok (mkdate (year d - 1) 12 31)
  else Raise OverflowError.

(** *** [datetime.strptime(s, "%Y-%m-%d").date()]

    The format is compiled to the regular expression
    [(\d\d\d\d)-(1[0-2]|0[1-9]|[1-9])-(3[0-1]|[1-2]\d|0[1-9]|[1-9]| [1-9])],
    matched at the start of the string; the whole string has to be
    consumed, and the three numbers have to form a date.  Strings are byte
    strings here, so a digit is an ASCII digit. *)

(** [%Y]: exactly four digits. *)
Definition match_Y (s : string) : option (Z * string) :=
  match s with
  | String a (String b (String c (String d rest))) =>
      if is_digit a && is_digit b && is_digit c && is_digit d
      then Some (1000 * digit_val a + 100 * digit_val b
                 + 10 * digit_val c + digit_val d, rest)
      else None
  | _ => None
  end.

(** One alternative of two characters, the first in [l1..h1], the second in
    [l2..h2], read as a two-digit number. *)
Definition two_chars (l1 h1 l2 h2 : Z) (s : string) : list (Z * string) :=
  match s with
  | String a (String b rest) =>
      if in_range l1 h1 a && in_range l2 h2 b
      then [(10 * digit_val a + digit_val b, rest)]
      else []
  | _ => []
  end.

Definition one_char (l h : Z) (s : string) : list (Z * string) :=
  match s with
  | String a rest => if in_range l h a then [(digit_val a, rest)] else []
  | _ => []
  end.

Definition space_then (l h : Z) (s : string) : list (Z * string) :=
  match s with
  | String a rest => if Ascii.eqb a " " then one_char l h rest else []
  | _ => []
  end.

(** [%m], the alternatives that match at the head of [s], in the order in
    which the regular expression tries them. *)
Definition match_m (s : string) : list (Z * string) :=
  (two_chars 1 1 0 2 s ++ two_chars 0 0 1 9 s ++ one_char 1 9 s)%list.

(** [%d], likewise. *)
Definition match_d (s : string) : list (Z * string) :=
  (two_chars 3 3 0 1 s ++ two_chars 1 2 0 9 s ++ two_chars 0 0 1 9 s
   ++ one_char 1 9 s ++ space_then 1 9 s)%list.

Definition expect_dash (s : string) : option string :=
  match s with
  | String c rest => if Ascii.eqb c "-" then Some rest else None
  | _ => None
  end.

(** First alternative whose continuation succeeds (backtracking). *)
Fixpoint first_success {A B : Type} (k : A -> option B) (alts : list A)
  : option B :=
  match alts with
  | [] => None
  | a :: rest =>
      match k a with
      | Some b => Some b
      | None => first_success k rest
      end
  end.

(** The regular-expression match: the three numbers and what is left. *)
Definition re_match (s : string) : option (Z * Z * Z * string) :=
  match match_Y s with
  | None => None
  | Some (y, s1) =>
      match expect_dash s1 with
      | None => None
      | Some s2 =>
          first_success
            (fun '(m, s3) =>
               match expect_dash s3 with
               | None => None
               | Some s4 =>
                   first_success (fun '(d, s5) => Some (y, m, d, s5))
                                 (match_d s4)
               end)
            (match_m s2)
      end
  end.

Definition strptime (s : string) : result date :=
  match re_match s with
  | Some (y, m, d, "") =>
      let dt := mkdate y m d in
      if valid dt then Ok dt else Raise ValueError
  | _ => Raise ValueError
  end.

(** *** [d.strftime("%Y-%m-%d")]

    The year on four digits, the month and the day on two, as the
    documentation of [datetime] gives them (a C library that does not pad
    the year differs for the years before 1000). *)

Definition two_digits (n : Z) (rest : string) : string :=
  String (digit_char (n / 10)) (String (digit_char (n mod 10)) rest).

Definition four_digits (n : Z) (rest : string) : string :=
  String (digit_char (n / 1000))
    (String (digit_char ((n / 100) mod 10))
       (two_digits (n mod 100) rest)).

Definition strftime (d : date) : string :=
  four_digits (year d)
    (String "-" (two_digits (month d) (String "-" (two_digits (day d) "")))).

End Calendar.

Import Calendar.

(** ** Configuration (module level of the script) *)

(** [os.environ], after [load_dotenv]. *)
Definition environ : Type := string -> option string.

Record config : Type := mkconfig {
  PROFILE : option string;
  BUCKET : option string;
  PREFIX : string;
  DATE : option string;
  START : option string;
  END : option string
}.

Definition load_config (env : environ) : config :=
  {| PROFILE := env "AWS_PROFILE";
     BUCKET := env "COST_S3_BUCKET";
     PREFIX := match env "COST_S3_PREFIX" with
               | Some p => p
               | None => "aws-costs/"
               end;
     DATE := env "COST_DATE";
     START := env "COST_START";
     END := env "COST_END" |}.

Definition REGION : string := "us-east-1".

(** Truth value of an optional string: [None] and [""] are false. *)
Definition truthy (v : option string) : bool :=
  match v with
  | Some (String _ _) => true
  | _ => false
  end.

(** The string held by a variable known to be set. *)
Definition str_of (v : option string) : string :=
  match v with
  | Some s => s
  | None => ""
  end.

(** ** [get_dates] *)

Definition get_dates (cfg : config) (today : date)
  : result (string * string * string) :=
  if truthy (DATE cfg) then
    let? d := strptime (str_of (DATE cfg)) in
    let start := strftime d in
    let? d1 := add_one_day d in
    Ok (start, strftime d1, str_of (DATE cfg))
  else if truthy (START cfg) && truthy (END cfg) then
    let? s := strptime (str_of (START cfg)) in
    let? e := strptime (str_of (END cfg)) in
    let start := strftime s in
    let? e1 := add_one_day e in
    Ok (start, strftime e1, str_of (START cfg) ++ "_to_" ++ str_of (END cfg))
  else
    let? yest := sub_one_day today in
    let start := strftime yest in
    let? e1 := add_one_day yest in
    Ok (start, strftime e1, strftime yest).

(** ** Binary64 floating point

    Python's [float] is IEEE 754 binary64.  The standard library's
    [spec_float] gives its values and correctly rounded operations
    (round to nearest, ties to even) over [Z]; a NaN carries no sign or
    payload. *)

Definition float : Type := spec_float.

Definition prec : Z := 53.
Definition emax : Z := 1024.

Definition float_add : float -> float -> float := SFadd prec emax.

(** [float(n)] for an integer [n] of moderate size. *)
Definition float_of_Z (n : Z) : float := binary_normalize prec emax n 0 false.

(** ** [decimal.Decimal] *)

Inductive decimal : Type :=
| DFinite (sign : bool) (coeff : Z) (exp : Z)
| DInf (sign : bool)
| DNaN (sign : bool) (signaling : bool).

(** [str.isspace] on ASCII. *)
Definition is_space (c : ascii) : bool :=
  ((9 <=? code c) && (code c <=? 13)) || ((28 <=? code c) && (code c <=? 32)).

Fixpoint lstrip (s : string) : string :=
  match s with
  | String c r => if is_space c then lstrip r else s
  | "" => ""
  end.

(** Removes the white space at the end of [s]. *)
Fixpoint rstrip (s : string) : string :=
  match s with
  | String c r =>
      match rstrip r with
      | "" => if is_space c then "" else String c ""
      | r' => String c r'
      end
  | "" => ""
  end.

Definition strip (s : string) : string := rstrip (lstrip s).

Fixpoint remove_underscores (s : string) : string :=
  match s with
  | String c r =>
      if Ascii.eqb c "_" then remove_underscores r
      else String c (remove_underscores r)
  | "" => ""
  end.

Definition lower (c : ascii) : ascii :=
  if (65 <=? code c) && (code c <=? 90)
  then ascii_of_N (Z.to_N (code c + 32)) else c.

Fixpoint lower_string (s : string) : string :=
  match s with
  | String c r => String (lower c) (lower_string r)
  | "" => ""
  end.

(** Reads the digits at the head of [s]: the number read after [acc], how
    many digits there were after [n], and the rest. *)
Fixpoint digits_from (acc n : Z) (s : string) : Z * Z * string :=
  match s with
  | String c r =>
      if is_digit c then digits_from (10 * acc + digit_val c) (n + 1) r
      else (acc, n, s)
  | "" => (acc, n, s)
  end.

Definition split_sign (s : string) : bool * string :=
  match s with
  | String "-" r => (true, r)
  | String "+" r => (false, r)
  | _ => (false, s)
  end.

(** [E], an optional sign and at least one digit, up to the end. *)
Definition parse_exponent (s : string) : option Z :=
  match s with
  | "" => Some 0
  | String c r =>
      if Ascii.eqb (lower c) "e" then
        let '(neg, r1) := split_sign r in
        match digits_from 0 0 r1 with
        | (v, n, "") => if 0 <? n then Some (if neg then - v else v) else None
        | _ => None
        end
      else None
  end.

(** A number: digits with an optional point and an optional exponent, at
    least one digit before the exponent. *)
Definition parse_number (sign : bool) (s : string) : option decimal :=
  let '(i, ni, r1) := digits_from 0 0 s in
  let '(c, nf, r2) :=
    match r1 with
    | String "." r => digits_from i 0 r
    | _ => (i, 0, r1)
    end in
  if 0 <? ni + nf then
    match parse_exponent r2 with
    | Some e => Some (DFinite sign c (e - nf))
    | None => None
    end
  else None.

(** [NaN] or [sNaN] followed by digits only (the diagnostic payload, which
    the conversion to [float] ignores). *)
Definition parse_nan (sign : bool) (l : string) : option decimal :=
  match l with
  | String "n" (String "a" (String "n" r)) =>
      match digits_from 0 0 r with
      | (_, _, "") => Some (DNaN sign false)
      | _ => None
      end
  | String "s" (String "n" (String "a" (String "n" r))) =>
      match digits_from 0 0 r with
      | (_, _, "") => Some (DNaN sign true)
      | _ => None
      end
  | _ => None
  end.

(** [Decimal(s)] for a string: white space around the numeral and
    underscores anywhere are dropped, letters are matched without regard
    to case, the value is exact.  The exponent limits of the
    implementation (about 10^18) are not modelled. *)
Definition parse_decimal (s : string) : option decimal :=
  let '(sign, s1) := split_sign (remove_underscores (strip s)) in
  let l := lower_string s1 in
  if String.eqb l "inf" || String.eqb l "infinity" then Some (DInf sign)
  else match parse_nan sign l with
       | Some d => Some d
       | None => parse_number sign s1
       end.

(** [float(Decimal)]: the binary64 number nearest to the decimal value,
    ties to even; a value too large gives an infinity; a signaling NaN
    raises [ValueError]. *)
Definition float_of_decimal (d : decimal) : result float :=
  match d with
  | DNaN _ true => Raise ValueError
  | DNaN _ false => Ok S754_nan
  | DInf s => Ok (S754_infinity s)
  | DFinite s c e =>
      match c with
      | Zpos m =>
          if 0 <=? e then Ok (binary_round prec emax s (m * Z.to_pos (10 ^ e)) 0)
          else
            let '(q, e', l) :=
              SFdiv_core_binary prec emax (Zpos m) 0 (10 ^ (- e)) 0 in
            Ok (binary_round_aux prec emax s q e' l)
      | _ => Ok (S754_zero s)
      end
  end.

(** ** Formatting: [format(x, ".2f")] *)

Definition string_of_N (n : N) : string :=
  NilEmpty.string_of_uint (N.to_uint n).

(** The integer nearest to [num / den], ties to even ([den] positive). *)
Definition round_half_even (num den : Z) : Z :=
  let q := num / den in
  let r := num mod den in
  match 2 * r ?= den with
  | Lt => q
  | Gt => q + 1
  | Eq => if Z.even q then q else q + 1
  end.

(** The hundredths in [m * 2^e], rounded. *)
Definition hundredths (m : positive) (e : Z) : Z :=
  if 0 <=? e then Zpos m * 2 ^ e * 100
  else round_half_even (Zpos m * 100) (2 ^ (- e)).

Definition fixed2 (neg : bool) (h : Z) : string :=
  (if neg then "-" else "") ++ string_of_N (Z.to_N (h / 100)) ++ "."
  ++ two_digits (h mod 100) "".

Definition format_2f (x : float) : string :=
  match x with
  | S754_nan => "nan"
  | S754_infinity s => if s then "-inf" else "inf"
  | S754_zero s => fixed2 s 0
  | S754_finite s m e => fixed2 s (hundredths m e)
  end.

(** ** Python values of a service response

    A response is a JSON document as the SDK hands it over: dictionaries
    with string keys (association lists, the first binding of a key is the
    one that counts), lists, strings, integers, booleans and [None]. *)

#[local] Set Warnings "-register-all".

Inductive pyval : Type :=
| PNone
| PBool (b : bool)
| PInt (z : Z)
| PStr (s : string)
| PList (l : list pyval)
| PDict (d : list (string * pyval)).

Fixpoint lookup (k : string) (d : list (string * pyval)) : option pyval :=
  match d with
  | [] => None
  | (k', v) :: rest => if String.eqb k k' then Some v else lookup k rest
  end.

(** [v.get(k, default)]; only a dictionary has the method. *)
Definition dict_get (v : pyval) (k : string) (default : pyval) : result pyval :=
  match v with
  | PDict d =>
      Ok (match lookup k d with
          | Some x => x
          | None => default
          end)
  | _ => Raise AttributeError
  end.

(** [v[k]] for a string [k]. *)
Definition subscript (v : pyval) (k : string) : result pyval :=
  match v with
  | PDict d => of_option KeyError (lookup k d)
  | _ => Raise TypeError
  end.

Definition is_continuation (c : ascii) : bool :=
  (128 <=? code c) && (code c <? 192).

(** The characters of a UTF-8 string, each with its continuation bytes. *)
Fixpoint chars (s : string) : list string :=
  match s with
  | "" => []
  | String c r =>
      match chars r with
      | (String c' _ as h) :: t =>
          if is_continuation c' then String c h :: t
          else String c "" :: h :: t
      | rest => String c "" :: rest
      end
  end.

(** [v[0]]. *)
Definition subscript0 (v : pyval) : result pyval :=
  match v with
  | PList (x :: _) => Ok x
  | PList [] => Raise IndexError
  | PStr s =>
      match chars s with
      | c :: _ => Ok (PStr c)
      | [] => Raise IndexError
      end
  | PDict _ => Raise KeyError
  | _ => Raise TypeError
  end.

(** The values a [for] loop over [v] sees. *)
Definition iterate (v : pyval) : result (list pyval) :=
  match v with
  | PList l => Ok l
  | PStr s => Ok (map PStr (chars s))
  | PDict d => Ok (map (fun kv => PStr (fst kv)) d)
  | _ => Raise TypeError
  end.

(** [Decimal(v)]. *)
Definition Decimal (v : pyval) : result decimal :=
  match v with
  | PStr s => of_option InvalidOperation (parse_decimal s)
  | PInt z => Ok (DFinite (z <? 0) (Z.abs z) 0)
  | PBool b => Ok (DFinite false (if b then 1 else 0) 0)
  | PList _ => Raise ValueError
  | PNone | PDict _ => Raise TypeError
  end.

(** ** [normalize] *)

(** One flat record: the dictionary with the keys [date], [service],
    [amount], [unit], in that order. *)
Record row : Type := mkrow {
  row_date : pyval;
  row_service : pyval;
  row_amount : float;
  row_unit : pyval
}.

(** A loop that appends the outcome of [f] for each element, and stops at
    the first exception. *)
Fixpoint for_each {A B : Type} (f : A -> result B) (l : list A)
  : result (list B) :=
  match l with
  | [] => Ok []
  | a :: rest =>
      let? b := f a in
      let? bs := for_each f rest in
      Ok (b :: bs)
  end.

(** The body of the inner loop. *)
Definition normalize_group (period g : pyval) : result row :=
  let? keys := subscript g "Keys" in
  let? service := subscript0 keys in
  let? metrics := subscript g "Metrics" in
  let? metric := subscript metrics "UnblendedCost" in
  let? a := subscript metric "Amount" in
  let? dec := Decimal a in
  let? amount := float_of_decimal dec in
  let? unit := subscript metric "Unit" in
  let? tp := subscript period "TimePeriod" in
  let? start := subscript tp "Start" in
  Ok {| row_date := start; row_service := service;
        row_amount := amount; row_unit := unit |}.

(** The body of the outer loop: the records of one period. *)
Definition normalize_period (period : pyval) : result (list row) :=
  let? groups := dict_get period "Groups" (PList []) in
  let? gs := iterate groups in
  for_each (normalize_group period) gs.

Definition normalize (resp : pyval) : result (list row) :=
  let? periods := dict_get resp "ResultsByTime" (PList []) in
  let? ps := iterate periods in
  let? rows := for_each normalize_period ps in
  Ok (List.concat rows).

(** ** Paths and keys *)

(** [s.rstrip("/")]. *)
Fixpoint rstrip_slash (s : string) : string :=
  match s with
  | String c r =>
      match rstrip_slash r with
      | "" => if Ascii.eqb c "/" then "" else String c ""
      | r' => String c r'
      end
  | "" => ""
  end.

Definition starts_with_slash (s : string) : bool :=
  match s with
  | String c _ => Ascii.eqb c "/"
  | "" => false
  end.

Fixpoint ends_with_slash (s : string) : bool :=
  match s with
  | "" => false
  | String c "" => Ascii.eqb c "/"
  | String _ r => ends_with_slash r
  end.

(** [os.path.join(a, b)] on a POSIX system. *)
Definition path_join (a b : string) : string :=
  if starts_with_slash b then b
  else if String.eqb a "" || ends_with_slash a then a ++ b
  else a ++ "/" ++ b.

(** [os.path.basename(p)]: what follows the last slash. *)
Fixpoint has_slash (s : string) : bool :=
  match s with
  | "" => false
  | String c r => Ascii.eqb c "/" || has_slash r
  end.

Fixpoint basename (p : string) : string :=
  match p with
  | "" => ""
  | String c r =>
      if Ascii.eqb c "/" || has_slash r then basename r else p
  end.

(** ** [str] and [repr] of a value, as an f-string uses them *)

Definition string_of_Z (z : Z) : string :=
  if z <? 0 then "-" ++ string_of_N (Z.to_N (- z)) else string_of_N (Z.to_N z).

Definition dquote : ascii := ascii_of_N 34.

Fixpoint contains (c : ascii) (s : string) : bool :=
  match s with
  | "" => false
  | String c' r => Ascii.eqb c c' || contains c r
  end.

Definition hex_digit (k : Z) : ascii :=
  if k <? 10 then digit_char k else ascii_of_N (Z.to_N (87 + k)).

Definition escape_char (q c : ascii) : string :=
  if Ascii.eqb c q || Ascii.eqb c "\" then String "\" (String c "")
  else if code c =? 9 then "\t"
  else if code c =? 10 then "\n"
  else if code c =? 13 then "\r"
  else if (code c <? 32) || (code c =? 127)
  then String "\" (String "x" (String (hex_digit (code c / 16))
                                 (String (hex_digit (code c mod 16)) "")))
  else String c "".

Fixpoint escape (q : ascii) (s : string) : string :=
  match s with
  | "" => ""
  | String c r => escape_char q c ++ escape q r
  end.

(** [repr(s)] of a string; bytes above 127 stand for printable characters
    and are kept. *)
Definition repr_str (s : string) : string :=
  let q := if contains "'" s && negb (contains dquote s) then dquote else "'"%char in
  String q (escape q s ++ String q "").

Fixpoint join_comma (l : list string) : string :=
  match l with
  | [] => ""
  | [x] => x
  | x :: rest => x ++ ", " ++ join_comma rest
  end.

Fixpoint py_repr (v : pyval) : string :=
  match v with
  | PNone => "None"
  | PBool b => if b then "True" else "False"
  | PInt z => string_of_Z z
  | PStr s => repr_str s
  | PList l => "[" ++ join_comma (map py_repr l) ++ "]"
  | PDict d =>
      "{" ++ join_comma (map (fun kv => match kv with
                                        | (k, x) => repr_str k ++ ": " ++ py_repr x
                                        end) d) ++ "}"
  end.

Definition py_str (v : pyval) : string :=
  match v with
  | PStr s => s
  | _ => py_repr v
  end.

(** ** The total *)

(** A number: [sum] starts from the integer [0] and adds floats to it. *)
Inductive number : Type :=
| NInt (z : Z)
| NFloat (f : float).

Definition number_add (acc : number) (x : float) : number :=
  match acc with
  | NInt z => NFloat (float_add (float_of_Z z) x)
  | NFloat a => NFloat (float_add a x)
  end.

(** [sum(xs)]: the floats are added one after the other, each addition
    rounded (from Python 3.12 on, [sum] also carries a compensation for
    the rounding errors). *)
Definition py_sum (xs : list float) : number := fold_left number_add xs (NInt 0).

Definition format_number_2f (n : number) : string :=
  match n with
  | NInt z => format_2f (float_of_Z z)
  | NFloat f => format_2f f
  end.

(** ** Effects

    The script talks to the billing service and to object storage, writes
    files and prints.  A run is a function of the outside world; what it
    does is recorded, in order, in a trace.  Writing a file is assumed to
    succeed; what is written is given by the records handed to the
    serializer. *)

Inductive event : Type :=
| EvQuery (start end_ : string)
| EvMakedirs (path : string)
| EvWriteJson (path : string) (rows : list row)
| EvWriteCsv (path : string) (rows : list row)
| EvUpload (local bucket key : string)
| EvPrint (line : string).

Record world : Type := mkworld {
  today : date;
  pd : bool;
  has_profile : string -> bool;
  get_cost_and_usage : string -> string -> result pyval;
  upload_file : string -> string -> string -> result unit
}.

Definition io (A : Type) : Type := list event -> result A * list event.

Definition ret {A : Type} (a : A) : io A := fun t => (Ok a, t).

Definition bind {A B : Type} (c : io A) (k : A -> io B) : io B :=
  fun t =>
    match c t with
    | (Ok a, t') => k a t'
    | (Raise e, t') => (Raise e, t')
    end.

Definition lift {A : Type} (r : result A) : io A := fun t => (r, t).

Definition emit (ev : event) : io unit := fun t => (Ok tt, (t ++ [ev])%list).

(** A call to a service: it is recorded whether or not it succeeds. *)
Definition call {A : Type} (ev : event) (r : result A) : io A :=
  fun t => (r, (t ++ [ev])%list).

Declare Scope io_scope.
Delimit Scope io_scope with io.
Notation "'do' x '<-' c ';' k" := (bind c (fun x => k))
  (at level 10, x pattern, c at level 100, k at level 200) : io_scope.
Local Open Scope io_scope.

Definition is_network (ev : event) : bool :=
  match ev with
  | EvQuery _ _ | EvUpload _ _ _ => true
  | _ => false
  end.

(** ** The functions of the script *)

Definition boto3_Session (cfg : config) (w : world) : result unit :=
  if truthy (PROFILE cfg) then
    if has_profile w (str_of (PROFILE cfg)) then Ok tt else Raise ProfileNotFound
  else Ok tt.

Definition boto3_ce_client (cfg : config) (w : world) : io unit :=
  lift (boto3_Session cfg w).

Definition boto3_s3_client (cfg : config) (w : world) : io unit :=
  lift (boto3_Session cfg w).

(** The request is for daily granularity, the unblended cost and a
    grouping by service; only its time period varies. *)
Definition get_cost_by_service (w : world) (start end_ : string) : io pyval :=
  call (EvQuery start end_) (get_cost_and_usage w start end_).

Definition save_json (rows : list row) (path : string) : io unit :=
  emit (EvWriteJson path rows).

Definition save_csv (w : world) (rows : list row) (path : string) : io unit :=
  if negb (pd w) then ret tt
  else emit (EvWriteCsv path rows).

Definition upload (cfg : config) (w : world) (local bucket key : string)
  : io unit :=
  do _ <- boto3_s3_client cfg w;
  call (EvUpload local bucket key) (upload_file w local bucket key).

Definition json_file (label : string) : string :=
  path_join "output" ("aws_costs_" ++ label ++ ".json").

Definition csv_file (label : string) : string :=
  path_join "output" ("aws_costs_" ++ label ++ ".csv").

Definition key_of (cfg : config) (file : string) : string :=
  rstrip_slash (PREFIX cfg) ++ "/" ++ basename file.

Definition total (rows : list row) : number := py_sum (map row_amount rows).

Definition unit_of (rows : list row) : pyval :=
  match rows with
  | r :: _ => row_unit r
  | [] => PStr "USD"
  end.

Definition uploaded_line (cfg : config) (label : string) : string :=
  "âœ… Uploaded billing for " ++ label ++ " â†’ s3://"
  ++ str_of (BUCKET cfg) ++ "/" ++ PREFIX cfg.

Definition total_line (rows : list row) : string :=
  "ðŸ’° Total = " ++ format_number_2f (total rows) ++ " " ++ py_str (unit_of rows).

Definition main (cfg : config) (w : world) : io unit :=
  do _ <- boto3_ce_client cfg w;
  do (start, end_, label) <- lift (get_dates cfg (today w));
  do resp <- get_cost_by_service w start end_;
  do rows <- lift (normalize resp);
  do _ <- emit (EvMakedirs "output");
  do _ <- save_json rows (json_file label);
  do _ <- save_csv w rows (csv_file label);
  do _ <- upload cfg w (json_file label) (str_of (BUCKET cfg))
            (key_of cfg (json_file label));
  do _ <- (if pd w
           then upload cfg w (csv_file label) (str_of (BUCKET cfg))
                  (key_of cfg (csv_file label))
           else ret tt);
  do _ <- emit (EvPrint (uploaded_line cfg label));
  emit (EvPrint (total_line rows)).

Definition BUCKET_REQUIRED : exn :=
  RuntimeError "COST_S3_BUCKET env var is required".

(** The script, run as a program: the configuration check of the module
    level, then [main]. *)
Definition script (env : environ) (w : world) : result unit * list event :=
  let cfg := load_config env in
  if negb (truthy (BUCKET cfg))
  then (Raise BUCKET_REQUIRED, [])
  else main cfg w [].

(** * Vocabulary of the properties *)

(** ** Dates *)

(** The characters of a string that [strptime] accepts: digits, dashes and
    spaces. *)
Definition date_char (c : ascii) : bool :=
  is_digit c || Ascii.eqb c "-" || Ascii.eqb c " ".

(** [consumed s r]: [r] is what is left of [s] after some such characters. *)
Inductive consumed : string -> string -> Prop :=
| consumed_none (s : string) : consumed s s
| consumed_char (c : ascii) (s r : string) :
    date_char c = true -> consumed s r -> consumed (String c s) r.

(** The outcome [r] of the resolver is the window from [a] to [b] (the end
    excluded) under the label [label]. *)
Definition window_is (r : result (string * string * string)) (a b : date)
           (label : string) : Prop :=
  exists start end_,
    r = Ok (start, end_, label) /\ strptime start = Ok a /\ strptime end_ = Ok b.

(** The second branch of [get_dates] is the one taken. *)
Definition range_mode (cfg : config) : bool :=
  negb (truthy (DATE cfg)) && truthy (START cfg) && truthy (END cfg).

(** ** Responses *)

(** The shape of a service group: a dictionary whose [Keys] start with the
    service and whose [Metrics] hold the unblended cost, an amount and a
    unit. *)
Definition group_of (g service amount unit_ : pyval) : Prop :=
  exists dg rest dm dc,
    g = PDict dg /\
    lookup "Keys" dg = Some (PList (service :: rest)) /\
    lookup "Metrics" dg = Some (PDict dm) /\
    lookup "UnblendedCost" dm = Some (PDict dc) /\
    lookup "Amount" dc = Some amount /\
    lookup "Unit" dc = Some unit_.

(** The shape of a time period: its start and its groups. *)
Definition period_of (p start : pyval) (groups : list pyval) : Prop :=
  exists dp dt,
    p = PDict dp /\
    lookup "TimePeriod" dp = Some (PDict dt) /\
    lookup "Start" dt = Some start /\
    lookup "Groups" dp = Some (PList groups).

(** [float(Decimal(a))]. *)
Definition to_float (a : pyval) : result float :=
  let? dec := Decimal a in float_of_decimal dec.

(** [r] is the record of group [g] in a period that starts at [start]. *)
Definition record_of (start g : pyval) (r : row) : Prop :=
  exists amount,
    group_of g (row_service r) amount (row_unit r) /\
    to_float amount = Ok (row_amount r) /\
    row_date r = start.

(** [rs] are the records of the groups of period [p], one each, in order. *)
Definition records_of (p : pyval) (rs : list row) : Prop :=
  exists start groups,
    period_of p start groups /\ Forall2 (record_of start) groups rs.

(** The number of groups of a period. *)
Definition group_count (p : pyval) : nat :=
  match p with
  | PDict dp =>
      match lookup "Groups" dp with
      | Some (PList gs) => List.length gs
      | _ => 0%nat
      end
  | _ => 0%nat
  end.

(** ** Runs *)

Section Outcome.

Variable cfg : config.
Variable w : world.

Definition up_json (label : string) : event :=
  EvUpload (json_file label) (str_of (BUCKET cfg)) (key_of cfg (json_file label)).

Definition up_csv (label : string) : event :=
  EvUpload (csv_file label) (str_of (BUCKET cfg)) (key_of cfg (csv_file label)).

(** What the persister does. *)
Definition persisted (label : string) (rows : list row) : list event :=
  ([EvMakedirs "output"; EvWriteJson (json_file label) rows]
   ++ (if pd w then [EvWriteCsv (csv_file label) rows] else []))%list.

(** The ways [main] can end, stage by stage. *)
Inductive outcome : result unit -> list event -> Prop :=
| fail_session (e : exn) :
    boto3_Session cfg w = Raise e -> outcome (Raise e) []
| fail_dates (e : exn) :
    get_dates cfg (today w) = Raise e -> outcome (Raise e) []
| fail_query (start end_ label : string) (e : exn) :
    get_dates cfg (today w) = Ok (start, end_, label) ->
    get_cost_and_usage w start end_ = Raise e ->
    outcome (Raise e) [EvQuery start end_]
| fail_normalize (start end_ label : string) (resp : pyval) (e : exn) :
    get_dates cfg (today w) = Ok (start, end_, label) ->
    get_cost_and_usage w start end_ = Ok resp ->
    normalize resp = Raise e ->
    outcome (Raise e) [EvQuery start end_]
| fail_upload_json (start end_ label : string) (resp : pyval)
                   (rows : list row) (e : exn) :
    get_dates cfg (today w) = Ok (start, end_, label) ->
    get_cost_and_usage w start end_ = Ok resp ->
    normalize resp = Ok rows ->
    upload_file w (json_file label) (str_of (BUCKET cfg))
                (key_of cfg (json_file label)) = Raise e ->
    outcome (Raise e)
            (EvQuery start end_ :: persisted label rows ++ [up_json label])
| fail_upload_csv (start end_ label : string) (resp : pyval)
                  (rows : list row) (e : exn) :
    get_dates cfg (today w) = Ok (start, end_, label) ->
    get_cost_and_usage w start end_ = Ok resp ->
    normalize resp = Ok rows ->
    pd w = true ->
    upload_file w (csv_file label) (str_of (BUCKET cfg))
                (key_of cfg (csv_file label)) = Raise e ->
    outcome (Raise e)
            (EvQuery start end_
             :: persisted label rows ++ [up_json label; up_csv label])
| done (start end_ label : string) (resp : pyval) (rows : list row) :
    get_dates cfg (today w) = Ok (start, end_, label) ->
    get_cost_and_usage w start end_ = Ok resp ->
    normalize resp = Ok rows ->
    outcome (Ok tt)
            (EvQuery start end_
             :: persisted label rows
             ++ [up_json label]
             ++ (if pd w then [up_csv label] else [])
             ++ [EvPrint (uploaded_line cfg label); EvPrint (total_line rows)]).

End Outcome.

(** ** Inputs used as examples *)

Definition cfg_single : config :=
  mkconfig None (Some "bucket") "aws-costs/" (Some "2024-02-28") None None.

Definition cfg_range : config :=
  mkconfig None (Some "bucket") "aws-costs/" None
           (Some "2023-12-30") (Some "2023-12-31").

Definition cfg_default : config :=
  mkconfig None (Some "bucket") "aws-costs/" None None None.

Definition cfg_backwards : config :=
  mkconfig None (Some "bucket") "aws-costs/" None
           (Some "2024-01-10") (Some "2024-01-05").

Definition cfg_lone_start : config :=
  mkconfig None (Some "bucket") "aws-costs/" None (Some "not a date") None.

Definition metric_of (amount unit_ : string) : pyval :=
  PDict [("UnblendedCost",
          PDict [("Amount", PStr amount); ("Unit", PStr unit_)])].

Definition group_example (service amount unit_ : string) : pyval :=
  PDict [("Keys", PList [PStr service]); ("Metrics", metric_of amount unit_)].

Definition period_example : pyval :=
  PDict [("TimePeriod",
          PDict [("Start", PStr "2024-01-01"); ("End", PStr "2024-01-02")]);
         ("Groups",
          PList [group_example "AmazonEC2" "12.3400" "USD";
                 group_example "AmazonS3" "0.5000" "USD"]);
         ("Estimated", PBool false)].

Definition response_example : list (string * pyval) :=
  [("ResultsByTime", PList [period_example])].

Definition rows_example : list row :=
  [mkrow (PStr "2024-01-01") (PStr "AmazonEC2")
         (S754_finite false 6946802425218990 (-49)) (PStr "USD");
   mkrow (PStr "2024-01-01") (PStr "AmazonS3")
         (S754_finite false 4503599627370496 (-53)) (PStr "USD")].

(** Two records in two currencies. *)
Definition rows_two_units : list row :=
  [mkrow (PStr "2024-01-01") (PStr "AmazonEC2")
         (S754_finite false 6946802425218990 (-49)) (PStr "EUR");
   mkrow (PStr "2024-01-01") (PStr "AmazonS3")
         (S754_finite false 4503599627370496 (-53)) (PStr "USD")].

Definition env_example : environ :=
  fun k => if String.eqb k "COST_S3_BUCKET" then Some "bucket" else None.

Definition world_example : world :=
  mkworld (mkdate 2024 1 2) true (fun _ => true)
          (fun _ _ => Ok (PDict response_example)) (fun _ _ _ => Ok tt).

Definition env_plain_prefix : environ :=
  fun k =>
    if String.eqb k "COST_S3_BUCKET" then Some "bucket"
    else if String.eqb k "COST_S3_PREFIX" then Some "reports/aws"
    else None.

Definition world_without_pandas : world :=
  mkworld (mkdate 2024 1 2) false (fun _ => true)
          (fun _ _ => Ok (PDict response_example)) (fun _ _ _ => Ok tt).

(** ** Further vocabulary *)

(** The date that [v] holds, when it holds one, is of the year 1000 or
    later: its year takes four digits without padding. *)
Definition year_from_1000 (v : option string) : bool :=
  match strptime (str_of v) with
  | Ok d => 1000 <=? year d
  | Raise _ => true
  end.

(** No configured date is of a year before 1000. *)
Definition four_digit_years (cfg : config) : bool :=
  year_from_1000 (DATE cfg) && year_from_1000 (START cfg)
  && year_from_1000 (END cfg).

(** The configuration [cfg] with other date selectors. *)
Definition with_dates (cfg : config) (d s e : option string) : config :=
  mkconfig (PROFILE cfg) (BUCKET cfg) (PREFIX cfg) d s e.

(** The configuration [cfg] with another prefix. *)
Definition with_prefix (cfg : config) (p : string) : config :=
  mkconfig (PROFILE cfg) (BUCKET cfg) p (DATE cfg) (START cfg) (END cfg).

(** The characters a label is made of: those of a date, and those of the
    separator of a range. *)
Definition label_char (c : ascii) : bool :=
  date_char c || Ascii.eqb c "_" || Ascii.eqb c "t" || Ascii.eqb c "o".

Fixpoint all_chars (p : ascii -> bool) (s : string) : bool :=
  match s with
  | "" => true
  | String c r => p c && all_chars p r
  end.

Definition is_slash (c : ascii) : bool := Ascii.eqb c "/".

(** What a group [g] of a period [dp] has to hold for [r] to be its
    record, as the loop body reads it. *)
Definition record_in (dp : list (string * pyval)) (g : pyval) (r : row)
  : Prop :=
  exists dg keys metrics metric amount tp,
    g = PDict dg /\
    lookup "Keys" dg = Some keys /\
    subscript0 keys = Ok (row_service r) /\
    lookup "Metrics" dg = Some metrics /\
    subscript metrics "UnblendedCost" = Ok metric /\
    subscript metric "Amount" = Ok amount /\
    to_float amount = Ok (row_amount r) /\
    subscript metric "Unit" = Ok (row_unit r) /\
    lookup "TimePeriod" dp = Some tp /\
    subscript tp "Start" = Ok (row_date r).

(** The value under [k], or the empty list. *)
Definition get_or_empty (k : string) (d : list (string * pyval)) : pyval :=
  match lookup k d with
  | Some v => v
  | None => PList []
  end.

(** The records [rs] of a period [p], group by group. *)
Definition period_records (p : pyval) (rs : list row) : Prop :=
  exists dp groups,
    p = PDict dp /\
    iterate (get_or_empty "Groups" dp) = Ok groups /\
    Forall2 (record_in dp) groups rs.

(** [ev] is a write of the file [path]. *)
Definition writes (path : string) (ev : event) : Prop :=
  exists rows, ev = EvWriteJson path rows \/ ev = EvWriteCsv path rows.

(** The trace of a run that persists [rows] under [label] and then
    uploads: what comes before the uploads. *)
Definition queried_and_persisted (w : world) (start end_ label : string)
           (rows : list row) : list event :=
  EvQuery start end_ :: persisted w label rows.

Definition cfg_last_day : config :=
  mkconfig None (Some "bucket") "aws-costs/" (Some "9999-12-31") None None.

Definition cfg_unpadded : config :=
  mkconfig None (Some "bucket") "aws-costs/" (Some "2024-1-5") None None.

(** Characters that keep a file name inside its directory: no slash, no
    backslash, no dot, no NUL. *)
Definition path_safe (c : ascii) : bool :=
  negb (Ascii.eqb c "/" || Ascii.eqb c "\" || Ascii.eqb c "."
        || (code c =? 0)).

Definition env_dates : environ :=
  fun k =>
    if String.eqb k "COST_S3_BUCKET" then Some "bucket"
    else if String.eqb k "COST_DATE" then Some "2024-1-5"
    else None.

Definition env_bad_date : environ :=
  fun k =>
    if String.eqb k "COST_S3_BUCKET" then Some "bucket"
    else if String.eqb k "COST_DATE" then Some "05/01/2024"
    else None.

Definition group_without_keys : pyval :=
  PDict [("Metrics", metric_of "1.00" "USD")].

Definition world_bad_response : world :=
  mkworld (mkdate 2024 1 2) true (fun _ => true)
          (fun _ _ =>
             Ok (PDict [("ResultsByTime",
                         PList [period_example;
                                PDict [("Groups",
                                        PList [group_without_keys])]])]))
          (fun _ _ _ => Ok tt).

Definition world_upload_fails : world :=
  mkworld (mkdate 2024 1 2) true (fun _ => true)
          (fun _ _ => Ok (PDict response_example))
          (fun _ _ _ => Raise ClientError).

Definition world_query_fails : world :=
  mkworld (mkdate 2024 1 2) true (fun _ => true)
          (fun _ _ => Raise ClientError) (fun _ _ _ => Ok tt).

(** ** JSON: the text [json.dump(rows, f, indent=2)] writes, and [json.load] *)

(** What [json.dump] is given and what [json.load] gives back: the values
    of a response, and floats.  A dictionary is the list of its items in
    insertion order. *)
Inductive pyobj : Type :=
| ONone
| OBool (b : bool)
| OInt (z : Z)
| OFloat (x : float)
| OStr (s : string)
| OList (l : list pyobj)
| ODict (d : list (string * pyobj)).

Fixpoint obj_of_val (v : pyval) : pyobj :=
  match v with
  | PNone => ONone
  | PBool b => OBool b
  | PInt z => OInt z
  | PStr s => OStr s
  | PList l => OList (map obj_of_val l)
  | PDict d => ODict (map (fun kv => match kv with
                                     | (k, x) => (k, obj_of_val x)
                                     end) d)
  end.

(** The dictionary [normalize] appends for one record. *)
Definition obj_of_row (r : row) : pyobj :=
  ODict [("date", obj_of_val (row_date r));
         ("service", obj_of_val (row_service r));
         ("amount", OFloat (row_amount r));
         ("unit", obj_of_val (row_unit r))].

Definition obj_of_rows (rows : list row) : pyobj :=
  OList (map obj_of_row rows).

(** *** Numbers as JSON writes and reads them *)

(** A number token: sign, integer part, fraction and exponent (its sign
    and its digits). *)
Record numtok : Type := mktok {
  tok_neg : bool;
  tok_int : string;
  tok_frac : option string;
  tok_exp : option (bool * string)
}.

Definition print_tok (t : numtok) : string :=
  (if tok_neg t then "-" else "") ++ tok_int t
  ++ match tok_frac t with
     | Some f => "." ++ f
     | None => ""
     end
  ++ match tok_exp t with
     | Some (neg, ds) => "e" ++ (if neg then "-" else "+") ++ ds
     | None => ""
     end.

Fixpoint all_digits (s : string) : bool :=
  match s with
  | "" => true
  | String c r => is_digit c && all_digits r
  end.

Definition digits_ok (s : string) : bool :=
  negb (String.eqb s "") && all_digits s.

(** [0], or digits that do not start with [0]. *)
Definition int_ok (s : string) : bool :=
  match s with
  | String c r => if Ascii.eqb c "0" then String.eqb r "" else digits_ok s
  | "" => false
  end.

Definition tok_ok (t : numtok) : bool :=
  int_ok (tok_int t)
  && match tok_frac t with
     | Some f => digits_ok f
     | None => true
     end
  && match tok_exp t with
     | Some (_, ds) => digits_ok ds
     | None => true
     end.

Definition is_float_tok (t : numtok) : bool :=
  match tok_frac t, tok_exp t with
  | None, None => false
  | _, _ => true
  end.

Definition digits_value (s : string) : Z := fst (fst (digits_from 0 0 s)).

(** The decimal a token with a fraction or an exponent denotes. *)
Definition tok_decimal (t : numtok) : decimal :=
  let f := match tok_frac t with
           | Some f => f
           | None => ""
           end in
  let e := match tok_exp t with
           | Some (neg, ds) => if neg then - digits_value ds else digits_value ds
           | None => 0
           end in
  DFinite (tok_neg t) (digits_value (tok_int t ++ f)) (e - Z.of_nat (String.length f)).

(** [float(text)] of a token: the nearest binary64 number. *)
Definition tok_float (t : numtok) : result float :=
  float_of_decimal (tok_decimal t).

(** [int(text)] of a token without fraction and exponent. *)
Definition tok_Z (t : numtok) : Z :=
  if tok_neg t then - digits_value (tok_int t) else digits_value (tok_int t).

(** *** [repr] of a float *)

(** Same sign, mantissa and exponent (not [==]: [nan] is the same as
    [nan], [0.0] is not the same as [-0.0]). *)
Definition float_same (x y : float) : bool :=
  match x, y with
  | S754_nan, S754_nan => true
  | S754_zero s, S754_zero s' => Bool.eqb s s'
  | S754_infinity s, S754_infinity s' => Bool.eqb s s'
  | S754_finite s m e, S754_finite s' m' e' =>
      Bool.eqb s s' && Pos.eqb m m' && (e =? e')
  | _, _ => false
  end.

(** [m * 2^e] as a fraction. *)
Definition ratio (m : positive) (e : Z) : Z * Z :=
  if 0 <=? e then (Zpos m * 2 ^ e, 1) else (Zpos m, 2 ^ (- e)).

(** The least [k] from [k] on with [num / den < 10^k]. *)
Fixpoint decpt_from (fuel : nat) (k num den : Z) : Z :=
  match fuel with
  | O => k
  | S f =>
      if (if 0 <=? k then num <? den * 10 ^ k else num * 10 ^ (- k) <? den)
      then k else decpt_from f (k + 1) num den
  end.

(** A [k] with [10^(k - 1) <= m * 2^e], at most two below the least [k]
    with [m * 2^e < 10^k]: the binary logarithm, to the integer below, by
    an approximation of the logarithm of 2 in base 10. *)
Definition decpt_below (m : positive) (e : Z) : Z :=
  (Zpos (digits2_pos m) + e - 1) * 30103 / 100000 - 1.

(** The integers next to [num / den * 10^(n - k)], the nearer one first. *)
Definition candidates (n k num den : Z) : list Z :=
  let '(a, b) := if 0 <=? n - k then (num * 10 ^ (n - k), den)
                 else (num, den * 10 ^ (k - n)) in
  let q := a / b in
  let r := a mod b in
  match 2 * r ?= b with
  | Lt => if r =? 0 then [q] else [q; q + 1]
  | Gt => [q + 1; q]
  | Eq => if Z.even q then [q; q + 1] else [q + 1; q]
  end.

(** Drops the zeros at the end of [d * 10^p]. *)
Fixpoint strip_zeros (fuel : nat) (d p : Z) : Z * Z :=
  match fuel with
  | O => (d, p)
  | S f => if (0 <? d) && (d mod 10 =? 0) then strip_zeros f (d / 10) (p + 1)
           else (d, p)
  end.

Fixpoint zeros (n : nat) : string :=
  match n with
  | O => ""
  | S k => String "0" (zeros k)
  end.

Fixpoint split_at (n : nat) (s : string) : string * string :=
  match n, s with
  | S k, String c r => let '(a, b) := split_at k r in (String c a, b)
  | _, _ => ("", s)
  end.

Definition pad2 (s : string) : string :=
  match s with
  | String c "" => String "0" (String c "")
  | _ => s
  end.

(** The text of [d * 10^p] the way [repr] lays it out: the digits with a
    point when the point falls between [-4] and [16] places after the
    first digit, else one digit, the others after the point, and an
    exponent of two digits at least. *)
Definition tok_of_digits (neg : bool) (d p : Z) : numtok :=
  let ds := string_of_N (Z.to_N d) in
  let len := Z.of_nat (String.length ds) in
  let dp := len + p in
  if (-4 <? dp) && (dp <=? 16) then
    if dp <=? 0 then mktok neg "0" (Some (zeros (Z.to_nat (- dp)) ++ ds)) None
    else if dp <? len then
      let '(a, b) := split_at (Z.to_nat dp) ds in mktok neg a (Some b) None
    else mktok neg (ds ++ zeros (Z.to_nat (dp - len))) (Some "0") None
  else
    let '(a, b) := split_at 1 ds in
    mktok neg a (if String.eqb b "" then None else Some b)
          (Some (dp - 1 <? 0, pad2 (string_of_N (Z.to_N (Z.abs (dp - 1)))))).

(** A token stands for [x] when reading it gives [x] back. *)
Definition reads_as (x : float) (t : numtok) : bool :=
  tok_ok t && is_float_tok t
  && match tok_float t with
     | Ok y => float_same y x
     | Raise _ => false
     end.

Fixpoint first_reading (x : float) (l : list numtok) : option numtok :=
  match l with
  | [] => None
  | t :: rest => if reads_as x t then Some t else first_reading x rest
  end.

(** The shortest digit string that reads as [x], from [n] digits on. *)
Fixpoint shortest (fuel : nat) (n k num den : Z) (neg : bool) (x : float)
  : option numtok :=
  match fuel with
  | O => None
  | S f =>
      let toks := map (fun d => let '(d', p) := strip_zeros 20 d (k - n) in
                                tok_of_digits neg d' p)
                      (candidates n k num den) in
      match first_reading x toks with
      | Some t => Some t
      | None => shortest f (n + 1) k num den neg x
      end
  end.

(** The exact decimal expansion of [m * 2^e]. *)
Definition exact_tok (neg : bool) (m : positive) (e : Z) : numtok :=
  if 0 <=? e
  then mktok neg (string_of_N (Z.to_N (Zpos m * 2 ^ e))) None (Some (false, "0"))
  else mktok neg (string_of_N (Z.to_N (Zpos m * 5 ^ (- e)))) None
             (Some (true, string_of_N (Z.to_N (- e)))).

(** [repr(x)] for a finite [x] other than zero: the shortest digits that
    read back as [x], the nearest to [x] among those.  Seventeen digits
    are always enough for a binary64 number, so that the search ends with
    a result; the exact expansion closes the definition. *)
Definition float_tok (neg : bool) (m : positive) (e : Z) : numtok :=
  let '(num, den) := ratio m e in
  let k := decpt_from 4 (decpt_below m e) num den in
  match shortest 17 1 k num den neg (S754_finite neg m e) with
  | Some t => t
  | None => exact_tok neg m e
  end.

(** What the encoder writes for a float: [repr], and the three names that
    are not JSON ([allow_nan] is left at its default). *)
Definition float_text (x : float) : string :=
  match x with
  | S754_nan => "NaN"
  | S754_infinity s => if s then "-Infinity" else "Infinity"
  | S754_zero s => print_tok (mktok s "0" (Some "0") None)
  | S754_finite s m e => print_tok (float_tok s m e)
  end.

(** *** Strings as JSON writes them ([ensure_ascii] is left at its default) *)

Definition hex4 (v : Z) : string :=
  String (hex_digit (v / 4096)) (String (hex_digit (v / 256 mod 16))
    (String (hex_digit (v / 16 mod 16)) (String (hex_digit (v mod 16)) ""))).

Definition u_escape (v : Z) : string := "\u" ++ hex4 v.

(** A character outside ASCII: one escape, or the two surrogates. *)
Definition escape_point (cp : Z) : string :=
  if cp <? 65536 then u_escape cp
  else u_escape (55296 + (cp - 65536) / 1024)
       ++ u_escape (56320 + (cp - 65536) mod 1024).

Definition escape_ascii (c : ascii) : string :=
  if Ascii.eqb c dquote then String "\" (String dquote "")
  else if Ascii.eqb c "\" then "\\"
  else if code c =? 8 then "\b"
  else if code c =? 9 then "\t"
  else if code c =? 10 then "\n"
  else if code c =? 12 then "\f"
  else if code c =? 13 then "\r"
  else if (code c <? 32) || (code c =? 127) then u_escape (code c)
  else String c "".

(** The characters of a UTF-8 string, escaped; a byte that starts no
    character is taken for the character of that number. *)
Fixpoint encode_chars (s : string) : string :=
  match s with
  | "" => ""
  | String c1 r1 =>
      let b1 := code c1 in
      if b1 <? 128 then escape_ascii c1 ++ encode_chars r1
      else if b1 <? 192 then escape_point b1 ++ encode_chars r1
      else
        match r1 with
        | "" => escape_point b1
        | String c2 r2 =>
            let b2 := code c2 - 128 in
            if b1 <? 224
            then escape_point ((b1 - 192) * 64 + b2) ++ encode_chars r2
            else
              match r2 with
              | "" => escape_point b1 ++ encode_chars r1
              | String c3 r3 =>
                  let b3 := code c3 - 128 in
                  if b1 <? 240
                  then escape_point ((b1 - 224) * 4096 + b2 * 64 + b3)
                       ++ encode_chars r3
                  else
                    match r3 with
                    | "" => escape_point b1 ++ encode_chars r1
                    | String c4 r4 =>
                        escape_point ((b1 - 240) * 262144 + b2 * 4096
                                      + b3 * 64 + (code c4 - 128))
                        ++ encode_chars r4
                    end
              end
        end
  end.

Definition encode_str (s : string) : string :=
  String dquote (encode_chars s ++ String dquote "").

(** The strings that are the UTF-8 form of a sequence of characters
    (shortest form, no surrogates, nothing above U+10FFFF). *)
Fixpoint utf8_valid (s : string) : bool :=
  match s with
  | "" => true
  | String c1 r1 =>
      let b1 := code c1 in
      if b1 <? 128 then utf8_valid r1
      else if b1 <? 194 then false
      else
        match r1 with
        | "" => false
        | String c2 r2 =>
            if b1 <? 224 then is_continuation c2 && utf8_valid r2
            else
              match r2 with
              | "" => false
              | String c3 r3 =>
                  if b1 <? 240 then
                    let cp := (b1 - 224) * 4096 + (code c2 - 128) * 64
                              + (code c3 - 128) in
                    is_continuation c2 && is_continuation c3
                    && (2048 <=? cp) && negb ((55296 <=? cp) && (cp <? 57344))
                    && utf8_valid r3
                  else
                    match r3 with
                    | "" => false
                    | String c4 r4 =>
                        let cp := (b1 - 240) * 262144 + (code c2 - 128) * 4096
                                  + (code c3 - 128) * 64 + (code c4 - 128) in
                        is_continuation c2 && is_continuation c3
                        && is_continuation c4
                        && (65536 <=? cp) && (cp <? 1114112)
                        && utf8_valid r4
                    end
              end
        end
  end.

(** *** Layout *)

Definition newline : ascii := ascii_of_N 10.

Fixpoint spaces (n : nat) : string :=
  match n with
  | O => ""
  | S k => String " " (spaces k)
  end.

(** A new line and the indentation of [level], two spaces a level. *)
Definition break (level : nat) : string :=
  String newline (spaces (2 * level)).

Fixpoint join_with (sep : string) (l : list string) : string :=
  match l with
  | [] => ""
  | [x] => x
  | x :: rest => x ++ sep ++ join_with sep rest
  end.

(** The text of a value at a nesting level.  The limits of the
    interpreter (on the nesting of containers and on the number of digits
    of an integer) are not modelled. *)
Fixpoint encode (level : nat) (o : pyobj) : string :=
  match o with
  | ONone => "null"
  | OBool b => if b then "true" else "false"
  | OInt z => string_of_Z z
  | OFloat x => float_text x
  | OStr s => encode_str s
  | OList l =>
      match l with
      | [] => "[]"
      | _ => "[" ++ break (S level)
             ++ join_with ("," ++ break (S level)) (map (encode (S level)) l)
             ++ break level ++ "]"
      end
  | ODict d =>
      match d with
      | [] => "{}"
      | _ => "{" ++ break (S level)
             ++ join_with ("," ++ break (S level))
                  (map (fun kv => match kv with
                                  | (k, x) => encode_str k ++ ": " ++ encode (S level) x
                                  end) d)
             ++ break level ++ "}"
      end
  end.

(** The content of the file [save_json] writes. *)
Definition json_text (rows : list row) : string := encode 0 (obj_of_rows rows).

(** *** Reading *)

Definition is_ws (c : ascii) : bool :=
  Ascii.eqb c " " || (code c =? 9) || (code c =? 10) || (code c =? 13).

Fixpoint skip_ws (s : string) : string :=
  match s with
  | String c r => if is_ws c then skip_ws r else s
  | "" => ""
  end.

Definition hex_val (c : ascii) : option Z :=
  if is_digit c then Some (digit_val c)
  else if (97 <=? code c) && (code c <=? 102) then Some (code c - 87)
  else if (65 <=? code c) && (code c <=? 70) then Some (code c - 55)
  else None.

Definition hex4_val (h1 h2 h3 h4 : ascii) : option Z :=
  match hex_val h1, hex_val h2, hex_val h3, hex_val h4 with
  | Some a, Some b, Some c, Some d => Some (a * 4096 + b * 256 + c * 16 + d)
  | _, _, _, _ => None
  end.

Definition byte (z : Z) : ascii := ascii_of_N (Z.to_N z).

(** The UTF-8 form of a character. *)
Definition utf8 (cp : Z) : string :=
  if cp <? 128 then String (byte cp) ""
  else if cp <? 2048
  then String (byte (192 + cp / 64)) (String (byte (128 + cp mod 64)) "")
  else if cp <? 65536
  then String (byte (224 + cp / 4096))
         (String (byte (128 + cp / 64 mod 64)) (String (byte (128 + cp mod 64)) ""))
  else String (byte (240 + cp / 262144))
         (String (byte (128 + cp / 4096 mod 64))
            (String (byte (128 + cp / 64 mod 64))
               (String (byte (128 + cp mod 64)) ""))).

Definition unescape (c : ascii) : option ascii :=
  if Ascii.eqb c dquote then Some dquote
  else if Ascii.eqb c "\" then Some "\"%char
  else if Ascii.eqb c "/" then Some "/"%char
  else if Ascii.eqb c "b" then Some (byte 8)
  else if Ascii.eqb c "f" then Some (byte 12)
  else if Ascii.eqb c "n" then Some (byte 10)
  else if Ascii.eqb c "r" then Some (byte 13)
  else if Ascii.eqb c "t" then Some (byte 9)
  else None.

Definition prepend (a : string) (r : option (string * string))
  : option (string * string) :=
  match r with
  | Some (t, rest) => Some (a ++ t, rest)
  | None => None
  end.

(** The string after an opening quote, up to the closing one, and what
    follows it.  A control character ends the reading with an error
    ([strict] is left at its default), as does a malformed escape; a high
    surrogate and the low surrogate after it make one character. *)
Fixpoint scanstring (s : string) : option (string * string) :=
  match s with
  | "" => None
  | String c r =>
      if Ascii.eqb c dquote then Some ("", r)
      else if Ascii.eqb c "\" then
        match r with
        | "" => None
        | String e r1 =>
            if Ascii.eqb e "u" then
              match r1 with
              | String h1 (String h2 (String h3 (String h4 r2))) =>
                  match hex4_val h1 h2 h3 h4 with
                  | None => None
                  | Some u =>
                      if (55296 <=? u) && (u <? 56320) then
                        match r2 with
                        | String "\" (String "u" (String k1 (String k2
                            (String k3 (String k4 r3))))) =>
                            match hex4_val k1 k2 k3 k4 with
                            | None => None
                            | Some u2 =>
                                if (56320 <=? u2) && (u2 <? 57344)
                                then prepend
                                       (utf8 (65536 + (u - 55296) * 1024
                                              + (u2 - 56320)))
                                       (scanstring r3)
                                else prepend (utf8 u) (scanstring r2)
                            end
                        | _ => prepend (utf8 u) (scanstring r2)
                        end
                      else prepend (utf8 u) (scanstring r2)
                  end
              | _ => None
              end
            else
              match unescape e with
              | Some a => prepend (String a "") (scanstring r1)
              | None => None
              end
        end
      else if code c <? 32 then None
      else prepend (String c "") (scanstring r)
  end.

Fixpoint span_digits (s : string) : string * string :=
  match s with
  | String c r =>
      if is_digit c then let '(d, rest) := span_digits r in (String c d, rest)
      else ("", s)
  | "" => ("", "")
  end.

Definition lex_int (s : string) : option (string * string) :=
  match s with
  | String c r =>
      if Ascii.eqb c "0" then Some ("0", r)
      else if is_digit c then Some (span_digits s)
      else None
  | "" => None
  end.

Definition lex_frac (s : string) : option string * string :=
  match s with
  | String "." r =>
      match span_digits r with
      | ("", _) => (None, s)
      | (f, rest) => (Some f, rest)
      end
  | _ => (None, s)
  end.

Definition lex_exp (s : string) : option (bool * string) * string :=
  match s with
  | String c r =>
      if Ascii.eqb c "e" || Ascii.eqb c "E" then
        let '(neg, r1) := match r with
                          | String "-" r' => (true, r')
                          | String "+" r' => (false, r')
                          | _ => (false, r)
                          end in
        match span_digits r1 with
        | ("", _) => (None, s)
        | (ds, rest) => (Some (neg, ds), rest)
        end
      else (None, s)
  | "" => (None, s)
  end.

(** The number at the head of [s]: an optional [-], then [0] or digits
    that do not start with [0], then an optional point with digits, then
    an optional [e] or [E] with an optional sign and digits. *)
Definition lex_number (s : string) : option (numtok * string) :=
  let '(neg, s1) := match s with
                    | String "-" r => (true, r)
                    | _ => (false, s)
                    end in
  match lex_int s1 with
  | None => None
  | Some (i, s2) =>
      let '(f, s3) := lex_frac s2 in
      let '(e, s4) := lex_exp s3 in
      Some (mktok neg i f e, s4)
  end.

Definition number_of_tok (t : numtok) : option pyobj :=
  if is_float_tok t then
    match tok_float t with
    | Ok x => Some (OFloat x)
    | Raise _ => None
    end
  else Some (OInt (tok_Z t)).

Fixpoint strip_prefix (p s : string) : option string :=
  match p, s with
  | "", _ => Some s
  | String a p', String b s' => if Ascii.eqb a b then strip_prefix p' s' else None
  | _, _ => None
  end.

(** [d[k] = v] on the list of the items. *)
Fixpoint dict_set (k : string) (v : pyobj) (d : list (string * pyobj))
  : list (string * pyobj) :=
  match d with
  | [] => [(k, v)]
  | (k', v') :: rest =>
      if String.eqb k k' then (k, v) :: rest else (k', v') :: dict_set k v rest
  end.

Definition literal (s : string) : option (pyobj * string) :=
  match strip_prefix "null" s with
  | Some r => Some (ONone, r)
  | None =>
  match strip_prefix "true" s with
  | Some r => Some (OBool true, r)
  | None =>
  match strip_prefix "false" s with
  | Some r => Some (OBool false, r)
  | None =>
  match lex_number s with
  | Some (t, r) =>
      match number_of_tok t with
      | Some v => Some (v, r)
      | None => None
      end
  | None =>
  match strip_prefix "NaN" s with
  | Some r => Some (OFloat S754_nan, r)
  | None =>
  match strip_prefix "Infinity" s with
  | Some r => Some (OFloat (S754_infinity false), r)
  | None =>
  match strip_prefix "-Infinity" s with
  | Some r => Some (OFloat (S754_infinity true), r)
  | None => None
  end end end end end end end.

(** One value at the head of [s] (no white space before it), and what
    follows it.  [fuel] bounds the nesting and the number of items. *)
Fixpoint parse_value (fuel : nat) (s : string) : option (pyobj * string) :=
  match fuel with
  | O => None
  | S f =>
      match s with
      | "" => None
      | String c r =>
          if Ascii.eqb c dquote then
            match scanstring r with
            | Some (t, rest) => Some (OStr t, rest)
            | None => None
            end
          else if Ascii.eqb c "{" then
            match skip_ws r with
            | String "}" rest => Some (ODict [], rest)
            | r1 => parse_members f r1 []
            end
          else if Ascii.eqb c "[" then
            match skip_ws r with
            | String "]" rest => Some (OList [], rest)
            | r1 => parse_elements f r1 []
            end
          else literal s
      end
  end
with parse_members (fuel : nat) (s : string) (acc : list (string * pyobj))
  : option (pyobj * string) :=
  match fuel with
  | O => None
  | S f =>
      match s with
      | String c r =>
          if Ascii.eqb c dquote then
            match scanstring r with
            | Some (k, r1) =>
                match skip_ws r1 with
                | String ":" r2 =>
                    match parse_value f (skip_ws r2) with
                    | Some (v, r3) =>
                        match skip_ws r3 with
                        | String "}" rest => Some (ODict (dict_set k v acc), rest)
                        | String "," r4 => parse_members f (skip_ws r4) (dict_set k v acc)
                        | _ => None
                        end
                    | None => None
                    end
                | _ => None
                end
            | None => None
            end
          else None
      | "" => None
      end
  end
with parse_elements (fuel : nat) (s : string) (acc : list pyobj)
  : option (pyobj * string) :=
  match fuel with
  | O => None
  | S f =>
      match parse_value f s with
      | Some (v, r1) =>
          match skip_ws r1 with
          | String "]" rest => Some (OList (acc ++ [v]), rest)
          | String "," r2 => parse_elements f (skip_ws r2) (acc ++ [v])
          | _ => None
          end
      | None => None
      end
  end.

(** [json.load]: one value, white space around it, nothing else.  An
    error is a [JSONDecodeError], which is a [ValueError]. *)
Definition json_load (text : string) : result pyobj :=
  match parse_value (S (String.length text)) (skip_ws text) with
  | Some (v, rest) =>
      if String.eqb (skip_ws rest) "" then Ok v else Raise ValueError
  | None => Raise ValueError
  end.

(** *** [==] *)

Definition Z_of_float (x : float) : option Z :=
  match x with
  | S754_zero _ => Some 0
  | S754_finite s m e =>
      if 0 <=? e then Some ((if s then -1 else 1) * Zpos m * 2 ^ e)
      else if Zpos m mod 2 ^ (- e) =? 0
      then Some ((if s then -1 else 1) * (Zpos m / 2 ^ (- e)))
      else None
  | _ => None
  end.

Definition int_eq_float (z : Z) (x : float) : bool :=
  match Z_of_float x with
  | Some z' => z =? z'
  | None => false
  end.

Fixpoint lookup_obj (k : string) (d : list (string * pyobj)) : option pyobj :=
  match d with
  | [] => None
  | (k', v) :: rest => if String.eqb k k' then Some v else lookup_obj k rest
  end.

(** [a == b] for two values that are not the same object: numbers by
    value ([nan] equals nothing, [True] is [1]), lists item by item,
    dictionaries by their keys. *)
Fixpoint py_eq (a b : pyobj) : bool :=
  match a, b with
  | ONone, ONone => true
  | OBool x, OBool y => Bool.eqb x y
  | OBool x, OInt y | OInt y, OBool x => (if x then 1 else 0) =? y
  | OBool x, OFloat y | OFloat y, OBool x => int_eq_float (if x then 1 else 0) y
  | OInt x, OInt y => x =? y
  | OInt x, OFloat y | OFloat y, OInt x => int_eq_float x y
  | OFloat x, OFloat y => SFeqb x y
  | OStr x, OStr y => String.eqb x y
  | OList x, OList y =>
      (fix all2 (x y : list pyobj) : bool :=
         match x, y with
         | [], [] => true
         | a :: x', b :: y' => py_eq a b && all2 x' y'
         | _, _ => false
         end) x y
  | ODict x, ODict y =>
      (Nat.eqb (List.length x) (List.length y))
      && forallb (fun kv => match kv with
                            | (k, v) => match lookup_obj k y with
                                        | Some w => py_eq v w
                                        | None => false
                                        end
                            end) x
  | _, _ => false
  end.

(** ** Vocabulary of the properties of the JSON file *)

(** The first character of [s] satisfies [p]. *)
Definition starts_with (p : ascii -> bool) (s : string) : bool :=
  match s with
  | String c _ => p c
  | "" => false
  end.

(** The number the digits [d] denote after the digits of [acc]. *)
Fixpoint uint_value (d : Decimal.uint) (acc : Z) : Z :=
  match d with
  | Decimal.Nil => acc
  | Decimal.D0 d => uint_value d (10 * acc)
  | Decimal.D1 d => uint_value d (10 * acc + 1)
  | Decimal.D2 d => uint_value d (10 * acc + 2)
  | Decimal.D3 d => uint_value d (10 * acc + 3)
  | Decimal.D4 d => uint_value d (10 * acc + 4)
  | Decimal.D5 d => uint_value d (10 * acc + 5)
  | Decimal.D6 d => uint_value d (10 * acc + 6)
  | Decimal.D7 d => uint_value d (10 * acc + 7)
  | Decimal.D8 d => uint_value d (10 * acc + 8)
  | Decimal.D9 d => uint_value d (10 * acc + 9)
  end.

(** No number token goes on into [rest]. *)
Definition number_end (rest : string) : bool :=
  match rest with
  | "" => true
  | String c _ =>
      negb (is_digit c) && negb (Ascii.eqb c ".") && negb (Ascii.eqb c "e")
      && negb (Ascii.eqb c "E")
  end.

(** The fraction and the exponent of a token as [print_tok] writes them. *)
Definition frac_text (t : numtok) : string :=
  match tok_frac t with
  | Some f => "." ++ f
  | None => ""
  end.

Definition exp_text (t : numtok) : string :=
  match tok_exp t with
  | Some (neg, ds) => "e" ++ (if neg then "-" else "+") ++ ds
  | None => ""
  end.

(** A record as the service's documents give it: the date, the service
    and the unit are strings, the amount is a binary64 number. *)
Definition row_ok (r : row) : bool :=
  match row_date r, row_service r, row_unit r with
  | PStr d, PStr s, PStr u =>
      utf8_valid d && utf8_valid s && utf8_valid u
      && valid_binary prec emax (row_amount r)
  | _, _, _ => false
  end.

Definition is_nan (x : float) : bool :=
  match x with
  | S754_nan => true
  | _ => false
  end.

(** A text [vt] that is read as the value [v] wherever a value may stand. *)
Definition reads_value (vt : string) (v : pyobj) : Prop :=
  forall f tail, number_end tail = true ->
    parse_value (S f) (vt ++ tail) = Some (v, tail)
    /\ skip_ws (vt ++ tail) = vt ++ tail.

(** The content of the file at [path] after the events [t]: the text of
    the last write of JSON there. *)
Fixpoint json_written (t : list event) (path : string) : option string :=
  match t with
  | [] => None
  | ev :: rest =>
      match json_written rest path with
      | Some text => Some text
      | None =>
          match ev with
          | EvWriteJson p rows =>
              if String.eqb p path then Some (json_text rows) else None
          | _ => None
          end
      end
  end.

(** An answer whose one amount is [NaN]. *)
Definition response_nan : pyval :=
  PDict [("ResultsByTime",
          PList [PDict [("TimePeriod", PDict [("Start", PStr "2024-01-01")]);
                        ("Groups", PList [group_example "AmazonEC2" "NaN" "USD"])]])].

(** * Properties *)

(** ** The definitions at work *)

Example strptime_examples :
  strptime "2024-02-29" = Ok (mkdate 2024 2 29)
  /\ strptime "2024-1-5" = Ok (mkdate 2024 1 5)
  /\ strptime "2024-01- 5" = Ok (mkdate 2024 1 5)
  /\ strptime "2023-02-29" = Raise ValueError
  /\ strptime "2024-01-311" = Raise ValueError
  /\ strptime "2024-13-01" = Raise ValueError
  /\ strptime "24-01-01" = Raise ValueError
  /\ strptime "0000-01-01" = Raise ValueError.
Proof. repeat split. Qed.

Example get_dates_examples :
  get_dates cfg_single (mkdate 2024 6 1)
  = Ok ("2024-02-28", "2024-02-29", "2024-02-28")
  /\ get_dates cfg_range (mkdate 2024 6 1)
     = Ok ("2023-12-30", "2024-01-01", "2023-12-30_to_2023-12-31")
  /\ get_dates cfg_default (mkdate 2024 3 1)
     = Ok ("2024-02-29", "2024-03-01", "2024-02-29")
  /\ get_dates (mkconfig None None "" (Some "9999-12-31") None None)
               (mkdate 2024 3 1)
     = Raise OverflowError
  /\ get_dates (mkconfig None None "" (Some "yesterday") None None)
               (mkdate 2024 3 1)
     = Raise ValueError.
Proof. repeat split. Qed.

Example to_float_examples :
  to_float (PStr "12.3400") = Ok (S754_finite false 6946802425218990 (-49))
  /\ to_float (PStr "0.1") = Ok (S754_finite false 7205759403792794 (-56))
  /\ to_float (PStr " -1_0.5e-1 ") = Ok (S754_finite true 4728779608739021 (-52))
  /\ to_float (PStr "4.9e-324") = Ok (S754_finite false 1 (-1074))
  /\ to_float (PStr "1e400") = Ok (S754_infinity false)
  /\ to_float (PStr "NaN") = Ok S754_nan
  /\ to_float (PStr "sNaN") = Raise ValueError
  /\ to_float (PStr "12,34") = Raise InvalidOperation
  /\ to_float (PInt 3) = Ok (S754_finite false 6755399441055744 (-51))
  /\ to_float PNone = Raise TypeError.
Proof. repeat split. Qed.

Example format_2f_examples :
  format_2f (S754_finite false 6946802425218990 (-49)) = "12.34"
  /\ format_2f (S754_finite false 4503599627370496 (-55)) = "0.12"
  /\ format_2f (S754_finite true 1 (-1074)) = "-0.00"
  /\ format_2f (S754_finite false 4503599627370496 0) = "4503599627370496.00"
  /\ format_2f (S754_infinity true) = "-inf"
  /\ format_2f S754_nan = "nan".
Proof. repeat split. Qed.

Example key_examples :
  key_of cfg_default (json_file "2024-01-01")
  = "aws-costs/aws_costs_2024-01-01.json"
  /\ rstrip_slash "a/b//" = "a/b"
  /\ basename "output/aws_costs_x.csv" = "aws_costs_x.csv"
  /\ basename "a/b/" = ""
  /\ path_join "output" "/tmp/x" = "/tmp/x".
Proof. repeat split. Qed.

Example run_example :
  script env_example world_example
  = (Ok tt,
     [EvQuery "2024-01-01" "2024-01-02";
      EvMakedirs "output";
      EvWriteJson "output/aws_costs_2024-01-01.json" rows_example;
      EvWriteCsv "output/aws_costs_2024-01-01.csv" rows_example;
      EvUpload "output/aws_costs_2024-01-01.json" "bucket"
               "aws-costs/aws_costs_2024-01-01.json";
      EvUpload "output/aws_costs_2024-01-01.csv" "bucket"
               "aws-costs/aws_costs_2024-01-01.csv";
      EvPrint (uploaded_line (load_config env_example) "2024-01-01");
      EvPrint (total_line rows_example)]).
Proof. reflexivity. Qed.

(** ** Results *)

Lemma rbind_ok {A B : Type} (r : result A) (k : A -> result B) (b : B) :
  rbind r k = Ok b -> exists a, r = Ok a /\ k a = Ok b.
Proof.
  destruct r as [a|e]; simpl; intros H; [eauto | discriminate].
Qed.

(** ** The calendar *)

Module CalendarFacts.

Lemma valid_bounds (d : date) :
  valid d = true ->
  1 <= year d <= 9999 /\ 1 <= month d <= 12 /\
  1 <= day d <= days_in_month (year d) (month d).
Proof.
  unfold valid, MINYEAR, MAXYEAR. intros H.
  repeat (apply andb_prop in H; destruct H as [H ?]). lia.
Qed.

Lemma valid_intro (y m d : Z) :
  1 <= y <= 9999 -> 1 <= m <= 12 -> 1 <= d <= days_in_month y m ->
  valid (mkdate y m d) = true.
Proof.
  intros. unfold valid, MINYEAR, MAXYEAR. simpl.
  repeat (apply andb_true_intro; split); lia.
Qed.

Ltac month_cases m :=
  let H := fresh "Hm" in
  assert (H : m = 1 \/ m = 2 \/ m = 3 \/ m = 4 \/ m = 5 \/ m = 6 \/ m = 7
              \/ m = 8 \/ m = 9 \/ m = 10 \/ m = 11 \/ m = 12) by lia;
  repeat (destruct H as [H|H]); subst m.

Lemma days_in_month_range (y m : Z) :
  1 <= m <= 12 -> 28 <= days_in_month y m <= 31.
Proof.
  intros H. month_cases m; simpl; try lia. destruct (is_leap y); lia.
Qed.

Lemma days_before_next_month (y m : Z) :
  1 <= m < 12 ->
  days_before_month y (m + 1) = days_before_month y m + days_in_month y m.
Proof.
  intros H. unfold days_before_month.
  month_cases m; simpl; destruct (is_leap y); lia.
Qed.

Lemma days_before_december (y : Z) :
  days_before_month y 12 + 31 = 365 + (if is_leap y then 1 else 0).
Proof.
  unfold days_before_month. simpl. destruct (is_leap y); lia.
Qed.

Lemma days_before_next_year (y : Z) :
  days_before_year (y + 1)
  = days_before_year y + 365 + (if is_leap y then 1 else 0).
Proof.
  unfold days_before_year, is_leap. cbv zeta.
  replace (y + 1 - 1) with y by lia.
  destruct (y mod 4 =? 0) eqn:H4; destruct (y mod 100 =? 0) eqn:H100;
    destruct (y mod 400 =? 0) eqn:H400; simpl;
    rewrite ?Z.eqb_eq, ?Z.eqb_neq in *;
    Z.div_mod_to_equations; lia.
Qed.

Lemma date_ltb_intro (a b : date) :
  year a < year b \/
  (year a = year b /\
   (month a < month b \/ (month a = month b /\ day a < day b))) ->
  date_ltb a b = true.
Proof.
  unfold date_ltb. intros [H|[Hy [H|[Hm H]]]].
  - apply Z.ltb_lt in H. now rewrite H.
  - apply Z.eqb_eq in Hy. apply Z.ltb_lt in H. rewrite Hy, H.
    now rewrite orb_true_r.
  - apply Z.eqb_eq in Hy, Hm. apply Z.ltb_lt in H. rewrite Hy, Hm, H.
    simpl. now rewrite !orb_true_r.
Qed.

Lemma add_one_day_spec (d d1 : date) :
  valid d = true -> add_one_day d = Ok d1 ->
  valid d1 = true /\ toordinal d1 = toordinal d + 1 /\ date_ltb d d1 = true.
Proof.
  intros Hv H. apply valid_bounds in Hv. destruct d as [y m dd]. cbn [year month day] in Hv.
  unfold add_one_day, MAXYEAR in H. cbn [year month day] in H.
  destruct (dd <? days_in_month y m) eqn:E1.
  - injection H as <-. apply Z.ltb_lt in E1.
    split; [apply valid_intro; lia|]. unfold toordinal. cbn [year month day].
    split; [lia|]. apply date_ltb_intro. cbn [year month day]. lia.
  - apply Z.ltb_ge in E1.
    destruct (m <? 12) eqn:E2.
    + injection H as <-. apply Z.ltb_lt in E2.
      split; [apply valid_intro; try lia;
              pose proof (days_in_month_range y (m + 1)); lia|].
      unfold toordinal. cbn [year month day].
      rewrite days_before_next_month by lia.
      split; [lia|]. apply date_ltb_intro. cbn [year month day]. lia.
    + apply Z.ltb_ge in E2.
      destruct (y <? 9999) eqn:E3; [|discriminate].
      injection H as <-. apply Z.ltb_lt in E3.
      assert (m = 12) by lia. subst m. cbn [year month day] in Hv.
      split; [apply valid_intro; simpl; lia|].
      unfold toordinal. cbn [year month day].
      rewrite days_before_next_year.
      pose proof (days_before_december y) as Hd.
      split.
      * replace (days_before_month (y + 1) 1) with 0 by reflexivity.
        change (days_in_month y 12) with 31 in *. lia.
      * apply date_ltb_intro. cbn [year month day]. lia.
Qed.

Lemma add_one_day_total (d : date) :
  valid d = true -> d <> date_max -> exists d1, add_one_day d = Ok d1.
Proof.
  intros Hv Hne. apply valid_bounds in Hv. destruct d as [y m dd].
  cbn [year month day] in Hv. unfold add_one_day, MAXYEAR. cbn [year month day].
  destruct (dd <? days_in_month y m) eqn:E1; [eauto|].
  destruct (m <? 12) eqn:E2; [eauto|].
  destruct (y <? 9999) eqn:E3; [eauto|].
  exfalso. apply Hne.
  apply Z.ltb_ge in E1, E2, E3.
  assert (m = 12) by lia. subst m. simpl in *.
  assert (y = 9999) by lia. assert (dd = 31) by lia. subst. reflexivity.
Qed.

(** The addition overflows at the last date only, whose ordinal is the
    largest. *)
Lemma add_one_day_overflow (d : date) :
  valid d = true -> add_one_day d = Raise OverflowError -> d = date_max.
Proof.
  intros Hv H. destruct (date_eqb d date_max) eqn:E.
  - destruct d as [y m dd]. unfold date_eqb in E. cbn in E.
    apply andb_prop in E as [E Ed]. apply andb_prop in E as [Ey Em].
    apply Z.eqb_eq in Ey, Em, Ed. now subst.
  - assert (Hne : d <> date_max) by (intros ->; discriminate E).
    destruct (add_one_day_total d Hv Hne) as [d1 H1]. congruence.
Qed.

Lemma toordinal_bounds :
  toordinal date_min = 1 /\ toordinal date_max = MAXORDINAL.
Proof. split; reflexivity. Qed.

Lemma sub_one_day_spec (d y : date) :
  valid d = true -> sub_one_day d = Ok y ->
  valid y = true /\ add_one_day y = Ok d.
Proof.
  intros Hv H. apply valid_bounds in Hv. destruct d as [yy m dd]. cbn [year month day] in Hv.
  unfold sub_one_day, MINYEAR in H. cbn [year month day] in H.
  destruct (1 <? dd) eqn:E1.
  - injection H as <-. apply Z.ltb_lt in E1.
    split; [apply valid_intro; lia|].
    unfold add_one_day. cbn [year month day].
    replace (dd - 1 <? days_in_month yy m) with true
      by (symmetry; apply Z.ltb_lt; lia).
    f_equal. f_equal. lia.
  - apply Z.ltb_ge in E1. assert (dd = 1) by lia. subst dd.
    destruct (1 <? m) eqn:E2.
    + injection H as <-. apply Z.ltb_lt in E2.
      pose proof (days_in_month_range yy (m - 1)).
      split; [apply valid_intro; lia|].
      unfold add_one_day. cbn [year month day]. rewrite Z.ltb_irrefl.
      replace (m - 1 <? 12) with true by (symmetry; apply Z.ltb_lt; lia).
      f_equal. f_equal. lia.
    + apply Z.ltb_ge in E2. assert (m = 1) by lia. subst m.
      destruct (1 <? yy) eqn:E3; [|discriminate].
      injection H as <-. apply Z.ltb_lt in E3.
      split; [apply valid_intro; simpl; lia|].
      unfold add_one_day, MAXYEAR. cbn [year month day].
      replace (yy - 1 <? 9999) with true by (symmetry; apply Z.ltb_lt; lia).
      change (days_in_month (yy - 1) 12) with 31. rewrite !Z.ltb_irrefl.
      f_equal. f_equal. lia.
Qed.

Lemma sub_one_day_total (d : date) :
  valid d = true -> d <> date_min -> exists y, sub_one_day d = Ok y.
Proof.
  intros Hv Hne. apply valid_bounds in Hv. destruct d as [y m dd].
  cbn [year month day] in Hv. unfold sub_one_day, MINYEAR. cbn [year month day].
  destruct (1 <? dd) eqn:E1; [eauto|].
  destruct (1 <? m) eqn:E2; [eauto|].
  destruct (1 <? y) eqn:E3; [eauto|].
  exfalso. apply Hne. apply Z.ltb_ge in E1, E2, E3.
  assert (y = 1) by lia. assert (m = 1) by lia. assert (dd = 1) by lia.
  subst. reflexivity.
Qed.

Lemma days_before_year_mono (y y' : Z) :
  y < y' ->
  days_before_year y + 365 + (if is_leap y then 1 else 0)
  <= days_before_year y'.
Proof.
  intros H. rewrite <- days_before_next_year.
  unfold days_before_year. cbv zeta.
  Z.div_mod_to_equations. lia.
Qed.

Lemma days_before_month_mono (y m m' : Z) :
  1 <= m -> m < m' -> m' <= 12 ->
  days_before_month y m + days_in_month y m <= days_before_month y m'.
Proof.
  intros H1 H2 H3. unfold days_before_month.
  month_cases m; month_cases m'; try lia; simpl; destruct (is_leap y); lia.
Qed.

Lemma toordinal_lt (a b : date) :
  valid a = true -> valid b = true -> date_ltb a b = true ->
  toordinal a < toordinal b.
Proof.
  intros Ha Hb H. apply valid_bounds in Ha, Hb.
  destruct a as [ya ma da], b as [yb mb db]. simpl in *.
  unfold date_ltb in H. simpl in H. unfold toordinal. simpl.
  apply orb_prop in H. destruct H as [H|H].
  - apply Z.ltb_lt in H.
    pose proof (days_before_year_mono ya yb H).
    pose proof (days_before_december ya).
    pose proof (days_before_month_mono ya ma 12).
    assert (0 <= days_before_month yb mb).
    { unfold days_before_month. month_cases mb; simpl;
        destruct (is_leap yb); lia. }
    assert (ma = 12 \/ ma < 12) as [->|Hlt] by lia;
      [change (days_in_month ya 12) with 31 in Ha|]; lia.
  - apply andb_prop in H. destruct H as [Hy H]. apply Z.eqb_eq in Hy. subst yb.
    apply orb_prop in H. destruct H as [H|H].
    + apply Z.ltb_lt in H.
      pose proof (days_before_month_mono ya ma mb). lia.
    + apply andb_prop in H. destruct H as [Hm H]. apply Z.eqb_eq in Hm.
      apply Z.ltb_lt in H. subst mb. lia.
Qed.

Lemma date_trichotomy (a b : date) :
  date_ltb a b = true \/ a = b \/ date_ltb b a = true.
Proof.
  destruct a as [ya ma da], b as [yb mb db]. unfold date_ltb. simpl.
  destruct (Z.lt_trichotomy ya yb) as [H|[H|H]].
  - left. apply Z.ltb_lt in H. now rewrite H.
  - subst yb. rewrite Z.ltb_irrefl, Z.eqb_refl. simpl.
    destruct (Z.lt_trichotomy ma mb) as [H|[H|H]].
    + left. apply Z.ltb_lt in H. now rewrite H.
    + subst mb. rewrite Z.ltb_irrefl, Z.eqb_refl. simpl.
      destruct (Z.lt_trichotomy da db) as [H|[H|H]].
      * left. now apply Z.ltb_lt.
      * right. left. now subst.
      * right. right. now apply Z.ltb_lt.
    + right. right. apply Z.ltb_lt in H. now rewrite H.
  - right. right. apply Z.ltb_lt in H. now rewrite H.
Qed.

(** The order of dates is the order of their ordinals. *)
Lemma date_ltb_toordinal (a b : date) :
  valid a = true -> valid b = true ->
  date_ltb a b = (toordinal a <? toordinal b).
Proof.
  intros Ha Hb.
  destruct (date_trichotomy a b) as [H|[H|H]].
  - rewrite H. symmetry. apply Z.ltb_lt. now apply toordinal_lt.
  - subst b. rewrite Z.ltb_irrefl.
    destruct (date_ltb a a) eqn:E; [|reflexivity].
    apply toordinal_lt in E; auto. lia.
  - pose proof (toordinal_lt b a Hb Ha H).
    replace (toordinal a <? toordinal b) with false
      by (symmetry; apply Z.ltb_ge; lia).
    destruct (date_ltb a b) eqn:E; [|reflexivity].
    apply toordinal_lt in E; auto. lia.
Qed.

Lemma toordinal_inj (a b : date) :
  valid a = true -> valid b = true -> toordinal a = toordinal b -> a = b.
Proof.
  intros Ha Hb H.
  destruct (date_trichotomy a b) as [L|[E|L]]; [|assumption|];
    apply toordinal_lt in L; auto; lia.
Qed.

End CalendarFacts.

(** ** Parsing and printing dates *)

Module StrptimeFacts.

Import CalendarFacts.

Lemma digit_char_ok (k : Z) :
  0 <= k <= 9 -> is_digit (digit_char k) = true /\ digit_val (digit_char k) = k.
Proof.
  intros H.
  assert (Hk : k = 0 \/ k = 1 \/ k = 2 \/ k = 3 \/ k = 4 \/ k = 5 \/ k = 6
               \/ k = 7 \/ k = 8 \/ k = 9) by lia.
  repeat (destruct Hk as [Hk|Hk]); subst k; split; reflexivity.
Qed.

Lemma match_Y_four_digits (y : Z) (rest : string) :
  0 <= y <= 9999 -> match_Y (four_digits y rest) = Some (y, rest).
Proof.
  intros H. unfold four_digits, two_digits, match_Y.
  destruct (digit_char_ok (y / 1000)) as [A1 A2];
    [Z.div_mod_to_equations; lia|].
  destruct (digit_char_ok ((y / 100) mod 10)) as [B1 B2];
    [Z.div_mod_to_equations; lia|].
  destruct (digit_char_ok (y mod 100 / 10)) as [C1 C2];
    [Z.div_mod_to_equations; lia|].
  destruct (digit_char_ok ((y mod 100) mod 10)) as [D1 D2];
    [Z.div_mod_to_equations; lia|].
  rewrite A1, B1, C1, D1, A2, B2, C2, D2. cbn [andb].
  f_equal. f_equal. clear - H. Z.div_mod_to_equations. lia.
Qed.

Ltac day_cases d :=
  let H := fresh "Hd" in
  assert (H : d = 1 \/ d = 2 \/ d = 3 \/ d = 4 \/ d = 5 \/ d = 6 \/ d = 7
              \/ d = 8 \/ d = 9 \/ d = 10 \/ d = 11 \/ d = 12 \/ d = 13
              \/ d = 14 \/ d = 15 \/ d = 16 \/ d = 17 \/ d = 18 \/ d = 19
              \/ d = 20 \/ d = 21 \/ d = 22 \/ d = 23 \/ d = 24 \/ d = 25
              \/ d = 26 \/ d = 27 \/ d = 28 \/ d = 29 \/ d = 30 \/ d = 31)
    by lia;
  repeat (destruct H as [H|H]); subst d.

Lemma re_match_strftime (y m d : Z) :
  0 <= y <= 9999 -> 1 <= m <= 12 -> 1 <= d <= 31 ->
  re_match (strftime (mkdate y m d)) = Some (y, m, d, "").
Proof.
  intros Hy Hm Hd. unfold re_match, strftime. cbn [year month day].
  rewrite match_Y_four_digits by lia.
  month_cases m; day_cases d; reflexivity.
Qed.

Lemma strptime_strftime (d : date) :
  valid d = true -> strptime (strftime d) = Ok d.
Proof.
  intros Hv. pose proof (valid_bounds d Hv) as (Hy & Hm & Hd).
  pose proof (days_in_month_range (year d) (month d) Hm).
  destruct d as [y m dd]. cbn [year month day] in *.
  unfold strptime. rewrite re_match_strftime by lia. now rewrite Hv.
Qed.

Lemma strptime_valid (s : string) (d : date) :
  strptime s = Ok d -> valid d = true.
Proof.
  unfold strptime. destruct (re_match s) as [[[[y m] dd] r]|]; [|discriminate].
  destruct r; [|discriminate].
  destruct (valid (mkdate y m dd)) eqn:E; [|discriminate].
  now intros [= <-].
Qed.

Lemma strptime_truthy (s : string) (d : date) :
  strptime s = Ok d -> truthy (Some s) = true.
Proof.
  destruct s; [discriminate | reflexivity].
Qed.

Lemma consumed_trans (a b c : string) :
  consumed a b -> consumed b c -> consumed a c.
Proof.
  induction 1; intros; [assumption|]. constructor; auto.
Qed.

Lemma digit_date_char (c : ascii) : is_digit c = true -> date_char c = true.
Proof.
  unfold date_char. now intros ->.
Qed.

Lemma in_range_date_char (l h : Z) (c : ascii) :
  in_range l h c = true -> date_char c = true.
Proof.
  unfold in_range. intros H. apply andb_prop in H as [_ H].
  now apply digit_date_char.
Qed.

Lemma date_char_not_slash (c : ascii) :
  date_char c = true -> Ascii.eqb c "/" = false.
Proof.
  destruct (Ascii.eqb c "/") eqn:E; [|reflexivity].
  apply Ascii.eqb_eq in E. subst c. discriminate.
Qed.

Lemma consumed_no_slash (s : string) : consumed s "" -> has_slash s = false.
Proof.
  remember "" as e eqn:He. induction 1 as [s|c s r Hc H IH].
  - now subst.
  - simpl. rewrite (date_char_not_slash c Hc). auto.
Qed.

Lemma match_Y_consumed (s r : string) (y : Z) :
  match_Y s = Some (y, r) -> consumed s r.
Proof.
  unfold match_Y.
  destruct s as [|a [|b [|c [|d rest]]]]; try discriminate.
  destruct (is_digit a) eqn:Ha; [|discriminate].
  destruct (is_digit b) eqn:Hb; [|discriminate].
  destruct (is_digit c) eqn:Hc; [|discriminate].
  destruct (is_digit d) eqn:Hd; [|discriminate].
  cbn [andb]. intros [= _ <-].
  repeat (constructor; [now apply digit_date_char|]). constructor.
Qed.

Lemma two_chars_consumed (l1 h1 l2 h2 v : Z) (s r : string) :
  In (v, r) (two_chars l1 h1 l2 h2 s) -> consumed s r.
Proof.
  unfold two_chars. destruct s as [|a [|b rest]]; try contradiction.
  destruct (in_range l1 h1 a) eqn:Ha; [|contradiction].
  destruct (in_range l2 h2 b) eqn:Hb; [|contradiction].
  cbn [andb]. intros [[= _ <-]|[]].
  repeat (constructor; [eapply in_range_date_char; eassumption|]).
  constructor.
Qed.

Lemma one_char_consumed (l h v : Z) (s r : string) :
  In (v, r) (one_char l h s) -> consumed s r.
Proof.
  unfold one_char. destruct s as [|a rest]; try contradiction.
  destruct (in_range l h a) eqn:Ha; [|contradiction].
  intros [[= _ <-]|[]].
  constructor; [eapply in_range_date_char; eassumption|]. constructor.
Qed.

Lemma space_then_consumed (l h v : Z) (s r : string) :
  In (v, r) (space_then l h s) -> consumed s r.
Proof.
  unfold space_then. destruct s as [|a rest]; try contradiction.
  destruct (Ascii.eqb a " ") eqn:Ha; [|contradiction].
  intros H. apply one_char_consumed in H.
  constructor; [|assumption]. unfold date_char. rewrite Ha.
  now rewrite orb_true_r.
Qed.

Lemma expect_dash_consumed (s r : string) :
  expect_dash s = Some r -> consumed s r.
Proof.
  unfold expect_dash. destruct s as [|a rest]; [discriminate|].
  destruct (Ascii.eqb a "-") eqn:Ha; [|discriminate].
  intros [= <-]. constructor; [|constructor].
  unfold date_char. rewrite Ha. now rewrite orb_true_r.
Qed.

Lemma match_m_consumed (v : Z) (s r : string) :
  In (v, r) (match_m s) -> consumed s r.
Proof.
  unfold match_m. rewrite !in_app_iff.
  intros [H|[H|H]];
    eauto using two_chars_consumed, one_char_consumed.
Qed.

Lemma match_d_consumed (v : Z) (s r : string) :
  In (v, r) (match_d s) -> consumed s r.
Proof.
  unfold match_d. rewrite !in_app_iff.
  intros [H|[H|[H|[H|H]]]];
    eauto using two_chars_consumed, one_char_consumed, space_then_consumed.
Qed.

Lemma first_success_some {A B : Type} (k : A -> option B) (alts : list A)
      (b : B) :
  first_success k alts = Some b -> exists a, In a alts /\ k a = Some b.
Proof.
  induction alts as [|a rest IH]; simpl; [discriminate|].
  destruct (k a) eqn:E.
  - intros [= <-]. exists a. auto.
  - intros H. destruct (IH H) as (a' & Hin & Hk). exists a'. auto.
Qed.

Lemma re_match_consumed (s r : string) (y m d : Z) :
  re_match s = Some (y, m, d, r) -> consumed s r.
Proof.
  unfold re_match.
  destruct (match_Y s) as [[y0 s1]|] eqn:EY; [|discriminate].
  destruct (expect_dash s1) as [s2|] eqn:E1; [|discriminate].
  intros H. apply first_success_some in H as ([m0 s3] & Hm & H).
  destruct (expect_dash s3) as [s4|] eqn:E2; [|discriminate].
  apply first_success_some in H as ([d0 s5] & Hd & H).
  injection H as _ _ _ <-.
  apply match_Y_consumed in EY. apply expect_dash_consumed in E1, E2.
  apply match_m_consumed in Hm. apply match_d_consumed in Hd.
  eauto using consumed_trans.
Qed.

Lemma strptime_no_slash (s : string) (d : date) :
  strptime s = Ok d -> has_slash s = false.
Proof.
  unfold strptime.
  destruct (re_match s) as [[[[y m] dd] r]|] eqn:E; [|discriminate].
  destruct r; [|discriminate]. intros _.
  apply consumed_no_slash. eapply re_match_consumed. eassumption.
Qed.

Lemma strftime_no_slash (d : date) :
  valid d = true -> has_slash (strftime d) = false.
Proof.
  intros H. eapply strptime_no_slash. now apply strptime_strftime.
Qed.

End StrptimeFacts.

(** ** The date window *)

Section GetDates.

Import CalendarFacts StrptimeFacts.

Variable cfg : config.
Variable today : date.

Lemma get_dates_single_branch (D : string) (d : date) :
  DATE cfg = Some D -> strptime D = Ok d -> d <> date_max ->
  exists d1,
    add_one_day d = Ok d1 /\
    get_dates cfg today = Ok (strftime d, strftime d1, D).
Proof.
  intros HD Hp Hmax.
  destruct (add_one_day_total d (strptime_valid _ _ Hp) Hmax) as [d1 H1].
  exists d1. split; [assumption|].
  unfold get_dates. rewrite HD. rewrite (strptime_truthy D d Hp).
  cbn [str_of]. rewrite Hp. cbn [rbind]. rewrite H1. reflexivity.
Qed.

Lemma get_dates_range_branch (S E : string) (s e : date) :
  truthy (DATE cfg) = false -> START cfg = Some S -> END cfg = Some E ->
  strptime S = Ok s -> strptime E = Ok e -> e <> date_max ->
  exists e1,
    add_one_day e = Ok e1 /\
    get_dates cfg today = Ok (strftime s, strftime e1, S ++ "_to_" ++ E).
Proof.
  intros HD HS HE Hs He Hmax.
  destruct (add_one_day_total e (strptime_valid _ _ He) Hmax) as [e1 H1].
  exists e1. split; [assumption|].
  unfold get_dates. rewrite HD, HS, HE.
  rewrite (strptime_truthy S s Hs), (strptime_truthy E e He).
  cbn [andb str_of]. rewrite Hs, He. cbn [rbind]. rewrite H1. reflexivity.
Qed.

Lemma get_dates_default_branch :
  truthy (DATE cfg) = false ->
  truthy (START cfg) && truthy (END cfg) = false ->
  valid today = true -> today <> date_min ->
  exists yest,
    sub_one_day today = Ok yest /\
    get_dates cfg today = Ok (strftime yest, strftime today, strftime yest).
Proof.
  intros HD HR Hv Hmin.
  destruct (sub_one_day_total today Hv Hmin) as [yest Hy].
  exists yest. split; [assumption|].
  destruct (sub_one_day_spec today yest Hv Hy) as [_ Ha].
  unfold get_dates. rewrite HD, HR, Hy. cbn [rbind]. rewrite Ha. reflexivity.
Qed.

Lemma window_is_intro (a b : date) (label : string) :
  valid a = true -> valid b = true ->
  window_is (Ok (strftime a, strftime b, label)) a b label.
Proof.
  intros Ha Hb. exists (strftime a), (strftime b).
  auto using strptime_strftime.
Qed.

Lemma default_window :
  truthy (DATE cfg) = false ->
  truthy (START cfg) && truthy (END cfg) = false ->
  valid today = true -> today <> date_min ->
  exists yest,
    toordinal yest = toordinal today - 1 /\
    window_is (get_dates cfg today) yest today (strftime yest).
Proof.
  intros HD HR Hv Hmin.
  destruct (get_dates_default_branch HD HR Hv Hmin) as (yest & Hy & ->).
  destruct (sub_one_day_spec today yest Hv Hy) as [Hvy Ha].
  destruct (add_one_day_spec yest today Hvy Ha) as (_ & Ho & _).
  exists yest. split; [lia|]. now apply window_is_intro.
Qed.

End GetDates.

(** C1, as it holds: the resolver takes the first branch that applies.
    With a single date [D], of the year 1000 or later and not the last
    date 9999-12-31, the window runs from [D] to the day after, under the
    label [D]; otherwise, with a start [S] and an end [E] of such years,
    [E] not the last date, from [S] to the day after [E], under the label
    [S_to_E]; otherwise from yesterday to today, under yesterday's date.
    A day after (before) is the date whose ordinal is one more (less).
    For the last date, as single date or as end, the resolver raises
    [OverflowError]. *)
Theorem get_dates_resolution (cfg : config) (today : date) :
  (forall D d,
      DATE cfg = Some D -> strptime D = Ok d ->
      1000 <= year d -> d <> date_max ->
      exists d1,
        toordinal d1 = toordinal d + 1 /\
        window_is (get_dates cfg today) d d1 D)
  /\ (forall S E s e,
         truthy (DATE cfg) = false ->
         START cfg = Some S -> END cfg = Some E ->
         strptime S = Ok s -> strptime E = Ok e ->
         1000 <= year s -> 1000 <= year e -> e <> date_max ->
         exists e1,
           toordinal e1 = toordinal e + 1 /\
           window_is (get_dates cfg today) s e1 (S ++ "_to_" ++ E))
  /\ (truthy (DATE cfg) = false ->
      truthy (START cfg) && truthy (END cfg) = false ->
      valid today = true -> today <> date_min ->
      exists yest,
        toordinal yest = toordinal today - 1 /\
        window_is (get_dates cfg today) yest today (strftime yest))
  /\ (forall D,
         DATE cfg = Some D -> strptime D = Ok date_max ->
         get_dates cfg today = Raise OverflowError)
  /\ (forall S E s,
         truthy (DATE cfg) = false ->
         START cfg = Some S -> END cfg = Some E ->
         strptime S = Ok s -> strptime E = Ok date_max ->
         get_dates cfg today = Raise OverflowError).
Proof.
  split; [|split; [|split; [|split]]].
  - intros D d HD Hp _ Hmax.
    destruct (get_dates_single_branch cfg today D d HD Hp Hmax)
      as (d1 & H1 & ->).
    pose proof (StrptimeFacts.strptime_valid _ _ Hp) as Hv.
    destruct (CalendarFacts.add_one_day_spec d d1 Hv H1) as (Hv1 & Ho & _).
    exists d1. split; [assumption|]. now apply window_is_intro.
  - intros S E s e HD HS HE Hs He _ _ Hmax.
    destruct (get_dates_range_branch cfg today S E s e HD HS HE Hs He Hmax)
      as (e1 & H1 & ->).
    pose proof (StrptimeFacts.strptime_valid _ _ Hs) as Hvs.
    pose proof (StrptimeFacts.strptime_valid _ _ He) as Hve.
    destruct (CalendarFacts.add_one_day_spec e e1 Hve H1) as (Hv1 & Ho & _).
    exists e1. split; [assumption|]. now apply window_is_intro.
  - apply default_window.
  - intros D HD Hp. unfold get_dates. rewrite HD.
    rewrite (StrptimeFacts.strptime_truthy D _ Hp). cbn [str_of].
    rewrite Hp. reflexivity.
  - intros S E s HD HS HE Hs He. unfold get_dates. rewrite HD, HS, HE.
    rewrite (StrptimeFacts.strptime_truthy S _ Hs).
    rewrite (StrptimeFacts.strptime_truthy E _ He).
    cbn [andb str_of]. rewrite Hs, He. reflexivity.
Qed.

Lemma get_dates_resolution_witness :
  (exists d1,
      toordinal d1 = toordinal (mkdate 2024 2 28) + 1 /\
      window_is (get_dates cfg_single (mkdate 2024 6 1))
                (mkdate 2024 2 28) d1 "2024-02-28")
  /\ (exists e1,
         toordinal e1 = toordinal (mkdate 2023 12 31) + 1 /\
         window_is (get_dates cfg_range (mkdate 2024 6 1))
                   (mkdate 2023 12 30) e1 "2023-12-30_to_2023-12-31")
  /\ (exists yest,
         toordinal yest = toordinal (mkdate 2024 3 1) - 1 /\
         window_is (get_dates cfg_default (mkdate 2024 3 1))
                   yest (mkdate 2024 3 1) (strftime yest)).
Proof.
  split; [|split].
  - apply (proj1 (get_dates_resolution cfg_single (mkdate 2024 6 1))
                 "2024-02-28" (mkdate 2024 2 28));
      [reflexivity | reflexivity | discriminate | discriminate].
  - apply (proj1 (proj2 (get_dates_resolution cfg_range (mkdate 2024 6 1)))
                 "2023-12-30" "2023-12-31" (mkdate 2023 12 30)
                 (mkdate 2023 12 31));
      [reflexivity | reflexivity | reflexivity | reflexivity | reflexivity
       | discriminate | discriminate | discriminate].
  - apply (proj1 (proj2 (proj2 (get_dates_resolution cfg_default
                                                     (mkdate 2024 3 1)))));
      [reflexivity | reflexivity | reflexivity | discriminate].
Defined.

(** C1, as stated, fails: the last date has no day after, and the resolver
    raises instead of returning a window. *)
Lemma get_dates_resolution_counterexample :
  DATE cfg_last_day = Some "9999-12-31"
  /\ strptime "9999-12-31" = Ok (mkdate 9999 12 31)
  /\ get_dates cfg_last_day (mkdate 2024 6 1) = Raise OverflowError
  /\ ~ (exists start end_,
           get_dates cfg_last_day (mkdate 2024 6 1)
           = Ok (start, end_, "9999-12-31")).
Proof.
  repeat split. intros (start & end_ & H). discriminate H.
Qed.

Lemma truthy_some (v : option string) :
  truthy v = true -> v = Some (str_of v).
Proof.
  destruct v as [[|c s]|]; simpl; intros; congruence.
Qed.

(** C5, as it holds, the configured dates being of the year 1000 or
    later: a window resolved from a single date or by default has its
    start strictly before its end; a window resolved from a start and an
    end has its start strictly before its end exactly when the end that
    was configured is not before the start that was configured. *)
Theorem window_ordered (cfg : config) (today : date)
        (start end_ label : string) :
  valid today = true ->
  four_digit_years cfg = true ->
  get_dates cfg today = Ok (start, end_, label) ->
  exists a b,
    strptime start = Ok a /\ strptime end_ = Ok b /\
    if range_mode cfg
    then exists e,
        strptime (str_of (END cfg)) = Ok e /\
        date_ltb a b = negb (date_ltb e a)
    else date_ltb a b = true.
Proof.
  intros Hv _ H. unfold get_dates in H. unfold range_mode.
  destruct (truthy (DATE cfg)) eqn:HD.
  - apply rbind_ok in H as (d & Hp & H).
    apply rbind_ok in H as (d1 & H1 & H). injection H as <- <- <-.
    pose proof (StrptimeFacts.strptime_valid _ _ Hp) as Hvd.
    destruct (CalendarFacts.add_one_day_spec d d1 Hvd H1) as (Hv1 & _ & Hlt).
    exists d, d1. cbn [negb andb].
    auto using StrptimeFacts.strptime_strftime.
  - cbn [negb andb].
    destruct (truthy (START cfg) && truthy (END cfg)) eqn:HR.
    + apply rbind_ok in H as (s & Hs & H).
      apply rbind_ok in H as (e & He & H).
      apply rbind_ok in H as (e1 & H1 & H). injection H as <- <- <-.
      pose proof (StrptimeFacts.strptime_valid _ _ Hs) as Hvs.
      pose proof (StrptimeFacts.strptime_valid _ _ He) as Hve.
      destruct (CalendarFacts.add_one_day_spec e e1 Hve H1) as (Hv1 & Ho & _).
      exists s, e1.
      repeat split; auto using StrptimeFacts.strptime_strftime.
      exists e. split; [assumption|].
      rewrite !CalendarFacts.date_ltb_toordinal by assumption.
      rewrite Ho.
      destruct (toordinal e <? toordinal s) eqn:E; cbn [negb].
      * apply Z.ltb_lt in E. apply Z.ltb_ge. lia.
      * apply Z.ltb_ge in E. apply Z.ltb_lt. lia.
    + apply rbind_ok in H as (yest & Hy & H).
      apply rbind_ok in H as (e1 & H1 & H). injection H as <- <- <-.
      destruct (CalendarFacts.sub_one_day_spec today yest Hv Hy) as [Hvy Ha].
      destruct (CalendarFacts.add_one_day_spec yest e1 Hvy H1)
        as (Hv1 & _ & Hlt).
      exists yest, e1. auto using StrptimeFacts.strptime_strftime.
Qed.

Lemma window_ordered_witness :
  exists a b,
    strptime "2024-02-28" = Ok a /\ strptime "2024-02-29" = Ok b /\
    date_ltb a b = true.
Proof.
  exact (window_ordered cfg_single (mkdate 2024 6 1)
                        "2024-02-28" "2024-02-29" "2024-02-28"
                        eq_refl eq_refl eq_refl).
Defined.

(** C5, as stated, fails: with a start after the end the resolver returns a
    window whose start is after its end. *)
Lemma window_ordered_counterexample :
  get_dates cfg_backwards (mkdate 2024 6 1)
  = Ok ("2024-01-10", "2024-01-06", "2024-01-10_to_2024-01-05")
  /\ strptime "2024-01-10" = Ok (mkdate 2024 1 10)
  /\ strptime "2024-01-06" = Ok (mkdate 2024 1 6)
  /\ date_ltb (mkdate 2024 1 10) (mkdate 2024 1 6) = false
  /\ ~ (forall cfg today start end_ label a b,
           valid today = true ->
           get_dates cfg today = Ok (start, end_, label) ->
           strptime start = Ok a -> strptime end_ = Ok b ->
           date_ltb a b = true).
Proof.
  repeat split; try reflexivity.
  intros H.
  specialize (H cfg_backwards (mkdate 2024 6 1) _ _ _
                (mkdate 2024 1 10) (mkdate 2024 1 6)
                eq_refl eq_refl eq_refl eq_refl).
  discriminate H.
Qed.

(** C9: with no single date and only one of the two range endpoints set,
    the resolver raises nothing and returns the window from yesterday to
    today; the endpoint that is set plays no part. *)
Theorem lone_endpoint_ignored (cfg : config) (today : date) :
  DATE cfg = None ->
  (exists x, START cfg = Some x /\ END cfg = None)
  \/ (exists x, START cfg = None /\ END cfg = Some x) ->
  valid today = true -> today <> date_min ->
  (exists yest,
      toordinal yest = toordinal today - 1 /\
      window_is (get_dates cfg today) yest today (strftime yest))
  /\ get_dates cfg today
     = get_dates (mkconfig (PROFILE cfg) (BUCKET cfg) (PREFIX cfg)
                           None None None) today.
Proof.
  intros HD HR Hv Hmin.
  assert (Hf : truthy (START cfg) && truthy (END cfg) = false).
  { destruct HR as [(x & -> & ->)|(x & -> & ->)]; cbn [truthy];
      [apply andb_false_r | reflexivity]. }
  split.
  - apply default_window; try assumption. now rewrite HD.
  - unfold get_dates. cbn [DATE START END]. rewrite HD, Hf. reflexivity.
Qed.

Lemma lone_endpoint_ignored_witness :
  (exists yest,
      toordinal yest = toordinal (mkdate 2024 3 1) - 1 /\
      window_is (get_dates cfg_lone_start (mkdate 2024 3 1))
                yest (mkdate 2024 3 1) (strftime yest))
  /\ get_dates cfg_lone_start (mkdate 2024 3 1)
     = get_dates (mkconfig None (Some "bucket") "aws-costs/" None None None)
                 (mkdate 2024 3 1).
Proof.
  apply (lone_endpoint_ignored cfg_lone_start (mkdate 2024 3 1)).
  - reflexivity.
  - left. exists "not a date". split; reflexivity.
  - reflexivity.
  - discriminate.
Defined.

(** ** The normalizer *)

Section Normalize.

Lemma for_each_Forall2 {A B : Type} (R : A -> B -> Prop) (f : A -> result B)
      (l : list A) (rs : list B) :
  (forall a b, R a b -> f a = Ok b) ->
  Forall2 R l rs -> for_each f l = Ok rs.
Proof.
  intros Hf. induction 1 as [|a b l rs Hab _ IH]; [reflexivity|].
  cbn [for_each]. rewrite (Hf a b Hab). cbn [rbind]. rewrite IH. reflexivity.
Qed.

Lemma for_each_app {A B : Type} (f : A -> result B) (l1 l2 : list A) :
  for_each f (l1 ++ l2)
  = (let? a := for_each f l1 in
     let? b := for_each f l2 in
     Ok (a ++ b)%list).
Proof.
  induction l1 as [|x l1 IH]; cbn [for_each app rbind].
  - destruct (for_each f l2); reflexivity.
  - destruct (f x) as [b|e]; cbn [rbind]; [|reflexivity].
    rewrite IH. destruct (for_each f l1) as [a|e]; cbn [rbind]; [|reflexivity].
    destruct (for_each f l2); reflexivity.
Qed.

Lemma normalize_group_record (p start g : pyval) (groups : list pyval)
      (r : row) :
  period_of p start groups -> record_of start g r ->
  normalize_group p g = Ok r.
Proof.
  intros (dp & dt & -> & Htp & Hst & _)
         (amount & (dg & rest & dm & dc & -> & Hk & Hm & Hu & Ha & Hun)
          & Hf & Hd).
  unfold normalize_group, subscript.
  rewrite Hk, Hm. cbn [of_option rbind subscript0].
  rewrite Hu. cbn [of_option rbind]. rewrite Ha. cbn [of_option rbind].
  unfold to_float in Hf.
  destruct (Decimal amount) as [dec|]; [|discriminate]. cbn [rbind] in *.
  rewrite Hf. cbn [rbind]. rewrite Hun, Htp. cbn [of_option rbind].
  rewrite Hst. cbn [of_option rbind].
  destruct r. cbn in *. now subst.
Qed.

Lemma normalize_period_records (p : pyval) (rs : list row) :
  records_of p rs -> normalize_period p = Ok rs.
Proof.
  intros (start & groups & Hp & H).
  pose proof Hp as (dp & dt & -> & _ & _ & Hg).
  unfold normalize_period, dict_get. rewrite Hg. cbn [rbind iterate].
  apply for_each_Forall2 with (R := record_of start); [|assumption].
  intros g r Hr. eapply normalize_group_record; eassumption.
Qed.

Lemma records_of_count (p : pyval) (rs : list row) :
  records_of p rs -> List.length rs = group_count p.
Proof.
  intros (start & groups & (dp & dt & -> & _ & _ & Hg) & H).
  cbn [group_count]. rewrite Hg. symmetry. eapply Forall2_length; eassumption.
Qed.

Lemma concat_length (table : list (list row)) :
  List.length (List.concat table) = list_sum (map (@List.length row) table).
Proof.
  induction table as [|rs table IH]; [reflexivity|].
  cbn [List.concat map list_sum]. rewrite length_app. now rewrite IH.
Qed.

Lemma period_without_groups (dp : list (string * pyval)) :
  lookup "Groups" dp = None -> normalize_period (PDict dp) = Ok [].
Proof.
  intros H. unfold normalize_period, dict_get. rewrite H. reflexivity.
Qed.

Lemma for_each_skip (f : pyval -> result (list row)) (x : pyval)
      (l1 l2 : list pyval) :
  f x = Ok [] ->
  (let? rows := for_each f (l1 ++ x :: l2) in Ok (List.concat rows))
  = (let? rows := for_each f (l1 ++ l2) in Ok (List.concat rows)).
Proof.
  intros Hx. rewrite !for_each_app. cbn [for_each]. rewrite Hx.
  destruct (for_each f l1) as [a|e]; cbn [rbind]; [|reflexivity].
  destruct (for_each f l2) as [b|e]; cbn [rbind]; [|reflexivity].
  rewrite !concat_app. reflexivity.
Qed.

End Normalize.

(** C2: a response of N periods, period i with G_i groups, is flattened
    into the records of the first period's groups in their order, then
    those of the second, and so on, the sum of the G_i in all; the record
    of a group carries the start of its period, the group's first key, its
    amount as a float and its unit. *)
Theorem normalize_flat (d : list (string * pyval)) (periods : list pyval)
        (table : list (list row)) :
  lookup "ResultsByTime" d = Some (PList periods) ->
  Forall2 records_of periods table ->
  normalize (PDict d) = Ok (List.concat table)
  /\ List.length (List.concat table) = list_sum (map group_count periods).
Proof.
  intros Hd H. split.
  - unfold normalize, dict_get. rewrite Hd. cbn [rbind iterate].
    rewrite (for_each_Forall2 records_of normalize_period periods table
               normalize_period_records H).
    reflexivity.
  - rewrite concat_length. f_equal. clear Hd.
    induction H as [|p rs periods table Hp _ IH]; [reflexivity|].
    cbn [map]. rewrite IH. f_equal. now apply records_of_count.
Qed.

Lemma normalize_flat_witness :
  normalize (PDict response_example) = Ok (List.concat [rows_example])
  /\ List.length (List.concat [rows_example])
     = list_sum (map group_count [period_example]).
Proof.
  apply (normalize_flat response_example [period_example] [rows_example]).
  - reflexivity.
  - constructor; [|constructor].
    exists (PStr "2024-01-01"),
      [group_example "AmazonEC2" "12.3400" "USD";
       group_example "AmazonS3" "0.5000" "USD"].
    split.
    + eexists _, _. repeat split; reflexivity.
    + constructor; [|constructor; [|constructor]].
      * exists (PStr "12.3400"). split; [|split; reflexivity].
        eexists _, _, _, _. repeat split; reflexivity.
      * exists (PStr "0.5000"). split; [|split; reflexivity].
        eexists _, _, _, _. repeat split; reflexivity.
Defined.

(** C10: a response without the key [ResultsByTime] gives no records; a
    period without the key [Groups] gives no records and no error, as if
    its groups were the empty list, whatever else surrounds it; the empty
    dictionary gives the empty sequence. *)
Theorem normalize_missing_keys :
  (forall d, lookup "ResultsByTime" d = None -> normalize (PDict d) = Ok [])
  /\ (forall dp,
         lookup "Groups" dp = None ->
         normalize_period (PDict dp) = Ok []
         /\ normalize_period (PDict dp)
            = normalize_period (PDict (("Groups", PList []) :: dp)))
  /\ (forall d before dp after,
         lookup "ResultsByTime" d = Some (PList (before ++ PDict dp :: after)) ->
         lookup "Groups" dp = None ->
         normalize (PDict d)
         = normalize (PDict [("ResultsByTime", PList (before ++ after))]))
  /\ normalize (PDict []) = Ok [].
Proof.
  repeat split.
  - intros d H. unfold normalize, dict_get. rewrite H. reflexivity.
  - now apply period_without_groups.
  - rewrite (period_without_groups dp H). reflexivity.
  - intros d before dp after Hd Hg. unfold normalize, dict_get.
    rewrite Hd. cbn [lookup String.eqb Ascii.eqb Bool.eqb rbind iterate].
    replace (lookup "ResultsByTime"
               [("ResultsByTime", PList (before ++ after))])
      with (Some (PList (before ++ after))) by reflexivity.
    cbn [rbind iterate].
    apply for_each_skip. now apply period_without_groups.
Qed.

Lemma normalize_missing_keys_witness :
  normalize (PDict [("ResponseMetadata", PDict [])]) = Ok []
  /\ normalize_period (PDict [("Estimated", PBool true)]) = Ok []
  /\ normalize
       (PDict [("ResultsByTime",
                PList [PDict [("Estimated", PBool true)]; period_example])])
     = normalize (PDict response_example).
Proof.
  split; [|split].
  - apply (proj1 normalize_missing_keys). reflexivity.
  - apply (proj1 (proj2 normalize_missing_keys)). reflexivity.
  - apply (proj1 (proj2 (proj2 normalize_missing_keys))
                 _ [] [("Estimated", PBool true)] [period_example]);
      reflexivity.
Defined.

(** ** Paths *)

Section Paths.

Lemma has_slash_app (a b : string) :
  has_slash (a ++ b) = has_slash a || has_slash b.
Proof.
  induction a as [|c a IH]; [reflexivity|].
  cbn [append has_slash]. rewrite IH. now rewrite orb_assoc.
Qed.

Lemma basename_no_slash (s : string) : has_slash s = false -> basename s = s.
Proof.
  destruct s as [|c s]; [reflexivity|].
  cbn [has_slash basename]. now intros ->.
Qed.

Lemma basename_after_slash (a b : string) :
  basename (a ++ String "/" b) = basename b.
Proof.
  induction a as [|c a IH]; [reflexivity|].
  cbn [append basename]. rewrite has_slash_app. cbn [has_slash Ascii.eqb].
  replace (Ascii.eqb "/" "/") with true by reflexivity.
  cbn [orb]. rewrite !orb_true_r. exact IH.
Qed.

Lemma rstrip_slash_id (p : string) :
  ends_with_slash p = false -> rstrip_slash p = p.
Proof.
  induction p as [|c p IH]; [reflexivity|].
  cbn [ends_with_slash rstrip_slash]. destruct p as [|c' p'].
  - cbn [rstrip_slash]. now intros ->.
  - intros H. rewrite (IH H). reflexivity.
Qed.

Lemma json_file_path (label : string) :
  json_file label = "output/aws_costs_" ++ label ++ ".json".
Proof. reflexivity. Qed.

Lemma csv_file_path (label : string) :
  csv_file label = "output/aws_costs_" ++ label ++ ".csv".
Proof. reflexivity. Qed.

Lemma basename_json_file (label : string) :
  has_slash label = false ->
  basename (json_file label) = "aws_costs_" ++ label ++ ".json".
Proof.
  intros H. rewrite json_file_path.
  change ("output/aws_costs_" ++ label ++ ".json")
    with ("output" ++ String "/" ("aws_costs_" ++ label ++ ".json")).
  rewrite basename_after_slash. apply basename_no_slash.
  rewrite !has_slash_app, H. reflexivity.
Qed.

Lemma basename_csv_file (label : string) :
  has_slash label = false ->
  basename (csv_file label) = "aws_costs_" ++ label ++ ".csv".
Proof.
  intros H. rewrite csv_file_path.
  change ("output/aws_costs_" ++ label ++ ".csv")
    with ("output" ++ String "/" ("aws_costs_" ++ label ++ ".csv")).
  rewrite basename_after_slash. apply basename_no_slash.
  rewrite !has_slash_app, H. reflexivity.
Qed.

(** A label that [get_dates] returns holds no slash. *)
Lemma label_no_slash (cfg : config) (today : date)
      (start end_ label : string) :
  valid today = true ->
  get_dates cfg today = Ok (start, end_, label) ->
  has_slash label = false.
Proof.
  intros Hv H. unfold get_dates in H.
  destruct (truthy (DATE cfg)) eqn:HD.
  - apply rbind_ok in H as (d & Hp & H).
    apply rbind_ok in H as (d1 & _ & H). injection H as _ _ <-.
    eapply StrptimeFacts.strptime_no_slash; eassumption.
  - destruct (truthy (START cfg) && truthy (END cfg)) eqn:HR.
    + apply rbind_ok in H as (s & Hs & H).
      apply rbind_ok in H as (e & He & H).
      apply rbind_ok in H as (e1 & _ & H). injection H as _ _ <-.
      rewrite has_slash_app. cbn [has_slash].
      rewrite (StrptimeFacts.strptime_no_slash _ _ Hs).
      rewrite (StrptimeFacts.strptime_no_slash _ _ He). reflexivity.
    + apply rbind_ok in H as (yest & Hy & H).
      apply rbind_ok in H as (e1 & _ & H). injection H as _ _ <-.
      apply StrptimeFacts.strftime_no_slash.
      now destruct (CalendarFacts.sub_one_day_spec today yest Hv Hy).
Qed.

End Paths.

(** ** Runs of the script *)

Section Run.

Variable cfg : config.
Variable w : world.

Lemma main_outcome (r : result unit) (t : list event) :
  main cfg w [] = (r, t) -> outcome cfg w r t.
Proof.
  unfold main, boto3_ce_client, get_cost_by_service, save_json, save_csv,
    upload, boto3_s3_client, persisted, up_json, up_csv.
  unfold bind, lift, call, emit, ret.
  destruct (boto3_Session cfg w) as [[]|e] eqn:Hs;
    [|intros [= <- <-]; now constructor].
  destruct (get_dates cfg (today w)) as [[[start end_] label]|e] eqn:Hd;
    [|intros [= <- <-]; now constructor].
  cbn [app].
  destruct (get_cost_and_usage w start end_) as [resp|e] eqn:Hq;
    [|intros [= <- <-]; econstructor; eassumption].
  destruct (normalize resp) as [rows|e] eqn:Hn;
    [|intros [= <- <-]; econstructor; eassumption].
  destruct (pd w) eqn:Hp; cbn [negb app].
  - destruct (upload_file w (json_file label) _ _) as [[]|e] eqn:Hj.
    + destruct (upload_file w (csv_file label) _ _) as [[]|e] eqn:Hc;
        intros [= <- <-].
      * pose proof (done cfg w start end_ label resp rows Hd Hq Hn) as H.
        unfold persisted in H. rewrite Hp in H. exact H.
      * pose proof (fail_upload_csv cfg w start end_ label resp rows e Hd Hq Hn Hp
                                    Hc) as H.
        unfold persisted in H. rewrite Hp in H. exact H.
    + intros [= <- <-].
      pose proof (fail_upload_json cfg w start end_ label resp rows e Hd Hq Hn Hj)
        as H.
      unfold persisted in H. rewrite Hp in H. exact H.
  - destruct (upload_file w (json_file label) _ _) as [[]|e] eqn:Hj;
      intros [= <- <-].
    + pose proof (done cfg w start end_ label resp rows Hd Hq Hn) as H.
      unfold persisted in H. rewrite Hp in H. exact H.
    + pose proof (fail_upload_json cfg w start end_ label resp rows e Hd Hq Hn Hj)
        as H.
      unfold persisted in H. rewrite Hp in H. exact H.
Qed.

End Run.

Section Script.

Variable env : environ.
Variable w : world.

Lemma script_outcome (r : result unit) (t : list event) :
  script env w = (r, t) ->
  (truthy (env "COST_S3_BUCKET") = false /\ r = Raise BUCKET_REQUIRED /\ t = [])
  \/ (truthy (env "COST_S3_BUCKET") = true /\ outcome (load_config env) w r t).
Proof.
  unfold script. cbn [load_config BUCKET].
  destruct (truthy (env "COST_S3_BUCKET")); cbn [negb].
  - intros H. right. split; [reflexivity|]. now apply main_outcome.
  - intros [= <- <-]. left. auto.
Qed.

Lemma outcome_uploads (cfg : config) (r : result unit) (t : list event)
      (local bucket key : string) :
  outcome cfg w r t -> In (EvUpload local bucket key) t ->
  exists start end_ label,
    get_dates cfg (today w) = Ok (start, end_, label) /\
    (EvUpload local bucket key = up_json cfg label
     \/ EvUpload local bucket key = up_csv cfg label).
Proof.
  intros H Hin.
  destruct H; unfold persisted in Hin; destruct (pd w);
    cbn [In app] in Hin;
    repeat (destruct Hin as [Hin|Hin]; try discriminate Hin);
    try contradiction;
    exists start, end_, label; split; auto.
Qed.

Lemma outcome_writes (cfg : config) (r : result unit) (t : list event) :
  outcome cfg w r t ->
  (pd w = false -> forall p rs, ~ In (EvWriteCsv p rs) t)
  /\ (pd w = true ->
      forall p rs, In (EvWriteJson p rs) t ->
                   exists label,
                     p = json_file label /\
                     In (EvWriteCsv (csv_file label) rs) t)
  /\ (r = Ok tt -> exists label rs, In (EvWriteJson (json_file label) rs) t).
Proof.
  intros H. split; [|split].
  - intros Hp p rs Hin.
    destruct H; unfold persisted in Hin; try rewrite Hp in Hin;
      cbn [In app] in Hin;
      repeat (destruct Hin as [Hin|Hin]; try discriminate Hin);
      contradiction.
  - intros Hp p rs Hin.
    destruct H; unfold persisted in *; try rewrite Hp in *;
      cbn [In app] in *;
      repeat (destruct Hin as [Hin|Hin]; try discriminate Hin);
      try contradiction;
      injection Hin as <- <-; exists label; auto 10.
  - intros Hr. destruct H; try discriminate Hr.
    exists label, rows. unfold persisted. cbn [In app]. auto.
Qed.

Lemma outcome_last_print (cfg : config) (t : list event) :
  outcome cfg w (Ok tt) t ->
  exists start end_ label resp rows,
    get_dates cfg (today w) = Ok (start, end_, label) /\
    get_cost_and_usage w start end_ = Ok resp /\
    normalize resp = Ok rows /\
    last t (EvPrint "") = EvPrint (total_line rows).
Proof.
  intros H. inversion H as [| | | | | |start end_ label resp rows Hd Hq Hn].
  exists start, end_, label, resp, rows. repeat split; try assumption.
  unfold persisted. destruct (pd w); reflexivity.
Qed.

End Script.

(** C4: without a bucket name (the variable unset, or set to the empty
    string) the script raises at once; nothing has been done by then, in
    particular no query and no upload. *)
Theorem missing_bucket_is_fatal (env : environ) (w : world) :
  env "COST_S3_BUCKET" = None \/ env "COST_S3_BUCKET" = Some "" ->
  script env w = (Raise BUCKET_REQUIRED, [])
  /\ forall ev, In ev (snd (script env w)) -> is_network ev = false.
Proof.
  intros H.
  assert (E : script env w = (Raise BUCKET_REQUIRED, [])).
  { unfold script. cbn [load_config BUCKET].
    destruct H as [-> | ->]; reflexivity. }
  rewrite E. split; [reflexivity | intros ev []].
Qed.

Lemma missing_bucket_is_fatal_witness :
  script (fun _ => None) world_example = (Raise BUCKET_REQUIRED, [])
  /\ forall ev, In ev (snd (script (fun _ => None) world_example)) ->
                is_network ev = false.
Proof.
  apply (missing_bucket_is_fatal (fun _ => None) world_example).
  left. reflexivity.
Defined.

(** C6, as it holds: a file is uploaded under the configured prefix with
    the slashes at its end removed, then a slash, then the base name of
    the local file, which is [aws_costs_<label>.json] or
    [aws_costs_<label>.csv]; this is the configured prefix, a slash and
    the base name when the prefix does not end in a slash. *)
Theorem upload_key (env : environ) (w : world) (local bucket key : string) :
  valid (today w) = true ->
  In (EvUpload local bucket key) (snd (script env w)) ->
  key = rstrip_slash (PREFIX (load_config env)) ++ "/" ++ basename local
  /\ (ends_with_slash (PREFIX (load_config env)) = false ->
      key = PREFIX (load_config env) ++ "/" ++ basename local)
  /\ exists label ext,
      (ext = ".json" \/ ext = ".csv") /\
      local = "output/aws_costs_" ++ label ++ ext /\
      basename local = "aws_costs_" ++ label ++ ext.
Proof.
  intros Hv Hin. destruct (script env w) as [r t] eqn:E. cbn [snd] in Hin.
  apply script_outcome in E as [(_ & _ & ->)|[_ Ho]]; [contradiction|].
  destruct (outcome_uploads w _ r t local bucket key Ho Hin)
    as (start & end_ & label & Hd & Hev).
  pose proof (label_no_slash _ _ _ _ _ Hv Hd) as Hl.
  assert (Hkey : key = key_of (load_config env) local
                 /\ exists ext, (ext = ".json" \/ ext = ".csv") /\
                                local = "output/aws_costs_" ++ label ++ ext /\
                                basename local = "aws_costs_" ++ label ++ ext).
  { destruct Hev as [Hev|Hev]; injection Hev as -> _ ->.
    - split; [reflexivity|]. exists ".json".
      rewrite basename_json_file by assumption. auto.
    - split; [reflexivity|]. exists ".csv".
      rewrite basename_csv_file by assumption. auto. }
  destruct Hkey as [-> (ext & Hext & Hloc & Hbase)]. unfold key_of.
  split; [reflexivity|]. split.
  - intros Hp. now rewrite rstrip_slash_id.
  - exists label, ext. auto.
Qed.

Lemma upload_key_witness :
  "reports/aws/aws_costs_2024-01-01.json"
  = rstrip_slash (PREFIX (load_config env_plain_prefix)) ++ "/"
    ++ basename "output/aws_costs_2024-01-01.json"
  /\ (ends_with_slash (PREFIX (load_config env_plain_prefix)) = false ->
      "reports/aws/aws_costs_2024-01-01.json"
      = PREFIX (load_config env_plain_prefix) ++ "/"
        ++ basename "output/aws_costs_2024-01-01.json")
  /\ exists label ext,
      (ext = ".json" \/ ext = ".csv") /\
      "output/aws_costs_2024-01-01.json" = "output/aws_costs_" ++ label ++ ext /\
      basename "output/aws_costs_2024-01-01.json"
      = "aws_costs_" ++ label ++ ext.
Proof.
  apply (upload_key env_plain_prefix world_example
                    "output/aws_costs_2024-01-01.json" "bucket"
                    "reports/aws/aws_costs_2024-01-01.json").
  - reflexivity.
  - vm_compute. do 4 right. left. reflexivity.
Defined.

(** C6, as stated, fails: under the default prefix, which ends in a slash,
    the key holds one slash where the stated form has two. *)
Lemma upload_key_counterexample :
  In (EvUpload "output/aws_costs_2024-01-01.json" "bucket"
               "aws-costs/aws_costs_2024-01-01.json")
     (snd (script env_example world_example))
  /\ PREFIX (load_config env_example) = "aws-costs/"
  /\ basename "output/aws_costs_2024-01-01.json" = "aws_costs_2024-01-01.json"
  /\ "aws-costs/aws_costs_2024-01-01.json"
     <> PREFIX (load_config env_example) ++ "/"
        ++ basename "output/aws_costs_2024-01-01.json".
Proof.
  repeat split; try reflexivity.
  - vm_compute. do 4 right. left. reflexivity.
  - discriminate.
Qed.

(** C8: without pandas [save_csv] writes nothing and raises nothing, for
    any records, and the JSON file is written all the same; with pandas the
    records written as JSON are written as CSV too. *)
Theorem csv_is_optional :
  (forall w rows path t,
      pd w = false -> save_csv w rows path t = (Ok tt, t))
  /\ (forall w rows path t,
         pd w = true ->
         save_csv w rows path t = (Ok tt, (t ++ [EvWriteCsv path rows])%list))
  /\ (forall rows path t,
         save_json rows path t = (Ok tt, (t ++ [EvWriteJson path rows])%list))
  /\ (forall env w,
         (pd w = false ->
          forall p rs, ~ In (EvWriteCsv p rs) (snd (script env w)))
         /\ (pd w = true ->
             forall p rs,
               In (EvWriteJson p rs) (snd (script env w)) ->
               exists label,
                 p = json_file label /\
                 In (EvWriteCsv (csv_file label) rs) (snd (script env w)))
         /\ (fst (script env w) = Ok tt ->
             exists label rs,
               In (EvWriteJson (json_file label) rs) (snd (script env w)))).
Proof.
  split; [|split; [|split]].
  - intros w rows path t H. unfold save_csv. now rewrite H.
  - intros w rows path t H. unfold save_csv. now rewrite H.
  - reflexivity.
  - intros env w. destruct (script env w) as [r t] eqn:E. cbn [fst snd].
    apply script_outcome in E as [(_ & -> & ->)|[_ Ho]].
    + split; [|split]; [intros _ p rs [] | intros _ p rs [] | discriminate].
    + exact (outcome_writes w _ r t Ho).
Qed.

Lemma csv_is_optional_witness :
  save_csv world_without_pandas rows_example "output/x.csv" [] = (Ok tt, [])
  /\ (forall p rs,
         ~ In (EvWriteCsv p rs) (snd (script env_example world_without_pandas)))
  /\ (exists label rs,
         In (EvWriteJson (json_file label) rs)
            (snd (script env_example world_without_pandas)))
  /\ (exists label,
         "output/aws_costs_2024-01-01.json" = json_file label /\
         In (EvWriteCsv (csv_file label) rows_example)
            (snd (script env_example world_example))).
Proof.
  split; [|split; [|split]].
  - apply (proj1 csv_is_optional). reflexivity.
  - apply (proj1 (proj2 (proj2 (proj2 csv_is_optional))
                        env_example world_without_pandas)).
    reflexivity.
  - apply (proj2 (proj2 (proj2 (proj2 (proj2 csv_is_optional))
                               env_example world_without_pandas))).
    reflexivity.
  - apply (proj1 (proj2 (proj2 (proj2 (proj2 csv_is_optional))
                               env_example world_example))).
    + reflexivity.
    + vm_compute. do 2 right. left. reflexivity.
Defined.

Lemma fold_number_add (xs : list float) (x : float) :
  fold_left number_add xs (NFloat x) = NFloat (fold_left float_add xs x).
Proof.
  revert x. induction xs as [|a xs IH]; intros x; [reflexivity|].
  cbn [fold_left number_add]. apply IH.
Qed.

(** C3: the line printed last by a run that succeeds gives the total of
    the records that were normalized and their unit.  The total is the
    integer 0 for no records and otherwise the floats added up from zero
    in the order of the records; the unit is that of the first record,
    whatever the units of the others, and the line ends with it; it is USD
    for no records.  The two groups 12.3400 and 0.5000 in USD give two
    records and the total 12.84 USD; the same amounts in EUR and USD give
    12.84 EUR; no records give 0.00 and USD. *)
Theorem reported_total :
  (forall env w t,
      script env w = (Ok tt, t) ->
      exists start end_ label resp rows,
        get_dates (load_config env) (today w) = Ok (start, end_, label) /\
        get_cost_and_usage w start end_ = Ok resp /\
        normalize resp = Ok rows /\
        last t (EvPrint "") = EvPrint (total_line rows))
  /\ (forall rows,
         total_line rows
         = "ðŸ’° Total = " ++ format_number_2f (total rows) ++ " "
           ++ py_str (unit_of rows))
  /\ total [] = NInt 0
  /\ (forall r rows,
         total (r :: rows)
         = NFloat (fold_left float_add (map row_amount (r :: rows))
                             (S754_zero false)))
  /\ unit_of [] = PStr "USD"
  /\ (forall r rows, unit_of (r :: rows) = row_unit r)
  /\ (forall r rows u,
         row_unit r = PStr u ->
         total_line (r :: rows)
         = "ðŸ’° Total = " ++ format_number_2f (total (r :: rows)) ++ " "
           ++ u)
  /\ total_line rows_two_units = "ðŸ’° Total = 12.84 EUR"
  /\ normalize (PDict response_example) = Ok rows_example
  /\ List.length rows_example = 2%nat
  /\ total_line rows_example = "ðŸ’° Total = 12.84 USD"
  /\ normalize (PDict [("ResultsByTime", PList [])]) = Ok []
  /\ format_number_2f (total []) = "0.00"
  /\ total_line [] = "ðŸ’° Total = 0.00 USD".
Proof.
  repeat split; try reflexivity.
  - intros env w t E.
    apply script_outcome in E as [(_ & E & _)|[_ Ho]]; [discriminate|].
    exact (outcome_last_print w _ t Ho).
  - intros r rows. unfold total, py_sum. cbn [map fold_left number_add].
    apply fold_number_add.
  - intros r rows u Hu. unfold total_line. cbn [unit_of]. rewrite Hu.
    reflexivity.
Qed.

Lemma reported_total_witness :
  exists start end_ label resp rows,
    get_dates (load_config env_example) (today world_example)
    = Ok (start, end_, label) /\
    get_cost_and_usage world_example start end_ = Ok resp /\
    normalize resp = Ok rows /\
    last (snd (script env_example world_example)) (EvPrint "")
    = EvPrint (total_line rows).
Proof.
  apply (proj1 reported_total env_example world_example
               (snd (script env_example world_example))).
  vm_compute. reflexivity.
Defined.

(** * Further properties of the code *)

(** ** [get_dates] *)

Section GetDatesMore.

Import CalendarFacts StrptimeFacts.

Lemma strptime_raises (s : string) (e : exn) :
  strptime s = Raise e -> e = ValueError.
Proof.
  unfold strptime.
  destruct (re_match s) as [[[[y m] dd] r]|]; [|now intros [= <-]].
  destruct r; [|now intros [= <-]].
  destruct (valid (mkdate y m dd)); [discriminate | now intros [= <-]].
Qed.

Lemma add_one_day_raises (d : date) (e : exn) :
  add_one_day d = Raise e -> e = OverflowError.
Proof.
  unfold add_one_day.
  destruct (day d <? days_in_month (year d) (month d)); [discriminate|].
  destruct (month d <? 12); [discriminate|].
  destruct (year d <? MAXYEAR); [discriminate | now intros [= <-]].
Qed.

Lemma add_one_day_fails_at_max (d : date) (e : exn) :
  valid d = true -> add_one_day d = Raise e ->
  e = OverflowError /\ d = date_max.
Proof.
  intros Hv H. pose proof (add_one_day_raises d e H) as ->.
  split; [reflexivity|]. now apply add_one_day_overflow.
Qed.

Lemma rbind_raise {A B : Type} (r : result A) (k : A -> result B) (e : exn) :
  rbind r k = Raise e ->
  r = Raise e \/ exists a, r = Ok a /\ k a = Raise e.
Proof.
  destruct r as [a|e']; cbn [rbind]; intros H.
  - right. eauto.
  - left. congruence.
Qed.

Lemma strftime_length (d : date) : String.length (strftime d) = 10%nat.
Proof. reflexivity. Qed.

Lemma consumed_all_chars (s : string) :
  consumed s "" -> all_chars date_char s = true.
Proof.
  remember "" as e eqn:He. induction 1 as [s|c s r Hc H IH].
  - now subst.
  - cbn [all_chars]. rewrite Hc. auto.
Qed.

Lemma strptime_all_chars (s : string) (d : date) :
  strptime s = Ok d -> all_chars date_char s = true.
Proof.
  unfold strptime.
  destruct (re_match s) as [[[[y m] dd] r]|] eqn:E; [|discriminate].
  destruct r; [|discriminate]. intros _.
  apply consumed_all_chars. eapply re_match_consumed. eassumption.
Qed.

Lemma all_chars_app (p : ascii -> bool) (a b : string) :
  all_chars p (a ++ b) = all_chars p a && all_chars p b.
Proof.
  induction a as [|c a IH]; [reflexivity|].
  cbn [append all_chars]. rewrite IH. now rewrite andb_assoc.
Qed.

Lemma all_chars_weaken (p q : ascii -> bool) (s : string) :
  (forall c, p c = true -> q c = true) ->
  all_chars p s = true -> all_chars q s = true.
Proof.
  intros Hpq. induction s as [|c s IH]; [reflexivity|].
  cbn [all_chars]. intros H. apply andb_prop in H as [Hc Hs].
  rewrite (Hpq c Hc). auto.
Qed.

Lemma date_char_label_char (c : ascii) :
  date_char c = true -> label_char c = true.
Proof.
  unfold label_char. now intros ->.
Qed.

End GetDatesMore.

(** X1: a single date is the range from that date to itself: the window
    resolved from COST_DATE=D is the one resolved from COST_START=D and
    COST_END=D, and the two fail alike; the labels are [D] and [D_to_D]. *)
Theorem single_date_is_degenerate_range (cfg : config) (today : date)
        (D : string) :
  DATE cfg = Some D -> D <> "" ->
  match get_dates cfg today,
        get_dates (with_dates cfg None (Some D) (Some D)) today with
  | Ok (s1, e1, l1), Ok (s2, e2, l2) =>
      s1 = s2 /\ e1 = e2 /\ l1 = D /\ l2 = D ++ "_to_" ++ D
  | Raise x, Raise y => x = y
  | _, _ => False
  end.
Proof.
  intros HD Hne. unfold get_dates, with_dates. cbn [DATE START END].
  rewrite HD. assert (Ht : truthy (Some D) = true) by (now destruct D).
  rewrite Ht. cbn [truthy andb str_of].
  destruct (strptime D) as [d|e]; cbn [rbind]; [|reflexivity].
  destruct (add_one_day d) as [d1|e]; cbn [rbind]; auto.
Qed.

Lemma single_date_is_degenerate_range_witness :
  match get_dates cfg_single (mkdate 2024 6 1),
        get_dates (with_dates cfg_single None (Some "2024-02-28")
                              (Some "2024-02-28")) (mkdate 2024 6 1) with
  | Ok (s1, e1, l1), Ok (s2, e2, l2) =>
      s1 = s2 /\ e1 = e2 /\ l1 = "2024-02-28"
      /\ l2 = "2024-02-28" ++ "_to_" ++ "2024-02-28"
  | Raise x, Raise y => x = y
  | _, _ => False
  end.
Proof.
  apply (single_date_is_degenerate_range cfg_single (mkdate 2024 6 1)
                                         "2024-02-28");
    [reflexivity | discriminate].
Defined.

(** X2: the resolver raises [ValueError] or [OverflowError] and nothing
    else: [ValueError] when a date it reads does not parse, and
    [OverflowError] when the date it adds a day to is 9999-12-31.  With no
    date configured it does not raise. *)
Theorem get_dates_raises (cfg : config) (today : date) (e : exn) :
  valid today = true -> today <> date_min ->
  get_dates cfg today = Raise e ->
  (e = ValueError /\
   ((truthy (DATE cfg) = true /\
     strptime (str_of (DATE cfg)) = Raise ValueError)
    \/ (range_mode cfg = true /\
        (strptime (str_of (START cfg)) = Raise ValueError
         \/ strptime (str_of (END cfg)) = Raise ValueError))))
  \/ (e = OverflowError /\
      ((truthy (DATE cfg) = true /\
        strptime (str_of (DATE cfg)) = Ok date_max)
       \/ (range_mode cfg = true /\
           strptime (str_of (END cfg)) = Ok date_max))).
Proof.
  intros Hv Hmin H. unfold get_dates in H. unfold range_mode.
  destruct (truthy (DATE cfg)) eqn:HD; cbn [negb andb].
  - apply rbind_raise in H as [H|(d & Hp & H)].
    + pose proof (strptime_raises _ _ H) as ->. left. auto.
    + apply rbind_raise in H as [H|(d1 & _ & H)]; [|discriminate].
      destruct (add_one_day_fails_at_max d e
                  (StrptimeFacts.strptime_valid _ _ Hp) H) as [-> ->].
      right. auto.
  - destruct (truthy (START cfg) && truthy (END cfg)) eqn:HR.
    + apply rbind_raise in H as [H|(s & Hs & H)].
      * pose proof (strptime_raises _ _ H) as ->. left. auto.
      * apply rbind_raise in H as [H|(e0 & He & H)].
        -- pose proof (strptime_raises _ _ H) as ->. left. auto.
        -- apply rbind_raise in H as [H|(e1 & _ & H)]; [|discriminate].
           destruct (add_one_day_fails_at_max e0 e
                       (StrptimeFacts.strptime_valid _ _ He) H) as [-> ->].
           right. auto.
    + exfalso.
      destruct (CalendarFacts.sub_one_day_total today Hv Hmin) as [yest Hy].
      destruct (CalendarFacts.sub_one_day_spec today yest Hv Hy) as [_ Ha].
      rewrite Hy in H. cbn [rbind] in H. rewrite Ha in H. discriminate H.
Qed.

Lemma get_dates_raises_witness :
  (OverflowError = ValueError /\
   ((truthy (DATE cfg_last_day) = true /\
     strptime (str_of (DATE cfg_last_day)) = Raise ValueError)
    \/ (range_mode cfg_last_day = true /\
        (strptime (str_of (START cfg_last_day)) = Raise ValueError
         \/ strptime (str_of (END cfg_last_day)) = Raise ValueError))))
  \/ (OverflowError = OverflowError /\
      ((truthy (DATE cfg_last_day) = true /\
        strptime (str_of (DATE cfg_last_day)) = Ok date_max)
       \/ (range_mode cfg_last_day = true /\
           strptime (str_of (END cfg_last_day)) = Ok date_max))).
Proof.
  apply (get_dates_raises cfg_last_day (mkdate 2024 6 1) OverflowError).
  - reflexivity.
  - discriminate.
  - reflexivity.
Defined.

(** X3: the number of days of a resolved window, the configured dates
    being of the year 1000 or later: one in single-date mode and by
    default; in range mode the days from the configured start to the
    configured end, both included (which is zero or less when the end is
    before the start). *)
Theorem window_days (cfg : config) (today : date)
        (start end_ label : string) :
  valid today = true ->
  four_digit_years cfg = true ->
  get_dates cfg today = Ok (start, end_, label) ->
  exists a b,
    strptime start = Ok a /\ strptime end_ = Ok b /\
    if range_mode cfg
    then exists s e,
        strptime (str_of (START cfg)) = Ok s /\
        strptime (str_of (END cfg)) = Ok e /\
        toordinal b - toordinal a = toordinal e - toordinal s + 1
    else toordinal b - toordinal a = 1.
Proof.
  intros Hv _ H. unfold get_dates in H. unfold range_mode.
  destruct (truthy (DATE cfg)) eqn:HD; cbn [negb andb].
  - apply rbind_ok in H as (d & Hp & H).
    apply rbind_ok in H as (d1 & H1 & H). injection H as <- <- <-.
    pose proof (StrptimeFacts.strptime_valid _ _ Hp) as Hvd.
    destruct (CalendarFacts.add_one_day_spec d d1 Hvd H1) as (Hv1 & Ho & _).
    exists d, d1. repeat split; auto using StrptimeFacts.strptime_strftime.
    lia.
  - destruct (truthy (START cfg) && truthy (END cfg)) eqn:HR.
    + apply rbind_ok in H as (s & Hs & H).
      apply rbind_ok in H as (e & He & H).
      apply rbind_ok in H as (e1 & H1 & H). injection H as <- <- <-.
      pose proof (StrptimeFacts.strptime_valid _ _ Hs) as Hvs.
      pose proof (StrptimeFacts.strptime_valid _ _ He) as Hve.
      destruct (CalendarFacts.add_one_day_spec e e1 Hve H1) as (Hv1 & Ho & _).
      exists s, e1. repeat split; auto using StrptimeFacts.strptime_strftime.
      exists s, e. repeat split; auto. lia.
    + apply rbind_ok in H as (yest & Hy & H).
      apply rbind_ok in H as (e1 & H1 & H). injection H as <- <- <-.
      destruct (CalendarFacts.sub_one_day_spec today yest Hv Hy) as [Hvy Ha].
      destruct (CalendarFacts.add_one_day_spec yest e1 Hvy H1)
        as (Hv1 & Ho & _).
      exists yest, e1.
      repeat split; auto using StrptimeFacts.strptime_strftime. lia.
Qed.

Lemma window_days_witness :
  exists a b,
    strptime "2023-12-30" = Ok a /\ strptime "2024-01-01" = Ok b /\
    exists s e,
      strptime "2023-12-30" = Ok s /\ strptime "2023-12-31" = Ok e /\
      toordinal b - toordinal a = toordinal e - toordinal s + 1.
Proof.
  exact (window_days cfg_range (mkdate 2024 6 1)
                     "2023-12-30" "2024-01-01" "2023-12-30_to_2023-12-31"
                     eq_refl eq_refl eq_refl).
Defined.

Lemma get_dates_ok_dates (cfg : config) (today : date)
      (start end_ label : string) :
  valid today = true ->
  get_dates cfg today = Ok (start, end_, label) ->
  exists a b,
    valid a = true /\ valid b = true /\
    start = strftime a /\ end_ = strftime b.
Proof.
  intros Hv H. unfold get_dates in H.
  destruct (truthy (DATE cfg)).
  - apply rbind_ok in H as (d & Hp & H).
    apply rbind_ok in H as (d1 & H1 & H). injection H as <- <- <-.
    pose proof (StrptimeFacts.strptime_valid _ _ Hp) as Hvd.
    destruct (CalendarFacts.add_one_day_spec d d1 Hvd H1) as (Hv1 & _).
    exists d, d1. auto.
  - destruct (truthy (START cfg) && truthy (END cfg)).
    + apply rbind_ok in H as (s & Hs & H).
      apply rbind_ok in H as (e & He & H).
      apply rbind_ok in H as (e1 & H1 & H). injection H as <- <- <-.
      pose proof (StrptimeFacts.strptime_valid _ _ Hs) as Hvs.
      pose proof (StrptimeFacts.strptime_valid _ _ He) as Hve.
      destruct (CalendarFacts.add_one_day_spec e e1 Hve H1) as (Hv1 & _).
      exists s, e1. auto.
    + apply rbind_ok in H as (yest & Hy & H).
      apply rbind_ok in H as (e1 & H1 & H). injection H as <- <- <-.
      destruct (CalendarFacts.sub_one_day_spec today yest Hv Hy) as [Hvy Ha].
      destruct (CalendarFacts.add_one_day_spec yest e1 Hvy H1) as (Hv1 & _).
      exists yest, e1. auto.
Qed.

(** X4: the configured dates being of the year 1000 or later, the two
    dates of a resolved window are written in the ten-character form with
    the month and the day on two digits, whatever form the configured
    dates had: printing what they parse to gives them back. *)
Theorem window_strings_canonical (cfg : config) (today : date)
        (start end_ label : string) :
  valid today = true ->
  four_digit_years cfg = true ->
  get_dates cfg today = Ok (start, end_, label) ->
  String.length start = 10%nat /\ String.length end_ = 10%nat /\
  exists a b,
    strptime start = Ok a /\ strftime a = start /\
    strptime end_ = Ok b /\ strftime b = end_.
Proof.
  intros Hv _ H.
  destruct (get_dates_ok_dates cfg today start end_ label Hv H)
    as (a & b & Ha & Hb & -> & ->).
  split; [apply strftime_length|]. split; [apply strftime_length|].
  exists a, b. auto using StrptimeFacts.strptime_strftime.
Qed.

Lemma window_strings_canonical_witness :
  String.length "2024-01-05" = 10%nat /\ String.length "2024-01-06" = 10%nat /\
  exists a b,
    strptime "2024-01-05" = Ok a /\ strftime a = "2024-01-05" /\
    strptime "2024-01-06" = Ok b /\ strftime b = "2024-01-06".
Proof.
  exact (window_strings_canonical cfg_unpadded (mkdate 2024 6 1)
           "2024-01-05" "2024-01-06" "2024-1-5" eq_refl eq_refl eq_refl).
Defined.

Lemma label_char_path_safe (c : ascii) :
  label_char c = true -> path_safe c = true.
Proof.
  destruct c as [[] [] [] [] [] [] [] []]; intros H;
    first [reflexivity | discriminate H].
Qed.

(** X5: a label holds no slash, no backslash, no dot and no NUL, so the
    two local files of a run lie in the directory [output] itself. *)
Theorem label_characters (cfg : config) (today : date)
        (start end_ label : string) :
  valid today = true ->
  get_dates cfg today = Ok (start, end_, label) ->
  all_chars path_safe label = true
  /\ json_file label = "output/" ++ basename (json_file label)
  /\ csv_file label = "output/" ++ basename (csv_file label).
Proof.
  intros Hv H.
  assert (Hl : all_chars label_char label = true).
  { unfold get_dates in H.
    destruct (truthy (DATE cfg)).
    - apply rbind_ok in H as (d & Hp & H).
      apply rbind_ok in H as (d1 & _ & H). injection H as _ _ <-.
      eapply all_chars_weaken;
        [exact date_char_label_char | eapply strptime_all_chars; eassumption].
    - destruct (truthy (START cfg) && truthy (END cfg)).
      + apply rbind_ok in H as (s & Hs & H).
        apply rbind_ok in H as (e & He & H).
        apply rbind_ok in H as (e1 & _ & H). injection H as _ _ <-.
        rewrite all_chars_app. cbn [append all_chars].
        rewrite (all_chars_weaken _ _ _ date_char_label_char
                   (strptime_all_chars _ _ Hs)).
        rewrite (all_chars_weaken _ _ _ date_char_label_char
                   (strptime_all_chars _ _ He)).
        reflexivity.
      + apply rbind_ok in H as (yest & Hy & H).
        apply rbind_ok in H as (e1 & _ & H). injection H as _ _ <-.
        destruct (CalendarFacts.sub_one_day_spec today yest Hv Hy) as [Hvy _].
        eapply all_chars_weaken; [exact date_char_label_char|].
        eapply strptime_all_chars.
        apply StrptimeFacts.strptime_strftime. exact Hvy. }
  pose proof (label_no_slash cfg today start end_ label Hv H) as Hs.
  split.
  - eapply all_chars_weaken; [exact label_char_path_safe | assumption].
  - rewrite basename_json_file, basename_csv_file by assumption.
    split; reflexivity.
Qed.

Lemma label_characters_witness :
  all_chars path_safe "2023-12-30_to_2023-12-31" = true
  /\ json_file "2023-12-30_to_2023-12-31"
     = "output/" ++ basename (json_file "2023-12-30_to_2023-12-31")
  /\ csv_file "2023-12-30_to_2023-12-31"
     = "output/" ++ basename (csv_file "2023-12-30_to_2023-12-31").
Proof.
  exact (label_characters cfg_range (mkdate 2024 6 1)
           "2023-12-30" "2024-01-01" "2023-12-30_to_2023-12-31"
           eq_refl eq_refl).
Defined.

(** ** [normalize] *)

Section NormalizeMore.

Lemma for_each_ok {A B : Type} (f : A -> result B) (l : list A)
      (rs : list B) :
  for_each f l = Ok rs -> Forall2 (fun a b => f a = Ok b) l rs.
Proof.
  revert rs. induction l as [|a l IH]; intros rs H; cbn [for_each] in H.
  - injection H as <-. constructor.
  - apply rbind_ok in H as (b & Hb & H).
    apply rbind_ok in H as (bs & Hbs & H). injection H as <-.
    constructor; auto.
Qed.

Lemma for_each_first_error {A B : Type} (f : A -> result B)
      (before after : list A) (a : A) (bs : list B) (e : exn) :
  for_each f before = Ok bs -> f a = Raise e ->
  for_each f (before ++ a :: after) = Raise e.
Proof.
  intros Hb Ha. rewrite for_each_app, Hb. cbn [rbind for_each].
  rewrite Ha. reflexivity.
Qed.

Lemma subscript_ok (v : pyval) (k : string) (x : pyval) :
  subscript v k = Ok x -> exists d, v = PDict d /\ lookup k d = Some x.
Proof.
  destruct v; try discriminate. cbn [subscript].
  destruct (lookup k d) eqn:E; [|discriminate].
  intros [= <-]. eauto.
Qed.

Lemma normalize_group_ok (dp : list (string * pyval)) (g : pyval) (r : row) :
  normalize_group (PDict dp) g = Ok r -> record_in dp g r.
Proof.
  unfold normalize_group. intros H.
  apply rbind_ok in H as (keys & Hk & H).
  apply rbind_ok in H as (service & Hs & H).
  apply rbind_ok in H as (metrics & Hm & H).
  apply rbind_ok in H as (metric & Hu & H).
  apply rbind_ok in H as (a & Ha & H).
  apply rbind_ok in H as (dec & Hd & H).
  apply rbind_ok in H as (amount & Hf & H).
  apply rbind_ok in H as (unit_ & Hun & H).
  apply rbind_ok in H as (tp & Ht & H).
  apply rbind_ok in H as (start & Hst & H).
  injection H as <-. cbn [row_date row_service row_amount row_unit].
  apply subscript_ok in Hk as (dg & -> & Hk).
  cbn [subscript] in Hm.
  destruct (lookup "Metrics" dg) as [metrics'|] eqn:Em; [|discriminate].
  injection Hm as ->.
  cbn [subscript] in Ht.
  destruct (lookup "TimePeriod" dp) as [tp'|] eqn:Et; [|discriminate].
  injection Ht as ->.
  exists dg, keys, metrics, metric, a, tp.
  repeat split; try assumption.
  unfold to_float. rewrite Hd. exact Hf.
Qed.

Lemma normalize_period_ok (p : pyval) (rs : list row) :
  normalize_period p = Ok rs -> period_records p rs.
Proof.
  unfold normalize_period. intros H.
  apply rbind_ok in H as (groups & Hg & H).
  apply rbind_ok in H as (gs & Hi & H).
  destruct p; try discriminate. cbn [dict_get] in Hg. injection Hg as <-.
  exists d, gs. split; [reflexivity|]. split; [exact Hi|].
  apply for_each_ok in H.
  eapply Forall2_impl; [|exact H].
  intros g r. apply normalize_group_ok.
Qed.

Lemma float_add_nan_l (x : float) : float_add S754_nan x = S754_nan.
Proof. reflexivity. Qed.

Lemma float_add_nan_r (x : float) : float_add x S754_nan = S754_nan.
Proof. destruct x; reflexivity. Qed.

Lemma fold_float_add_nan (xs : list float) :
  fold_left float_add xs S754_nan = S754_nan.
Proof.
  induction xs as [|x xs IH]; [reflexivity|].
  cbn [fold_left]. rewrite float_add_nan_l. exact IH.
Qed.

Lemma float_add_zero_l (x : float) :
  x <> S754_zero true -> float_add (float_of_Z 0) x = x.
Proof.
  intros H. destruct x as [[]| | |]; try reflexivity. now elim H.
Qed.

End NormalizeMore.

(** X6: what [normalize] returns comes from the response and from
    nowhere else: when it returns records, they are, period by period and
    group by group in the order of the response, one record for each
    group; the record has the first of the group's keys, the float of its
    amount, its unit, and the start of the period the group is in. *)
Theorem normalize_sound (d : list (string * pyval)) (rows : list row) :
  normalize (PDict d) = Ok rows ->
  exists periods table,
    iterate (get_or_empty "ResultsByTime" d) = Ok periods /\
    Forall2 period_records periods table /\
    rows = List.concat table.
Proof.
  unfold normalize. intros H.
  apply rbind_ok in H as (v & Hv & H). cbn [dict_get] in Hv.
  injection Hv as <-.
  apply rbind_ok in H as (ps & Hi & H).
  apply rbind_ok in H as (table & Ht & H). injection H as <-.
  exists ps, table. split; [exact Hi|]. split; [|reflexivity].
  apply for_each_ok in Ht.
  eapply Forall2_impl; [|exact Ht].
  intros p rs. apply normalize_period_ok.
Qed.

Lemma normalize_sound_witness :
  exists periods table,
    iterate (get_or_empty "ResultsByTime" response_example) = Ok periods /\
    Forall2 period_records periods table /\
    rows_example = List.concat table.
Proof.
  apply (normalize_sound response_example rows_example). reflexivity.
Defined.

(** X7: one group or period that cannot be read discards everything: the
    normalizer raises the exception of the first period that fails, and
    a period raises that of its first group that fails, whatever was read
    before and whatever follows. *)
Theorem normalize_first_error :
  (forall d before p after table e,
      lookup "ResultsByTime" d = Some (PList (before ++ p :: after)) ->
      for_each normalize_period before = Ok table ->
      normalize_period p = Raise e ->
      normalize (PDict d) = Raise e)
  /\ (forall dp before g after rs e,
         lookup "Groups" dp = Some (PList (before ++ g :: after)) ->
         for_each (normalize_group (PDict dp)) before = Ok rs ->
         normalize_group (PDict dp) g = Raise e ->
         normalize_period (PDict dp) = Raise e).
Proof.
  split.
  - intros d before p after table e Hd Hb Hp.
    unfold normalize, dict_get. rewrite Hd. cbn [rbind iterate].
    rewrite (for_each_first_error _ before after p table e Hb Hp).
    reflexivity.
  - intros dp before g after rs e Hd Hb Hg.
    unfold normalize_period, dict_get. rewrite Hd. cbn [rbind iterate].
    exact (for_each_first_error _ before after g rs e Hb Hg).
Qed.

Lemma normalize_first_error_witness :
  normalize
    (PDict [("ResultsByTime",
             PList ([period_example]
                    ++ PDict [("Groups", PList [group_without_keys])]
                    :: [period_example]))])
  = Raise KeyError.
Proof.
  apply (proj1 normalize_first_error _ [period_example]
               (PDict [("Groups", PList [group_without_keys])])
               [period_example] [rows_example] KeyError);
    reflexivity.
Defined.

(** X8: the exception a group raises: [TypeError] when it is no
    dictionary, [KeyError] without [Keys] or without [Metrics],
    [IndexError] when [Keys] is the empty list, [InvalidOperation] when
    the amount is a string that is no number; and a group that can be
    read raises [KeyError] when its period has no [TimePeriod]. *)
Theorem normalize_group_errors :
  (forall period g,
      (forall dg, g <> PDict dg) ->
      normalize_group period g = Raise TypeError)
  /\ (forall period dg,
         lookup "Keys" dg = None ->
         normalize_group period (PDict dg) = Raise KeyError)
  /\ (forall period dg,
         lookup "Keys" dg = Some (PList []) ->
         normalize_group period (PDict dg) = Raise IndexError)
  /\ (forall period dg service rest,
         lookup "Keys" dg = Some (PList (service :: rest)) ->
         lookup "Metrics" dg = None ->
         normalize_group period (PDict dg) = Raise KeyError)
  /\ (forall period dg service rest dm dc s,
         lookup "Keys" dg = Some (PList (service :: rest)) ->
         lookup "Metrics" dg = Some (PDict dm) ->
         lookup "UnblendedCost" dm = Some (PDict dc) ->
         lookup "Amount" dc = Some (PStr s) ->
         parse_decimal s = None ->
         normalize_group period (PDict dg) = Raise InvalidOperation)
  /\ (forall dp g service amount unit_ f,
         group_of g service amount unit_ ->
         to_float amount = Ok f ->
         lookup "TimePeriod" dp = None ->
         normalize_group (PDict dp) g = Raise KeyError).
Proof.
  repeat split.
  - intros period g Hg. unfold normalize_group.
    destruct g; try reflexivity. now elim (Hg d).
  - intros period dg H. unfold normalize_group, subscript. now rewrite H.
  - intros period dg H. unfold normalize_group, subscript. now rewrite H.
  - intros period dg service rest Hk Hm.
    unfold normalize_group, subscript. rewrite Hk, Hm. reflexivity.
  - intros period dg service rest dm dc s Hk Hm Hu Ha Hp.
    unfold normalize_group, subscript. rewrite Hk, Hm.
    cbn [of_option rbind subscript0]. rewrite Hu. cbn [of_option rbind].
    rewrite Ha. cbn [of_option rbind Decimal]. rewrite Hp. reflexivity.
  - intros dp g service amount unit_ f
           (dg & rest & dm & dc & -> & Hk & Hm & Hu & Ha & Hun) Hf Ht.
    unfold normalize_group, subscript. rewrite Hk, Hm.
    cbn [of_option rbind subscript0]. rewrite Hu. cbn [of_option rbind].
    rewrite Ha. cbn [of_option rbind]. unfold to_float in Hf.
    destruct (Decimal amount) as [dec|]; [|discriminate].
    cbn [rbind] in *. rewrite Hf. cbn [rbind]. rewrite Hun, Ht. reflexivity.
Qed.

Lemma normalize_group_errors_witness :
  normalize_group period_example (PStr "AmazonEC2") = Raise TypeError
  /\ normalize_group period_example group_without_keys = Raise KeyError
  /\ normalize_group period_example
       (PDict [("Keys", PList [PStr "AmazonEC2"]);
               ("Metrics", metric_of "n/a" "USD")])
     = Raise InvalidOperation
  /\ normalize_group (PDict [("Groups", PList [])])
                     (group_example "AmazonEC2" "12.3400" "USD")
     = Raise KeyError.
Proof.
  split; [|split; [|split]].
  - apply (proj1 normalize_group_errors). discriminate.
  - apply (proj1 (proj2 normalize_group_errors)). reflexivity.
  - apply (proj1 (proj2 (proj2 (proj2 (proj2 normalize_group_errors))))
                 _ _ (PStr "AmazonEC2") []
                 [("UnblendedCost",
                   PDict [("Amount", PStr "n/a"); ("Unit", PStr "USD")])]
                 [("Amount", PStr "n/a"); ("Unit", PStr "USD")] "n/a");
      reflexivity.
  - apply (proj2 (proj2 (proj2 (proj2 (proj2 normalize_group_errors))))
                 _ _ (PStr "AmazonEC2") (PStr "12.3400") (PStr "USD")
                 (S754_finite false 6946802425218990 (-49))).
    + eexists _, _, _, _. repeat split; reflexivity.
    + reflexivity.
    + reflexivity.
Defined.

(** X9: a container that is present but is [None] is not taken for the
    empty list, as a missing one is: it raises [TypeError]; and a response
    or a period that is no dictionary raises [AttributeError]. *)
Theorem null_containers_raise :
  (forall d,
      lookup "ResultsByTime" d = Some PNone ->
      normalize (PDict d) = Raise TypeError)
  /\ (forall dp,
         lookup "Groups" dp = Some PNone ->
         normalize_period (PDict dp) = Raise TypeError)
  /\ (forall resp,
         (forall d, resp <> PDict d) -> normalize resp = Raise AttributeError)
  /\ (forall p,
         (forall dp, p <> PDict dp) ->
         normalize_period p = Raise AttributeError).
Proof.
  repeat split.
  - intros d H. unfold normalize, dict_get. now rewrite H.
  - intros dp H. unfold normalize_period, dict_get. now rewrite H.
  - intros resp H. destruct resp; try reflexivity. now elim (H d).
  - intros p H. destruct p; try reflexivity. now elim (H d).
Qed.

Lemma null_containers_raise_witness :
  normalize (PDict [("ResultsByTime", PNone)]) = Raise TypeError
  /\ normalize_period (PDict [("Groups", PNone)]) = Raise TypeError
  /\ normalize (PList []) = Raise AttributeError
  /\ normalize_period (PStr "2024-01-01") = Raise AttributeError.
Proof.
  split; [|split; [|split]].
  - apply (proj1 null_containers_raise). reflexivity.
  - apply (proj1 (proj2 null_containers_raise)). reflexivity.
  - apply (proj1 (proj2 (proj2 null_containers_raise))). discriminate.
  - apply (proj2 (proj2 (proj2 null_containers_raise))). discriminate.
Defined.

(** ** The total *)

(** X10: one amount that is NaN makes the total NaN, wherever it stands
    among the records, and the total is then printed as [nan]. *)
Theorem nan_poisons_total (rows : list row) (r : row) :
  In r rows -> row_amount r = S754_nan ->
  total rows = NFloat S754_nan /\ format_number_2f (total rows) = "nan".
Proof.
  intros Hin Hr.
  assert (E : total rows = NFloat S754_nan).
  { apply in_split in Hin as (l1 & l2 & ->).
    unfold total, py_sum. rewrite map_app. cbn [map]. rewrite Hr.
    rewrite fold_left_app. cbn [fold_left].
    assert (Hn : forall acc, number_add acc S754_nan = NFloat S754_nan).
    { intros [z|a]; cbn [number_add]; now rewrite float_add_nan_r. }
    rewrite Hn, fold_number_add, fold_float_add_nan. reflexivity. }
  rewrite E. split; reflexivity.
Qed.

Lemma nan_poisons_total_witness :
  total (rows_example
         ++ [mkrow (PStr "2024-01-01") (PStr "Tax") S754_nan (PStr "USD")])
  = NFloat S754_nan
  /\ format_number_2f
       (total (rows_example
               ++ [mkrow (PStr "2024-01-01") (PStr "Tax") S754_nan
                         (PStr "USD")]))
     = "nan".
Proof.
  apply (nan_poisons_total _ (mkrow (PStr "2024-01-01") (PStr "Tax")
                                    S754_nan (PStr "USD"))).
  - do 2 right. left. reflexivity.
  - reflexivity.
Defined.

(** X11: the total of a single record is its amount, but for the amount
    minus zero, whose total is plus zero: adding to the integer 0 that
    [sum] starts from loses the sign. *)
Theorem total_of_one_record (r : row) :
  (row_amount r <> S754_zero true -> total [r] = NFloat (row_amount r))
  /\ (row_amount r = S754_zero true ->
      total [r] = NFloat (S754_zero false)
      /\ format_number_2f (total [r]) = "0.00"
      /\ format_2f (row_amount r) = "-0.00").
Proof.
  unfold total, py_sum. cbn [map fold_left number_add]. split.
  - intros H. now rewrite float_add_zero_l.
  - intros ->. repeat split.
Qed.

Lemma total_of_one_record_witness :
  total [mkrow (PStr "2024-01-01") (PStr "AmazonEC2")
               (S754_finite false 6946802425218990 (-49)) (PStr "USD")]
  = NFloat (S754_finite false 6946802425218990 (-49)).
Proof.
  apply (proj1 (total_of_one_record
                  (mkrow (PStr "2024-01-01") (PStr "AmazonEC2")
                         (S754_finite false 6946802425218990 (-49))
                         (PStr "USD")))).
  discriminate.
Defined.

(** ** Keys *)

Section KeysMore.

Lemma rstrip_slash_app_slash (p : string) :
  rstrip_slash (p ++ "/") = rstrip_slash p.
Proof.
  induction p as [|c p IH]; [reflexivity|].
  cbn [append rstrip_slash]. now rewrite IH.
Qed.

Lemma rstrip_slash_no_slash_end (p : string) :
  ends_with_slash (rstrip_slash p) = false.
Proof.
  induction p as [|c p IH]; [reflexivity|].
  cbn [rstrip_slash]. destruct (rstrip_slash p) as [|c' r'] eqn:E.
  - destruct (Ascii.eqb c "/") eqn:Ec; [reflexivity|].
    cbn [ends_with_slash]. exact Ec.
  - exact IH.
Qed.

Lemma rstrip_slash_all_slashes (p : string) :
  all_chars is_slash p = true -> rstrip_slash p = "".
Proof.
  induction p as [|c p IH]; [reflexivity|].
  cbn [all_chars rstrip_slash]. intros H. apply andb_prop in H as [Hc Hp].
  rewrite (IH Hp). unfold is_slash in Hc. now rewrite Hc.
Qed.

End KeysMore.

(** X12: slashes at the end of the prefix do not change a key: a prefix,
    the same prefix with one more slash and the prefix with its final
    slashes removed all give the same key, in which the prefix part never
    ends in a slash. *)
Theorem key_ignores_trailing_slashes (cfg : config) (file : string) :
  key_of (with_prefix cfg (PREFIX cfg ++ "/")) file = key_of cfg file
  /\ key_of (with_prefix cfg (rstrip_slash (PREFIX cfg))) file
     = key_of cfg file
  /\ ends_with_slash (rstrip_slash (PREFIX cfg)) = false.
Proof.
  unfold key_of, with_prefix. cbn [PREFIX].
  rewrite rstrip_slash_app_slash.
  rewrite (rstrip_slash_id (rstrip_slash (PREFIX cfg)))
    by apply rstrip_slash_no_slash_end.
  repeat split. apply rstrip_slash_no_slash_end.
Qed.

(** X13: COST_S3_PREFIX set to the empty string, or to slashes only,
    leaves no prefix (the default applies to an unset variable only): the
    key is then a slash and the base name of the file. *)
Theorem empty_prefix_key (env : environ) (p file : string) :
  env "COST_S3_PREFIX" = Some p -> all_chars is_slash p = true ->
  key_of (load_config env) file = "/" ++ basename file.
Proof.
  intros Hp Hs. unfold key_of, load_config. cbn [PREFIX]. rewrite Hp.
  now rewrite (rstrip_slash_all_slashes p Hs).
Qed.

Lemma empty_prefix_key_witness :
  key_of (load_config (fun k => if String.eqb k "COST_S3_PREFIX"
                                then Some "" else None))
         (json_file "2024-01-01")
  = "/" ++ basename (json_file "2024-01-01").
Proof.
  apply (empty_prefix_key _ ""); reflexivity.
Defined.

(** ** Runs *)

Section RunMore.

Variable env : environ.
Variable w : world.

Let cfg : config := load_config env.

Lemma script_is_main :
  truthy (env "COST_S3_BUCKET") = true -> script env w = main cfg w [].
Proof.
  intros H. unfold script. cbn [load_config BUCKET]. now rewrite H.
Qed.

(** [main], stage by stage, when the stages before the uploads succeed. *)
Lemma main_until_uploads (start end_ label : string) (resp : pyval)
      (rows : list row) :
  boto3_Session cfg w = Ok tt ->
  get_dates cfg (today w) = Ok (start, end_, label) ->
  get_cost_and_usage w start end_ = Ok resp ->
  normalize resp = Ok rows ->
  main cfg w []
  = match upload_file w (json_file label) (str_of (BUCKET cfg))
                      (key_of cfg (json_file label)) with
    | Raise e =>
        (Raise e,
         (queried_and_persisted w start end_ label rows
          ++ [up_json cfg label])%list)
    | Ok _ =>
        if pd w then
          match upload_file w (csv_file label) (str_of (BUCKET cfg))
                            (key_of cfg (csv_file label)) with
          | Raise e =>
              (Raise e,
               (queried_and_persisted w start end_ label rows
                ++ [up_json cfg label; up_csv cfg label])%list)
          | Ok _ =>
              (Ok tt,
               (queried_and_persisted w start end_ label rows
                ++ [up_json cfg label; up_csv cfg label;
                    EvPrint (uploaded_line cfg label);
                    EvPrint (total_line rows)])%list)
          end
        else
          (Ok tt,
           (queried_and_persisted w start end_ label rows
            ++ [up_json cfg label;
                EvPrint (uploaded_line cfg label);
                EvPrint (total_line rows)])%list)
    end.
Proof.
  intros Hs Hd Hq Hn.
  unfold main, boto3_ce_client, get_cost_by_service, save_json, save_csv,
    upload, boto3_s3_client, queried_and_persisted, persisted, up_json, up_csv.
  unfold bind, lift, call, emit, ret.
  rewrite Hs, Hd. cbn [app]. rewrite Hq, Hn.
  destruct (pd w); cbn [negb app].
  - destruct (upload_file w (json_file label) _ _) as [[]|e]; [|reflexivity].
    destruct (upload_file w (csv_file label) _ _) as [[]|e]; reflexivity.
  - destruct (upload_file w (json_file label) _ _) as [[]|e]; reflexivity.
Qed.

End RunMore.

Ltac split_trace H :=
  match type of H with
  | (?t1 ++ _ :: _)%list = [] => destruct t1; discriminate H
  | (?t1 ++ _ :: _)%list = _ :: _ =>
      destruct t1 as [|? t1]; cbn [app] in H;
      [ try discriminate H
      | let E := fresh "E" in
        injection H as E H; subst; split_trace H ]
  end.

(** X14: the JSON file a run writes holds the normalization of the
    response to the one query of the run, which was made for the window
    that was resolved; its path is that of the resolved label. *)
Theorem json_holds_normalized_response (env : environ) (w : world)
        (p : string) (rows : list row) :
  In (EvWriteJson p rows) (snd (script env w)) ->
  exists start end_ label resp,
    get_dates (load_config env) (today w) = Ok (start, end_, label) /\
    get_cost_and_usage w start end_ = Ok resp /\
    normalize resp = Ok rows /\
    p = json_file label /\
    In (EvQuery start end_) (snd (script env w)).
Proof.
  intros Hin. destruct (script env w) as [r t] eqn:E. cbn [snd] in *.
  apply script_outcome in E as [(_ & _ & ->)|[_ Ho]]; [contradiction|].
  destruct Ho; unfold persisted in Hin; destruct (pd w);
    cbn [In app] in Hin;
    repeat (destruct Hin as [Hin|Hin]; try discriminate Hin);
    try contradiction;
    injection Hin as <- <-;
    exists start, end_, label, resp;
    repeat split; try assumption; left; reflexivity.
Qed.

Lemma json_holds_normalized_response_witness :
  exists start end_ label resp,
    get_dates (load_config env_example) (today world_example)
    = Ok (start, end_, label) /\
    get_cost_and_usage world_example start end_ = Ok resp /\
    normalize resp = Ok rows_example /\
    "output/aws_costs_2024-01-01.json" = json_file label /\
    In (EvQuery start end_) (snd (script env_example world_example)).
Proof.
  apply (json_holds_normalized_response env_example world_example
           "output/aws_costs_2024-01-01.json" rows_example).
  vm_compute. do 2 right. left. reflexivity.
Defined.

(** X15: nothing is uploaded that has not been written: wherever an upload
    stands in the trace of a run, a write of the same local file stands
    before it, and the upload goes to the configured bucket. *)
Theorem uploads_follow_writes (env : environ) (w : world)
        (t1 t2 : list event) (local bucket key : string) :
  snd (script env w) = (t1 ++ EvUpload local bucket key :: t2)%list ->
  bucket = str_of (env "COST_S3_BUCKET")
  /\ exists ev, In ev t1 /\ writes local ev.
Proof.
  intros Ht. destruct (script env w) as [r t] eqn:E. cbn [snd] in Ht.
  apply script_outcome in E as [(_ & _ & ->)|[_ Ho]].
  - destruct t1; discriminate Ht.
  - symmetry in Ht.
    destruct Ho; unfold persisted, up_json, up_csv in Ht;
      destruct (pd w); try discriminate;
      cbn [app] in Ht; split_trace Ht;
      injection Ht as -> -> -> _;
      (split; [reflexivity|]);
      unfold writes; cbn [In]; eauto 12.
Qed.

Lemma uploads_follow_writes_witness :
  "bucket" = str_of (env_example "COST_S3_BUCKET")
  /\ exists ev,
      In ev [EvQuery "2024-01-01" "2024-01-02";
             EvMakedirs "output";
             EvWriteJson "output/aws_costs_2024-01-01.json" rows_example;
             EvWriteCsv "output/aws_costs_2024-01-01.csv" rows_example;
             EvUpload "output/aws_costs_2024-01-01.json" "bucket"
                      "aws-costs/aws_costs_2024-01-01.json"]
      /\ writes "output/aws_costs_2024-01-01.csv" ev.
Proof.
  apply (uploads_follow_writes env_example world_example _
           [EvPrint (uploaded_line (load_config env_example) "2024-01-01");
            EvPrint (total_line rows_example)]
           _ _ "aws-costs/aws_costs_2024-01-01.csv").
  reflexivity.
Defined.

(** What a run whose trace goes beyond the query has been through. *)
Lemma script_after_query (env : environ) (w : world) (r : result unit)
      (t : list event) :
  script env w = (r, t) -> (1 < List.length t)%nat ->
  exists start end_ label resp rows,
    truthy (env "COST_S3_BUCKET") = true /\
    boto3_Session (load_config env) w = Ok tt /\
    get_dates (load_config env) (today w) = Ok (start, end_, label) /\
    get_cost_and_usage w start end_ = Ok resp /\
    normalize resp = Ok rows.
Proof.
  intros E Hlen.
  pose proof E as E0.
  apply script_outcome in E0 as [(_ & _ & ->)|[Hb Ho]];
    [cbn in Hlen; lia|].
  assert (Hs : boto3_Session (load_config env) w = Ok tt).
  { rewrite (script_is_main env w Hb) in E.
    unfold main, boto3_ce_client, bind, lift in E.
    destruct (boto3_Session (load_config env) w) as [[]|e']; [reflexivity|].
    injection E as _ <-. cbn in Hlen. lia. }
  destruct Ho; cbn [List.length] in Hlen; try lia;
    exists start, end_, label, resp, rows; auto.
Qed.

(** X16: a line is printed only after the uploads have succeeded: when a
    run has printed a line, the JSON file has been uploaded, and with
    pandas the CSV file too, and the line is one of the two of the
    summary. *)
Theorem prints_follow_uploads (env : environ) (w : world) (line : string) :
  In (EvPrint line) (snd (script env w)) ->
  exists label rows,
    In (up_json (load_config env) label) (snd (script env w)) /\
    upload_file w (json_file label) (str_of (env "COST_S3_BUCKET"))
                (key_of (load_config env) (json_file label)) = Ok tt /\
    (pd w = true ->
     In (up_csv (load_config env) label) (snd (script env w)) /\
     upload_file w (csv_file label) (str_of (env "COST_S3_BUCKET"))
                 (key_of (load_config env) (csv_file label)) = Ok tt) /\
    (line = uploaded_line (load_config env) label
     \/ line = total_line rows).
Proof.
  intros Hin. destruct (script env w) as [r t] eqn:E. cbn [snd] in *.
  assert (Hlen : (1 < List.length t)%nat).
  { pose proof E as E0.
    apply script_outcome in E0 as [(_ & _ & ->)|[_ Ho]]; [contradiction|].
    destruct Ho; unfold persisted in *; destruct (pd w);
      cbn [In List.length app] in *;
      repeat (destruct Hin as [Hin|Hin]; try discriminate Hin);
      try contradiction; lia. }
  destruct (script_after_query env w r t E Hlen)
    as (start & end_ & label & resp & rows & Hb & Hs & Hd & Hq & Hn).
  rewrite (script_is_main env w Hb) in E.
  rewrite (main_until_uploads env w start end_ label resp rows Hs Hd Hq Hn)
    in E.
  unfold queried_and_persisted, persisted in E.
  cbn [load_config BUCKET] in *.
  exists label, rows.
  destruct (upload_file w (json_file label) _ _) as [[]|e] eqn:Hj.
  - destruct (pd w) eqn:Hp.
    + destruct (upload_file w (csv_file label) _ _) as [[]|e] eqn:Hc;
        injection E as <- <-; cbn [In app] in *;
        repeat (destruct Hin as [Hin|Hin]; try discriminate Hin);
        try contradiction; injection Hin as <-;
        (split; [auto 12|]); (split; [reflexivity|]);
        (split; [intros _; split; [auto 12 | reflexivity]|]); auto.
    + injection E as <- <-; cbn [In app] in *;
        repeat (destruct Hin as [Hin|Hin]; try discriminate Hin);
        try contradiction; injection Hin as <-;
        (split; [auto 12|]); (split; [reflexivity|]);
        (split; [discriminate|]); auto.
  - injection E as <- <-. destruct (pd w); cbn [In app] in *;
      repeat (destruct Hin as [Hin|Hin]; try discriminate Hin);
      contradiction.
Qed.

Lemma prints_follow_uploads_witness :
  exists label rows,
    In (up_json (load_config env_example) label)
       (snd (script env_example world_example)) /\
    upload_file world_example (json_file label)
                (str_of (env_example "COST_S3_BUCKET"))
                (key_of (load_config env_example) (json_file label)) = Ok tt /\
    (pd world_example = true ->
     In (up_csv (load_config env_example) label)
        (snd (script env_example world_example)) /\
     upload_file world_example (csv_file label)
                 (str_of (env_example "COST_S3_BUCKET"))
                 (key_of (load_config env_example) (csv_file label)) = Ok tt) /\
    (total_line rows_example = uploaded_line (load_config env_example) label
     \/ total_line rows_example = total_line rows).
Proof.
  apply (prints_follow_uploads env_example world_example
                               (total_line rows_example)).
  vm_compute. do 7 right. left. reflexivity.
Defined.

(** X17: a run that returns normally has made its session, resolved its
    window, got an answer to its query, normalized it and uploaded the
    JSON file, and with pandas the CSV file; its effects are the query,
    the directory, the files, the uploads and the two lines, in this
    order. *)
Theorem successful_run (env : environ) (w : world) (t : list event) :
  script env w = (Ok tt, t) ->
  exists start end_ label resp rows,
    boto3_Session (load_config env) w = Ok tt /\
    get_dates (load_config env) (today w) = Ok (start, end_, label) /\
    get_cost_and_usage w start end_ = Ok resp /\
    normalize resp = Ok rows /\
    upload_file w (json_file label) (str_of (env "COST_S3_BUCKET"))
                (key_of (load_config env) (json_file label)) = Ok tt /\
    (pd w = true ->
     upload_file w (csv_file label) (str_of (env "COST_S3_BUCKET"))
                 (key_of (load_config env) (csv_file label)) = Ok tt) /\
    t = (queried_and_persisted w start end_ label rows
         ++ [up_json (load_config env) label]
         ++ (if pd w then [up_csv (load_config env) label] else [])
         ++ [EvPrint (uploaded_line (load_config env) label);
             EvPrint (total_line rows)])%list.
Proof.
  intros E.
  assert (Hlen : (1 < List.length t)%nat).
  { pose proof E as E0.
    apply script_outcome in E0 as [(_ & E0 & _)|[_ Ho]]; [discriminate|].
    inversion Ho. unfold persisted. destruct (pd w);
      cbn [List.length app]; lia. }
  destruct (script_after_query env w _ t E Hlen)
    as (start & end_ & label & resp & rows & Hb & Hs & Hd & Hq & Hn).
  rewrite (script_is_main env w Hb) in E.
  rewrite (main_until_uploads env w start end_ label resp rows Hs Hd Hq Hn)
    in E.
  cbn [load_config BUCKET] in *.
  exists start, end_, label, resp, rows.
  destruct (upload_file w (json_file label) _ _) as [[]|e] eqn:Hj;
    [|discriminate E].
  destruct (pd w) eqn:Hp.
  - destruct (upload_file w (csv_file label) _ _) as [[]|e] eqn:Hc;
      [|discriminate E].
    injection E as <-. repeat split; auto.
  - injection E as <-. repeat split; auto. discriminate.
Qed.

Lemma successful_run_witness :
  exists start end_ label resp rows,
    boto3_Session (load_config env_example) world_example = Ok tt /\
    get_dates (load_config env_example) (today world_example)
    = Ok (start, end_, label) /\
    get_cost_and_usage world_example start end_ = Ok resp /\
    normalize resp = Ok rows /\
    upload_file world_example (json_file label)
                (str_of (env_example "COST_S3_BUCKET"))
                (key_of (load_config env_example) (json_file label)) = Ok tt /\
    (pd world_example = true ->
     upload_file world_example (csv_file label)
                 (str_of (env_example "COST_S3_BUCKET"))
                 (key_of (load_config env_example) (csv_file label)) = Ok tt) /\
    snd (script env_example world_example)
    = (queried_and_persisted world_example start end_ label rows
       ++ [up_json (load_config env_example) label]
       ++ (if pd world_example
           then [up_csv (load_config env_example) label] else [])
       ++ [EvPrint (uploaded_line (load_config env_example) label);
           EvPrint (total_line rows)])%list.
Proof.
  apply (successful_run env_example world_example
                        (snd (script env_example world_example))).
  reflexivity.
Defined.

(** X18: an upload that is reached and fails is the last effect of the
    run, which ends with the exception of the upload: nothing is uploaded
    and nothing is printed after it.  When it is the upload of the CSV
    file, the JSON file has been uploaded before and stays so. *)
Theorem upload_failure_stops (env : environ) (w : world)
        (t1 t2 : list event) (local bucket key : string) (e : exn) :
  snd (script env w) = (t1 ++ EvUpload local bucket key :: t2)%list ->
  upload_file w local bucket key = Raise e ->
  fst (script env w) = Raise e /\ t2 = []
  /\ exists label,
      local = json_file label
      \/ (local = csv_file label /\
          In (up_json (load_config env) label) t1 /\
          upload_file w (json_file label) (str_of (env "COST_S3_BUCKET"))
                      (key_of (load_config env) (json_file label)) = Ok tt).
Proof.
  intros Ht Hu. destruct (script env w) as [r t] eqn:E. cbn [fst snd] in *.
  assert (Hlen : (1 < List.length t)%nat).
  { pose proof E as E0.
    apply script_outcome in E0 as [(_ & _ & ->)|[_ Ho]].
    - destruct t1; discriminate Ht.
    - symmetry in Ht.
      destruct Ho; unfold persisted in *; destruct (pd w);
        cbn [List.length app] in *; try lia; split_trace Ht. }
  destruct (script_after_query env w r t E Hlen)
    as (start & end_ & label & resp & rows & Hb & Hs & Hd & Hq & Hn).
  rewrite (script_is_main env w Hb) in E.
  rewrite (main_until_uploads env w start end_ label resp rows Hs Hd Hq Hn)
    in E.
  unfold queried_and_persisted, persisted, up_json, up_csv in *.
  cbn [load_config BUCKET] in *.
  destruct (upload_file w (json_file label) _ _) as [[]|e1] eqn:Hj.
  - destruct (pd w) eqn:Hp.
    + destruct (upload_file w (csv_file label) _ _) as [[]|e2] eqn:Hc;
        injection E as <- <-; symmetry in Ht; cbn [app] in Ht;
        split_trace Ht; injection Ht as -> -> -> Ht; try congruence.
      subst t2. rewrite Hc in Hu. injection Hu as <-.
      split; [reflexivity|]. split; [reflexivity|].
      exists label. right. split; [reflexivity|].
      split; [cbn [In]; auto 12 | exact Hj].
    + injection E as <- <-. symmetry in Ht. cbn [app] in Ht.
      split_trace Ht; injection Ht as -> -> -> Ht; congruence.
  - injection E as <- <-. symmetry in Ht.
    destruct (pd w); cbn [app] in Ht;
      split_trace Ht; injection Ht as -> -> -> Ht;
      subst t2; rewrite Hj in Hu; injection Hu as <-;
      (split; [reflexivity|]); (split; [reflexivity|]);
      exists label; left; reflexivity.
Qed.

Lemma upload_failure_stops_witness :
  fst (script env_example world_upload_fails) = Raise ClientError
  /\ @nil event = []
  /\ exists label,
      "output/aws_costs_2024-01-01.json" = json_file label
      \/ ("output/aws_costs_2024-01-01.json" = csv_file label /\
          In (up_json (load_config env_example) label)
             (queried_and_persisted world_upload_fails "2024-01-01"
                                    "2024-01-02" "2024-01-01" rows_example) /\
          upload_file world_upload_fails (json_file label)
                      (str_of (env_example "COST_S3_BUCKET"))
                      (key_of (load_config env_example) (json_file label))
          = Ok tt).
Proof.
  apply (upload_failure_stops env_example world_upload_fails
           (queried_and_persisted world_upload_fails "2024-01-01"
                                  "2024-01-02" "2024-01-01" rows_example)
           [] "output/aws_costs_2024-01-01.json" "bucket"
           "aws-costs/aws_costs_2024-01-01.json" ClientError);
    reflexivity.
Defined.

(** X19: a session that cannot be made, or a date that does not resolve,
    ends the run before anything is done: no query, no file, no upload,
    no line.  The session comes first: when it fails, the dates are not
    looked at. *)
Theorem nothing_before_the_window (env : environ) (w : world) (e : exn) :
  truthy (env "COST_S3_BUCKET") = true ->
  boto3_Session (load_config env) w = Raise e
  \/ (boto3_Session (load_config env) w = Ok tt /\
      get_dates (load_config env) (today w) = Raise e) ->
  script env w = (Raise e, []).
Proof.
  intros Hb H. rewrite (script_is_main env w Hb).
  unfold main, boto3_ce_client, bind, lift.
  destruct H as [-> | [-> ->]]; reflexivity.
Qed.

Lemma nothing_before_the_window_witness :
  script env_bad_date world_example = (Raise ValueError, []).
Proof.
  apply (nothing_before_the_window env_bad_date world_example ValueError).
  - reflexivity.
  - right. split; reflexivity.
Defined.

(** X20: a query that fails, or an answer that cannot be normalized, ends
    the run with the query as its only effect: no file is written, nothing
    is uploaded, nothing is printed. *)
Theorem nothing_after_a_bad_response (env : environ) (w : world)
        (start end_ label : string) (e : exn) :
  truthy (env "COST_S3_BUCKET") = true ->
  boto3_Session (load_config env) w = Ok tt ->
  get_dates (load_config env) (today w) = Ok (start, end_, label) ->
  get_cost_and_usage w start end_ = Raise e
  \/ (exists resp,
         get_cost_and_usage w start end_ = Ok resp /\
         normalize resp = Raise e) ->
  script env w = (Raise e, [EvQuery start end_]).
Proof.
  intros Hb Hs Hd H. rewrite (script_is_main env w Hb).
  unfold main, boto3_ce_client, get_cost_by_service, bind, lift, call.
  rewrite Hs, Hd. cbn [app].
  destruct H as [-> | (resp & -> & ->)]; reflexivity.
Qed.

Lemma nothing_after_a_bad_response_witness :
  script env_example world_bad_response
  = (Raise KeyError, [EvQuery "2024-01-01" "2024-01-02"]).
Proof.
  apply (nothing_after_a_bad_response env_example world_bad_response
           "2024-01-01" "2024-01-02" "2024-01-01" KeyError);
    try reflexivity.
  right. eexists. split; reflexivity.
Defined.

(** * The JSON file *)

(** ** Digits and number tokens *)

Module JsonFacts.

Lemma append_assoc (a b c : string) : (a ++ b) ++ c = a ++ b ++ c.
Proof. induction a as [|x a IH]; cbn [append]; [reflexivity | now rewrite IH]. Qed.

Lemma append_nil_r (a : string) : a ++ "" = a.
Proof. induction a as [|x a IH]; cbn [append]; [reflexivity | now rewrite IH]. Qed.

Lemma length_append (a b : string) :
  String.length (a ++ b) = (String.length a + String.length b)%nat.
Proof. induction a as [|x a IH]; cbn [append String.length]; [reflexivity | now rewrite IH]. Qed.

(** *** Digits *)


Lemma span_digits_app (ds rest : string) :
  all_digits ds = true -> starts_with is_digit rest = false ->
  span_digits (ds ++ rest) = (ds, rest).
Proof.
  intros Hd Hr. induction ds as [|c ds IH]; cbn [append].
  - destruct rest as [|c r]; [reflexivity|]. cbn [starts_with] in Hr.
    cbn [span_digits]. now rewrite Hr.
  - cbn [all_digits] in Hd. apply andb_true_iff in Hd as [Hc Hd].
    cbn [span_digits]. rewrite Hc, (IH Hd). reflexivity.
Qed.

Lemma digits_from_app (ds : string) (acc n : Z) :
  all_digits ds = true ->
  digits_from acc n ds = (fst (fst (digits_from acc n ds)), n + Z.of_nat (String.length ds), "").
Proof.
  revert acc n. induction ds as [|c ds IH]; intros acc n Hd; cbn [digits_from String.length].
  - cbn [fst]. f_equal. f_equal. lia.
  - cbn [all_digits] in Hd. apply andb_true_iff in Hd as [Hc Hd]. rewrite Hc.
    rewrite (IH _ _ Hd) at 1. cbn [fst]. f_equal. f_equal. lia.
Qed.

Lemma all_digits_uint (d : Decimal.uint) :
  all_digits (NilEmpty.string_of_uint d) = true.
Proof. induction d; cbn [NilEmpty.string_of_uint all_digits]; auto. Qed.


Lemma digits_from_uint (d : Decimal.uint) (acc n : Z) :
  fst (fst (digits_from acc n (NilEmpty.string_of_uint d))) = uint_value d acc.
Proof.
  revert acc n. induction d; intros acc n;
    cbn [NilEmpty.string_of_uint digits_from uint_value]; try reflexivity;
    match goal with
    | |- context [is_digit ?c] => change (is_digit c) with true; cbv iota
    end;
    rewrite IHd; f_equal; unfold digit_val; cbn; lia.
Qed.

Lemma uint_value_acc (d : Decimal.uint) (acc : positive) :
  uint_value d (Zpos acc) = Zpos (Pos.of_uint_acc d acc).
Proof.
  revert acc. induction d; intros acc; cbn [uint_value Pos.of_uint_acc];
    try reflexivity;
    match goal with
    | |- uint_value _ ?z = _ =>
        match goal with
        | |- _ = Zpos (Pos.of_uint_acc _ ?p) =>
            replace z with (Zpos p) by lia; apply IHd
        end
    end.
Qed.

Lemma uint_value_0 (d : Decimal.uint) :
  uint_value d 0 = Z.of_N (Pos.of_uint d).
Proof.
  induction d; cbn [uint_value Pos.of_uint]; try reflexivity;
    try (cbn [Z.mul Z.add]; rewrite uint_value_acc; reflexivity).
  exact IHd.
Qed.

Lemma digits_value_N (n : N) : digits_value (string_of_N n) = Z.of_N n.
Proof.
  unfold digits_value, string_of_N. rewrite digits_from_uint, uint_value_0.
  change (Pos.of_uint (N.to_uint n)) with (N.of_uint (N.to_uint n)).
  now rewrite DecimalN.Unsigned.of_to.
Qed.

Lemma all_digits_N (n : N) : all_digits (string_of_N n) = true.
Proof. apply all_digits_uint. Qed.

Lemma nzhead_D0 (d u : Decimal.uint) : Decimal.nzhead d <> Decimal.D0 u.
Proof. induction d; cbn [Decimal.nzhead]; try discriminate. exact IHd. Qed.

Lemma int_ok_N (n : N) : int_ok (string_of_N n) = true.
Proof.
  unfold string_of_N.
  assert (Hn : Decimal.unorm (N.to_uint n) = N.to_uint n).
  { rewrite <- (DecimalN.Unsigned.of_to n) at 2. now rewrite DecimalN.Unsigned.to_of. }
  destruct (N.to_uint n) as [|d|d|d|d|d|d|d|d|d|d] eqn:E;
    try (cbn [NilEmpty.string_of_uint int_ok]; unfold digits_ok;
         cbn [String.eqb negb andb all_digits Ascii.eqb Bool.eqb];
         change (is_digit _) with true; cbn [andb]; apply all_digits_uint).
  - discriminate Hn.
  - cbn [NilEmpty.string_of_uint int_ok Ascii.eqb Bool.eqb].
    unfold Decimal.unorm in Hn. cbn [Decimal.nzhead] in Hn.
    destruct (Decimal.nzhead d) eqn:Ez; try discriminate Hn.
    + injection Hn as <-. reflexivity.
    + exfalso. exact (nzhead_D0 _ _ Ez).
Qed.

Lemma digits_ok_N (n : N) : digits_ok (string_of_N n) = true.
Proof.
  pose proof (int_ok_N n) as H. unfold int_ok in H. unfold digits_ok.
  destruct (string_of_N n) as [|c r] eqn:E; [discriminate|].
  cbn [String.eqb negb andb]. rewrite <- E. apply all_digits_N.
Qed.


(** *** Number tokens *)


Lemma number_end_digit (rest : string) :
  number_end rest = true -> starts_with is_digit rest = false.
Proof.
  destruct rest as [|c r]; [reflexivity|]. cbn [number_end starts_with].
  destruct (is_digit c); [discriminate | reflexivity].
Qed.

Lemma digits_ok_cons (s : string) :
  digits_ok s = true -> exists c r, s = String c r /\ is_digit c = true /\ all_digits s = true.
Proof.
  unfold digits_ok. destruct s as [|c r]; [discriminate|].
  cbn [String.eqb negb andb]. intros H. exists c, r. repeat split; [|exact H].
  cbn [all_digits] in H. now apply andb_true_iff in H as [H _].
Qed.

Lemma lex_frac_some (f rest : string) :
  digits_ok f = true -> starts_with is_digit rest = false ->
  lex_frac ("." ++ f ++ rest) = (Some f, rest).
Proof.
  intros Hf Hr. destruct (digits_ok_cons f Hf) as (c & r & -> & Hc & Ha).
  change ("." ++ String c r ++ rest) with (String "." (String c r ++ rest)).
  cbn [lex_frac]. rewrite (span_digits_app _ _ Ha Hr). reflexivity.
Qed.

Lemma is_digit_dot (c : ascii) : is_digit c = true -> Ascii.eqb c "." = false.
Proof.
  intros H. apply Ascii.eqb_neq. intros ->. discriminate H.
Qed.

Lemma lex_frac_none (rest : string) :
  (forall r, rest <> String "." r) -> lex_frac rest = (None, rest).
Proof.
  intros H. destruct rest as [|c r]; [reflexivity|].
  destruct (Ascii.eqb_spec c ".") as [->|Hn]; [now elim (H r)|].
  unfold lex_frac.
  destruct c as [[] [] [] [] [] [] [] []]; try reflexivity. now elim Hn.
Qed.

Lemma lex_exp_some (neg : bool) (ds rest : string) :
  digits_ok ds = true -> starts_with is_digit rest = false ->
  lex_exp ("e" ++ (if neg then "-" else "+") ++ ds ++ rest) = (Some (neg, ds), rest).
Proof.
  intros Hf Hr. destruct (digits_ok_cons ds Hf) as (c & r & -> & Hc & Ha).
  destruct neg; cbn [append lex_exp Ascii.eqb Bool.eqb orb];
    change (String c (r ++ rest)) with (String c r ++ rest);
    rewrite (span_digits_app _ _ Ha Hr); reflexivity.
Qed.

Lemma lex_exp_none (rest : string) :
  number_end rest = true -> lex_exp rest = (None, rest).
Proof.
  destruct rest as [|c r]; [reflexivity|]. cbn [number_end lex_exp].
  intros H. apply andb_true_iff in H as [H HE]. apply andb_true_iff in H as [_ He].
  apply negb_true_iff in HE, He. now rewrite He, HE.
Qed.

Lemma lex_int_ok (i rest : string) :
  int_ok i = true -> starts_with is_digit rest = false ->
  lex_int (i ++ rest) = Some (i, rest).
Proof.
  intros Hi Hr. destruct i as [|c r]; [discriminate|].
  cbn [int_ok] in Hi. cbn [append lex_int].
  destruct (Ascii.eqb_spec c "0") as [->|Hn].
  - apply String.eqb_eq in Hi. subst r. reflexivity.
  - destruct (digits_ok_cons _ Hi) as (c' & r' & E & Hc & Ha).
    injection E as <- <-. rewrite Hc.
    change (String c (r ++ rest)) with (String c r ++ rest).
    now rewrite (span_digits_app _ _ Ha Hr).
Qed.



Lemma lex_tail (t : numtok) (rest : string) :
  tok_ok t = true -> number_end rest = true ->
  starts_with is_digit (frac_text t ++ exp_text t ++ rest) = false
  /\ (let '(f, s3) := lex_frac (frac_text t ++ exp_text t ++ rest) in
      let '(e, s4) := lex_exp s3 in (f, e, s4)) = (tok_frac t, tok_exp t, rest).
Proof.
  intros Hok Hr. unfold tok_ok in Hok.
  apply andb_true_iff in Hok as [Hok He]. apply andb_true_iff in Hok as [Hi Hf].
  pose proof (number_end_digit _ Hr) as Hd.
  assert (Hexp : starts_with is_digit (exp_text t ++ rest) = false
                 /\ lex_exp (exp_text t ++ rest) = (tok_exp t, rest)
                 /\ forall r, exp_text t ++ rest <> String "." r).
  { unfold exp_text. destruct (tok_exp t) as [[neg ds]|].
    - repeat split.
      + rewrite !append_assoc. now rewrite lex_exp_some.
      + intros r. discriminate.
    - cbn [append]. repeat split; [exact Hd | now apply lex_exp_none |].
      intros r ->. discriminate Hr. }
  destruct Hexp as (Hd2 & Hl & Hnd).
  unfold frac_text. destruct (tok_frac t) as [f|].
  - split; [reflexivity|]. rewrite append_assoc, (lex_frac_some _ _ Hf Hd2), Hl.
    reflexivity.
  - cbn [append]. split; [exact Hd2|]. rewrite (lex_frac_none _ Hnd), Hl. reflexivity.
Qed.

Lemma print_tok_eq (t : numtok) (rest : string) :
  print_tok t ++ rest
  = (if tok_neg t then "-" else "") ++ tok_int t ++ frac_text t ++ exp_text t ++ rest.
Proof. unfold print_tok, frac_text, exp_text. now rewrite !append_assoc. Qed.

Lemma int_ok_head (i : string) :
  int_ok i = true -> exists c r, i = String c r /\ is_digit c = true.
Proof.
  destruct i as [|c r]; [discriminate|]. cbn [int_ok]. intros H. exists c, r.
  split; [reflexivity|]. destruct (Ascii.eqb_spec c "0") as [->|_]; [reflexivity|].
  destruct (digits_ok_cons _ H) as (c' & r' & E & Hc & _). now injection E as <- <-.
Qed.

Lemma lex_number_print (t : numtok) (rest : string) :
  tok_ok t = true -> number_end rest = true ->
  lex_number (print_tok t ++ rest) = Some (t, rest).
Proof.
  intros Hok Hr. destruct (lex_tail t rest Hok Hr) as [Hd Hl].
  pose proof Hok as Hok'. unfold tok_ok in Hok'.
  apply andb_true_iff in Hok' as [Hok' _]. apply andb_true_iff in Hok' as [Hi _].
  rewrite print_tok_eq. unfold lex_number.
  assert (Hs : (let '(neg, s1) :=
                  match (if tok_neg t then "-" else "") ++ tok_int t ++ frac_text t
                        ++ exp_text t ++ rest with
                  | String "-" r => (true, r)
                  | _ => (false, (if tok_neg t then "-" else "") ++ tok_int t
                                 ++ frac_text t ++ exp_text t ++ rest)
                  end in (neg, s1))
               = (tok_neg t, tok_int t ++ frac_text t ++ exp_text t ++ rest)).
  { destruct (tok_neg t); [reflexivity|]. cbn [append].
    destruct (int_ok_head _ Hi) as (c & r & -> & Hc). cbn [append].
    destruct c as [[] [] [] [] [] [] [] []]; try reflexivity; discriminate Hc. }
  destruct (match (if tok_neg t then "-" else "") ++ _ with String "-" r => _ | _ => _ end)
    as [neg s1].
  injection Hs as -> ->.
  rewrite (lex_int_ok _ _ Hi Hd).
  destruct (lex_frac _) as [f s3]. destruct (lex_exp s3) as [e s4].
  injection Hl as -> -> ->. now destruct t.
Qed.

End JsonFacts.

Import JsonFacts.

(** ** Floats: the text of a float reads as the float *)

Module FloatFacts.

Lemma digits2_size (p : positive) : digits2_pos p = Pos.size p.
Proof. induction p; cbn [digits2_pos Pos.size]; now rewrite ?IHp. Qed.

Lemma digits2_bounds (p : positive) :
  2 ^ (Zpos (digits2_pos p) - 1) <= Zpos p < 2 ^ Zpos (digits2_pos p).
Proof.
  rewrite digits2_size. pose proof (Pos.size_gt p) as Hg. pose proof (Pos.size_le p) as Hl.
  apply Pos2Z.pos_lt_pos in Hg. apply Pos2Z.pos_le_pos in Hl.
  rewrite Pos2Z.inj_pow in Hg, Hl. split; [|exact Hg].
  assert (E : 2 ^ Zpos (Pos.size p) = 2 * 2 ^ (Zpos (Pos.size p) - 1)).
  { rewrite <- Z.pow_succ_r by lia. f_equal. lia. }
  rewrite E in Hl. change (Zpos p~0) with (2 * Zpos p) in Hl. lia.
Qed.

Lemma digits2_unique (p : positive) (d : Z) :
  2 ^ (d - 1) <= Zpos p < 2 ^ d -> Zpos (digits2_pos p) = d.
Proof.
  intros [Hl Hu]. pose proof (digits2_bounds p) as [Bl Bu].
  assert (0 < d).
  { destruct (Z.ltb_spec 0 d); [assumption|]. exfalso.
    destruct d; [cbn in Hu; lia | lia | rewrite Z.pow_neg_r in Hu by lia; lia]. }
  assert (Zpos (digits2_pos p) - 1 < d).
  { apply (Z.pow_lt_mono_r_iff 2); lia. }
  assert (d - 1 < Zpos (digits2_pos p)).
  { apply (Z.pow_lt_mono_r_iff 2); lia. }
  lia.
Qed.

Lemma digits2_mul_pow2 (q m : positive) (n : Z) :
  0 <= n -> Zpos q = Zpos m * 2 ^ n ->
  Zpos (digits2_pos q) = Zpos (digits2_pos m) + n.
Proof.
  intros Hn E. apply digits2_unique. rewrite E.
  pose proof (digits2_bounds m) as [Bl Bu].
  replace (Zpos (digits2_pos m) + n - 1) with (Zpos (digits2_pos m) - 1 + n) by lia.
  rewrite !Z.pow_add_r by lia.
  assert (0 < 2 ^ n) by (apply Z.pow_pos_nonneg; lia). nia.
Qed.

Lemma digits2_le (p : positive) (n : Z) :
  0 <= n -> Zpos p < 2 ^ n -> Zpos (digits2_pos p) <= n.
Proof.
  intros Hn H. pose proof (digits2_bounds p) as [Bl _].
  assert (Zpos (digits2_pos p) - 1 < n); [|lia].
  apply (Z.pow_lt_mono_r_iff 2); lia.
Qed.

Lemma pow2_double (p : positive) : 2 ^ Zpos p~0 = 2 ^ Zpos p * 2 ^ Zpos p.
Proof.
  replace (Zpos p~0) with (Zpos p + Zpos p) by lia. now rewrite Z.pow_add_r by lia.
Qed.

Lemma pow2_double_succ (p : positive) : 2 ^ Zpos p~1 = 2 * (2 ^ Zpos p * 2 ^ Zpos p).
Proof.
  replace (Zpos p~1) with (Z.succ (Zpos p~0)) by lia.
  now rewrite Z.pow_succ_r, pow2_double by lia.
Qed.

Lemma shr_exact (p m : positive) :
  iter_pos shr_1 p (Build_shr_record (Zpos (m * 2 ^ p)) false false)
  = Build_shr_record (Zpos m) false false.
Proof.
  revert m. induction p as [p IH|p IH|]; intros m; cbn [iter_pos].
  - replace (m * 2 ^ p~1)%positive with (((m * 2 ^ p) * 2 ^ p)~0)%positive.
    + cbn [shr_1 orb]. now rewrite !IH.
    + apply Pos2Z.inj. rewrite Pos2Z.inj_xO, !Pos2Z.inj_mul, !Pos2Z.inj_pow.
      rewrite pow2_double_succ. ring.
  - replace (m * 2 ^ p~0)%positive with ((m * 2 ^ p) * 2 ^ p)%positive.
    + now rewrite !IH.
    + apply Pos2Z.inj. rewrite !Pos2Z.inj_mul, !Pos2Z.inj_pow.
      rewrite pow2_double. ring.
  - replace (m * 2 ^ 1)%positive with (m~0)%positive by (cbn; lia).
    reflexivity.
Qed.

Lemma bounded_facts (m : positive) (e : Z) :
  bounded prec emax m e = true ->
  fexp prec emax (Zpos (digits2_pos m) + e) = e /\ e <= emax - prec
  /\ Zpos (digits2_pos m) <= prec /\ emin prec emax <= e.
Proof.
  unfold bounded, canonical_mantissa. intros H. apply andb_true_iff in H as [Hc He].
  apply Z.eqb_eq in Hc. apply Z.leb_le in He. repeat split; try assumption.
  - unfold fexp in Hc. lia.
  - unfold fexp in Hc. lia.
Qed.

(** A mantissa with [n] more binary digits than it should have, all zero,
    is rounded to the number it stands for. *)
Lemma round_exact (s : bool) (m q : positive) (e n : Z) :
  bounded prec emax m e = true -> 0 <= n -> Zpos q = Zpos m * 2 ^ n ->
  binary_round_aux prec emax s (Zpos q) (e - n) loc_Exact = S754_finite s m e.
Proof.
  intros Hb Hn Eq. destruct (bounded_facts m e Hb) as (Hc & He & _ & _).
  assert (Hshr : shr_fexp prec emax (Zpos q) (e - n) loc_Exact
                 = (Build_shr_record (Zpos m) false false, e)).
  { unfold shr_fexp. cbn [Zdigits2 shr_record_of_loc].
    rewrite (digits2_mul_pow2 q m n Hn Eq).
    replace (Zpos (digits2_pos m) + n + (e - n)) with (Zpos (digits2_pos m) + e) by lia.
    rewrite Hc. replace (e - (e - n)) with n by lia.
    destruct n as [|p|p]; [| |lia].
    - cbn [shr]. rewrite Z.pow_0_r, Z.mul_1_r in Eq. injection Eq as ->.
      f_equal. lia.
    - cbn [shr]. replace q with (m * 2 ^ p)%positive.
      + rewrite shr_exact. f_equal. lia.
      + apply Pos2Z.inj. now rewrite Pos2Z.inj_mul, Pos2Z.inj_pow. }
  unfold binary_round_aux. rewrite Hshr. cbn [shr_m loc_of_shr_record round_nearest_even].
  assert (Hshr2 : shr_fexp prec emax (Zpos m) e loc_Exact
                  = (Build_shr_record (Zpos m) false false, e)).
  { unfold shr_fexp. cbn [Zdigits2 shr_record_of_loc]. rewrite Hc, Z.sub_diag.
    reflexivity. }
  rewrite Hshr2. cbn [shr_m]. apply Z.leb_le in He. now rewrite He.
Qed.


Lemma float_same_refl (x : float) : float_same x x = true.
Proof.
  destruct x as [s|s| |s m e]; cbn [float_same]; try reflexivity;
    try (destruct s; reflexivity).
  rewrite Pos.eqb_refl, Z.eqb_refl. destruct s; reflexivity.
Qed.

Lemma float_same_eq (x y : float) : float_same x y = true -> x = y.
Proof.
  destruct x as [s|s| |s m e], y as [s'|s'| |s' m' e']; cbn [float_same];
    try discriminate; try reflexivity.
  - intros H. apply Bool.eqb_prop in H. now subst.
  - intros H. apply Bool.eqb_prop in H. now subst.
  - intros H. apply andb_true_iff in H as [H He]. apply andb_true_iff in H as [Hs Hm].
    apply Bool.eqb_prop in Hs. apply Pos.eqb_eq in Hm. apply Z.eqb_eq in He. now subst.
Qed.

Lemma digits2_mul_le (a b c : positive) :
  Zpos c = Zpos a * Zpos b ->
  Zpos (digits2_pos c) <= Zpos (digits2_pos a) + Zpos (digits2_pos b).
Proof.
  intros E. apply digits2_le; [lia|]. rewrite E, Z.pow_add_r by lia.
  pose proof (digits2_bounds a) as [_ Ha]. pose proof (digits2_bounds b) as [_ Hb].
  nia.
Qed.

Lemma div_exact (m q : positive) (e : Z) :
  bounded prec emax m e = true -> e < 0 -> Zpos q = Zpos m * 5 ^ (- e) ->
  exists n q', 0 <= n /\ Zpos q' = Zpos m * 2 ^ n
    /\ SFdiv_core_binary prec emax (Zpos q) 0 (10 ^ (- e)) 0 = (Zpos q', e - n, loc_Exact).
Proof.
  intros Hb He Eq. destruct (bounded_facts m e Hb) as (_ & _ & Hd & Hm).
  set (k := - e) in *. assert (Hk : 0 < k) by lia.
  assert (H5 : 0 < 5 ^ k) by (apply Z.pow_pos_nonneg; lia).
  assert (H2 : 0 < 2 ^ k) by (apply Z.pow_pos_nonneg; lia).
  assert (E10 : 10 ^ k = 5 ^ k * 2 ^ k).
  { change 10 with (5 * 2). now rewrite Z.pow_mul_l. }
  destruct (5 ^ k) as [|p5|] eqn:E5; try lia.
  destruct (10 ^ k) as [|p10|] eqn:Ep10; try lia.
  assert (D10 : Zpos (digits2_pos p10) = Zpos (digits2_pos p5) + k).
  { apply digits2_mul_pow2; [lia | exact E10]. }
  assert (Dq : Zpos (digits2_pos q) <= Zpos (digits2_pos m) + Zpos (digits2_pos p5)).
  { apply digits2_mul_le. exact Eq. }
  unfold SFdiv_core_binary. cbn [Zdigits2].
  set (e' := Z.min (fexp prec emax (Zpos (digits2_pos q) + 0 - (Zpos (digits2_pos p10) + 0)))
                   (0 - 0)).
  assert (He' : e' <= - k).
  { unfold e', fexp, emin, prec, emax in *. lia. }
  set (sh := 0 - 0 - e'). assert (Hsh : k <= sh) by (unfold sh; lia).
  assert (Hpos : 0 < 2 ^ (sh - k)) by (apply Z.pow_pos_nonneg; lia).
  destruct (2 ^ (sh - k)) as [|pw|] eqn:Epw; try lia.
  exists (sh - k), (m * pw)%positive. split; [lia|]. split; [now rewrite Epw|].
  destruct sh as [|psh|psh] eqn:Esh; try lia.
  assert (Em : Z.shiftl (Zpos q) (Zpos psh) = Zpos p10 * Zpos (m * pw)).
  { rewrite Z.shiftl_mul_pow2 by lia. rewrite Eq, E10, Pos2Z.inj_mul, <- Epw.
    replace (Zpos psh) with (k + (Zpos psh - k)) at 1 by lia.
    rewrite Z.pow_add_r by lia. ring. }
  rewrite Em.
  pose proof (Z_div_mod (Zpos p10 * Zpos (m * pw)) (Zpos p10) eq_refl) as Hdm.
  destruct (Z.div_eucl (Zpos p10 * Zpos (m * pw)) (Zpos p10)) as [qq rr].
  destruct Hdm as [Hdm Hr].
  assert (Hq : qq = Zpos (m * pw)).
  { destruct (Z.lt_trichotomy qq (Zpos (m * pw))) as [Hlt|[Heq|Hgt]];
      [exfalso | exact Heq | exfalso].
    - assert (Zpos p10 * (qq + 1) <= Zpos p10 * Zpos (m * pw))
        by (apply Z.mul_le_mono_nonneg_l; lia). lia.
    - assert (Zpos p10 * (Zpos (m * pw) + 1) <= Zpos p10 * qq)
        by (apply Z.mul_le_mono_nonneg_l; lia). lia. }
  subst qq. assert (rr = 0) by lia. subst rr.
  f_equal; [f_equal; lia|].
  unfold new_location, new_location_even, new_location_odd.
  destruct (Z.even (Zpos p10)); reflexivity.
Qed.

Lemma exact_tok_reads (s : bool) (m : positive) (e : Z) :
  bounded prec emax m e = true ->
  reads_as (S754_finite s m e) (exact_tok s m e) = true.
Proof.
  intros Hb. destruct (bounded_facts m e Hb) as (Hc & _ & _ & _).
  unfold reads_as, exact_tok. destruct (Z.leb_spec 0 e) as [He|He].
  - assert (Hp : 0 < 2 ^ e) by (apply Z.pow_pos_nonneg; lia).
    destruct (2 ^ e) as [|pw|] eqn:Epw; try lia.
    change (Zpos m * Zpos pw) with (Zpos (m * pw)).
    unfold tok_ok, is_float_tok, tok_float, tok_decimal.
    cbn [tok_int tok_frac tok_exp tok_neg].
    rewrite JsonFacts.int_ok_N. cbn [andb String.length].
    rewrite JsonFacts.append_nil_r, JsonFacts.digits_value_N.
    change (digits_ok "0") with true. change (digits_value "0") with 0. cbn [andb].
    change (Z.of_N (Z.to_N (Zpos (m * pw)))) with (Zpos (m * pw)).
    cbn [float_of_decimal Z.sub Z.of_nat Z.leb Z.compare Z.opp Z.add].
    change (Z.to_pos (10 ^ 0)) with 1%positive. rewrite Pos.mul_1_r.
    unfold binary_round, shl_align.
    assert (Ed : Zpos (digits2_pos (m * pw)) = Zpos (digits2_pos m) + e).
    { apply digits2_mul_pow2; [lia | now rewrite Pos2Z.inj_mul, Epw]. }
    rewrite Z.add_0_r, Z.sub_0_r, Ed, Hc.
    assert (Hr : binary_round_aux prec emax s (Zpos (m * pw)) 0 loc_Exact
                 = S754_finite s m e).
    { replace 0 with (e - e) at 1 by lia. apply round_exact; [exact Hb | exact He |].
      now rewrite Pos2Z.inj_mul, Epw. }
    destruct e as [|pe|pe]; try lia; rewrite Hr; apply float_same_refl.
  - set (k := - e). assert (Hk : 0 < k) by (unfold k; lia).
    assert (Hp : 0 < 5 ^ k) by (apply Z.pow_pos_nonneg; lia).
    destruct (5 ^ k) as [|pw|] eqn:Epw; try lia.
    change (Zpos m * Zpos pw) with (Zpos (m * pw)).
    unfold tok_ok, is_float_tok, tok_float, tok_decimal.
    cbn [tok_int tok_frac tok_exp tok_neg].
    rewrite JsonFacts.int_ok_N, JsonFacts.digits_ok_N. cbn [andb String.length].
    rewrite JsonFacts.append_nil_r, !JsonFacts.digits_value_N.
    change (Z.of_N (Z.to_N (Zpos (m * pw)))) with (Zpos (m * pw)).
    rewrite Z2N.id by lia. cbn [Z.of_nat]. rewrite Z.sub_0_r.
    cbn [float_of_decimal].
    destruct (Z.leb_spec 0 (- k)) as [Hn|_]; [lia|].
    destruct (div_exact m (m * pw) e Hb He) as (n & q' & Hn & Eq' & Hdiv).
    { rewrite Pos2Z.inj_mul. fold k. now rewrite Epw. }
    fold k in Hdiv. rewrite Z.opp_involutive, Hdiv.
    rewrite (round_exact s m q' e n Hb Hn Eq'). apply float_same_refl.
Qed.


Lemma first_reading_reads (x : float) (l : list numtok) (t : numtok) :
  first_reading x l = Some t -> reads_as x t = true.
Proof.
  induction l as [|a l IH]; cbn [first_reading]; [discriminate|].
  destruct (reads_as x a) eqn:E; [|exact IH]. now intros [= <-].
Qed.

Lemma shortest_reads (fuel : nat) (n k num den : Z) (neg : bool) (x : float)
      (t : numtok) :
  shortest fuel n k num den neg x = Some t -> reads_as x t = true.
Proof.
  revert n. induction fuel as [|fuel IH]; intros n; cbn [shortest]; [discriminate|].
  destruct (first_reading x _) as [t'|] eqn:E; [|apply IH].
  intros [= <-]. exact (first_reading_reads _ _ _ E).
Qed.

Lemma float_tok_reads (s : bool) (m : positive) (e : Z) :
  bounded prec emax m e = true ->
  reads_as (S754_finite s m e) (float_tok s m e) = true.
Proof.
  intros Hb. unfold float_tok. destruct (ratio m e) as [num den].
  destruct (shortest _ _ _ _ _ _ _) as [t|] eqn:E.
  - exact (shortest_reads _ _ _ _ _ _ _ _ E).
  - now apply exact_tok_reads.
Qed.

(** The text of a float that is a number is a token that reads as it. *)
Lemma float_text_tok (x : float) :
  valid_binary prec emax x = true ->
  match x with
  | S754_nan | S754_infinity _ => True
  | _ => exists t, float_text x = print_tok t /\ reads_as x t = true
  end.
Proof.
  destruct x as [s|s| |s m e]; cbn [valid_binary]; intros Hv; try exact I.
  - eexists. split; [reflexivity|]. destruct s; reflexivity.
  - eexists. split; [reflexivity|]. now apply float_tok_reads.
Qed.

Lemma reads_as_facts (x : float) (t : numtok) :
  reads_as x t = true ->
  tok_ok t = true /\ number_of_tok t = Some (OFloat x).
Proof.
  unfold reads_as, number_of_tok. intros H.
  apply andb_true_iff in H as [H Hf]. apply andb_true_iff in H as [Hok Hfl].
  split; [exact Hok|]. rewrite Hfl. destruct (tok_float t) as [y|]; [|discriminate].
  now rewrite (float_same_eq _ _ Hf).
Qed.

Lemma print_tok_head (t : numtok) (rest : string) :
  tok_ok t = true ->
  exists c r, print_tok t ++ rest = String c r
              /\ (c = "-"%char \/ is_digit c = true).
Proof.
  intros Hok. rewrite JsonFacts.print_tok_eq. unfold tok_ok in Hok.
  apply andb_true_iff in Hok as [Hok _]. apply andb_true_iff in Hok as [Hi _].
  destruct (tok_neg t).
  - eexists _, _. split; [reflexivity | now left].
  - destruct (JsonFacts.int_ok_head _ Hi) as (c & r & -> & Hc).
    eexists _, _. split; [reflexivity | now right].
Qed.

Lemma head_differs (c a : ascii) :
  c = "-"%char \/ is_digit c = true ->
  is_digit a = false -> Ascii.eqb a "-" = false ->
  Ascii.eqb a c = false /\ Ascii.eqb c a = false.
Proof.
  intros H Ha Hm. assert (a <> c).
  { intros ->. destruct H as [->|H]; [discriminate Hm | congruence]. }
  split; apply Ascii.eqb_neq; congruence.
Qed.

Lemma literal_number (t : numtok) (v : pyobj) (rest : string) :
  tok_ok t = true -> number_end rest = true -> number_of_tok t = Some v ->
  literal (print_tok t ++ rest) = Some (v, rest).
Proof.
  intros Hok Hr Hv. pose proof (JsonFacts.lex_number_print t rest Hok Hr) as Hl.
  destruct (print_tok_head t rest Hok) as (c & r & E & Hc).
  unfold literal. rewrite Hl, Hv, E.
  cbn [strip_prefix].
  rewrite (proj1 (head_differs c "n" Hc eq_refl eq_refl)).
  rewrite (proj1 (head_differs c "t" Hc eq_refl eq_refl)).
  rewrite (proj1 (head_differs c "f" Hc eq_refl eq_refl)).
  reflexivity.
Qed.

Lemma parse_value_literal (f : nat) (c : ascii) (r : string) :
  Ascii.eqb c dquote = false -> Ascii.eqb c "{" = false -> Ascii.eqb c "[" = false ->
  parse_value (S f) (String c r) = literal (String c r).
Proof. intros H1 H2 H3. cbn [parse_value]. now rewrite H1, H2, H3. Qed.

Lemma parse_value_number (f : nat) (t : numtok) (v : pyobj) (rest : string) :
  tok_ok t = true -> number_end rest = true -> number_of_tok t = Some v ->
  parse_value (S f) (print_tok t ++ rest) = Some (v, rest).
Proof.
  intros Hok Hr Hv. rewrite <- (literal_number t v rest Hok Hr Hv).
  destruct (print_tok_head t rest Hok) as (c & r & -> & Hc).
  apply parse_value_literal.
  - exact (proj2 (head_differs c dquote Hc eq_refl eq_refl)).
  - exact (proj2 (head_differs c "{" Hc eq_refl eq_refl)).
  - exact (proj2 (head_differs c "[" Hc eq_refl eq_refl)).
Qed.

(** A float is read back as written, [nan] and the infinities too. *)
Lemma parse_value_float (f : nat) (x : float) (rest : string) :
  valid_binary prec emax x = true -> number_end rest = true ->
  parse_value (S f) (float_text x ++ rest) = Some (OFloat x, rest).
Proof.
  intros Hv Hr. pose proof (float_text_tok x Hv) as Ht.
  destruct x as [s|s| |s m e].
  - destruct Ht as (t & -> & Hread). destruct (reads_as_facts _ _ Hread) as [Hok Hn].
    now apply parse_value_number.
  - destruct s; reflexivity.
  - reflexivity.
  - destruct Ht as (t & -> & Hread). destruct (reads_as_facts _ _ Hread) as [Hok Hn].
    now apply parse_value_number.
Qed.

End FloatFacts.

Import FloatFacts.

(** ** Strings: the text of a string reads as the string *)

Module StringFacts.

Lemma code_range (c : ascii) : 0 <= code c < 256.
Proof.
  unfold code. pose proof (N_ascii_bounded c). lia.
Qed.

Lemma byte_code (c : ascii) : byte (code c) = c.
Proof. unfold byte, code. rewrite N2Z.id. apply ascii_N_embedding. Qed.

Lemma code_byte (z : Z) : 0 <= z < 256 -> code (byte z) = z.
Proof.
  intros H. unfold byte, code. rewrite N_ascii_embedding by lia. lia.
Qed.

Lemma byte_eq (c : ascii) (z : Z) : code c = z -> byte z = c.
Proof. intros <-. apply byte_code. Qed.

Lemma hex_val_digit (k : Z) : 0 <= k < 16 -> hex_val (hex_digit k) = Some k.
Proof.
  intros H.
  assert (E : k = 0 \/ k = 1 \/ k = 2 \/ k = 3 \/ k = 4 \/ k = 5 \/ k = 6 \/ k = 7
              \/ k = 8 \/ k = 9 \/ k = 10 \/ k = 11 \/ k = 12 \/ k = 13 \/ k = 14
              \/ k = 15) by lia.
  repeat (destruct E as [->|E]; [reflexivity|]). subst. reflexivity.
Qed.

Lemma hex4_val_hex4 (v : Z) :
  0 <= v < 65536 ->
  hex4_val (hex_digit (v / 4096)) (hex_digit (v / 256 mod 16))
           (hex_digit (v / 16 mod 16)) (hex_digit (v mod 16)) = Some v.
Proof.
  intros H. unfold hex4_val.
  rewrite !hex_val_digit;
    try (apply Z.mod_pos_bound; lia);
    try (split; [apply Z.div_pos; lia | apply Z.div_lt_upper_bound; lia]).
  f_equal. clear H. Z.div_mod_to_equations. lia.
Qed.

Lemma scan_u (v : Z) (rest : string) :
  0 <= v < 65536 -> v < 55296 \/ 56320 <= v ->
  scanstring (u_escape v ++ rest) = prepend (utf8 v) (scanstring rest).
Proof.
  intros Hv Hs. unfold u_escape, hex4. cbn [append scanstring].
  change (Ascii.eqb "\" dquote) with false. cbn [Ascii.eqb Bool.eqb].
  cbv iota. rewrite (hex4_val_hex4 v Hv).
  destruct ((55296 <=? v) && (v <? 56320)) eqn:E; [|reflexivity].
  apply andb_true_iff in E as [E1 E2]. apply Z.leb_le in E1. apply Z.ltb_lt in E2. lia.
Qed.

Lemma scan_pair (hi lo : Z) (rest : string) :
  55296 <= hi < 56320 -> 56320 <= lo < 57344 ->
  scanstring (u_escape hi ++ u_escape lo ++ rest)
  = prepend (utf8 (65536 + (hi - 55296) * 1024 + (lo - 56320))) (scanstring rest).
Proof.
  intros Hh Hl. unfold u_escape, hex4. cbn [append scanstring].
  change (Ascii.eqb "\" dquote) with false. cbn [Ascii.eqb Bool.eqb].
  cbv iota. rewrite (hex4_val_hex4 hi) by lia.
  replace ((55296 <=? hi) && (hi <? 56320)) with true by (symmetry; apply andb_true_iff; split; [apply Z.leb_le | apply Z.ltb_lt]; lia).
  rewrite (hex4_val_hex4 lo) by lia.
  replace ((56320 <=? lo) && (lo <? 57344)) with true by (symmetry; apply andb_true_iff; split; [apply Z.leb_le | apply Z.ltb_lt]; lia).
  reflexivity.
Qed.


Lemma scan_ascii (c : ascii) (rest : string) :
  (code c <? 128) = true ->
  scanstring (escape_ascii c ++ rest) = prepend (String c "") (scanstring rest).
Proof.
  destruct c as [b0 b1 b2 b3 b4 b5 b6 b7].
  destruct b7; [now destruct b0, b1, b2, b3, b4, b5, b6|].
  intros _.
  destruct b0, b1, b2, b3, b4, b5, b6; reflexivity.
Qed.

Lemma prepend_some (a t rest : string) (r : option (string * string)) :
  r = Some (t, rest) -> prepend a r = Some (a ++ t, rest).
Proof. now intros ->. Qed.

Lemma continuation_range (c : ascii) :
  is_continuation c = true -> 128 <= code c < 192.
Proof.
  unfold is_continuation. intros H. apply andb_true_iff in H as [H1 H2].
  apply Z.leb_le in H1. apply Z.ltb_lt in H2. lia.
Qed.

Lemma utf8_2 (c1 c2 : ascii) :
  194 <= code c1 < 224 -> 128 <= code c2 < 192 ->
  utf8 ((code c1 - 192) * 64 + (code c2 - 128)) = String c1 (String c2 "").
Proof.
  intros H1 H2. unfold utf8.
  destruct (Z.ltb_spec ((code c1 - 192) * 64 + (code c2 - 128)) 128); [lia|].
  destruct (Z.ltb_spec ((code c1 - 192) * 64 + (code c2 - 128)) 2048); [|lia].
  f_equal; [|f_equal]; apply byte_eq; symmetry; Z.div_mod_to_equations; lia.
Qed.

Lemma utf8_3 (c1 c2 c3 : ascii) :
  224 <= code c1 < 240 -> 128 <= code c2 < 192 -> 128 <= code c3 < 192 ->
  2048 <= (code c1 - 224) * 4096 + (code c2 - 128) * 64 + (code c3 - 128) ->
  utf8 ((code c1 - 224) * 4096 + (code c2 - 128) * 64 + (code c3 - 128))
  = String c1 (String c2 (String c3 "")).
Proof.
  intros H1 H2 H3 H. unfold utf8.
  set (cp := (code c1 - 224) * 4096 + (code c2 - 128) * 64 + (code c3 - 128)) in *.
  destruct (Z.ltb_spec cp 128); [lia|].
  destruct (Z.ltb_spec cp 2048); [lia|].
  destruct (Z.ltb_spec cp 65536); [|unfold cp in *; lia].
  unfold cp.
  f_equal; [|f_equal; [|f_equal]]; apply byte_eq; symmetry;
    Z.div_mod_to_equations; lia.
Qed.

Lemma utf8_4 (c1 c2 c3 c4 : ascii) :
  240 <= code c1 < 256 -> 128 <= code c2 < 192 -> 128 <= code c3 < 192 ->
  128 <= code c4 < 192 ->
  65536 <= (code c1 - 240) * 262144 + (code c2 - 128) * 4096
           + (code c3 - 128) * 64 + (code c4 - 128) ->
  utf8 ((code c1 - 240) * 262144 + (code c2 - 128) * 4096
        + (code c3 - 128) * 64 + (code c4 - 128))
  = String c1 (String c2 (String c3 (String c4 ""))).
Proof.
  intros H1 H2 H3 H4 H. unfold utf8.
  set (cp := (code c1 - 240) * 262144 + (code c2 - 128) * 4096
             + (code c3 - 128) * 64 + (code c4 - 128)) in *.
  destruct (Z.ltb_spec cp 128); [lia|].
  destruct (Z.ltb_spec cp 2048); [lia|].
  destruct (Z.ltb_spec cp 65536); [lia|].
  unfold cp.
  f_equal; [|f_equal; [|f_equal; [|f_equal]]]; apply byte_eq; symmetry;
    Z.div_mod_to_equations; lia.
Qed.


Lemma escape_point_low (cp : Z) (rest : string) :
  0 <= cp < 65536 -> cp < 55296 \/ 57344 <= cp ->
  scanstring (escape_point cp ++ rest) = prepend (utf8 cp) (scanstring rest).
Proof.
  intros H Hs. unfold escape_point. destruct (Z.ltb_spec cp 65536); [|lia].
  apply scan_u; lia.
Qed.

Lemma escape_point_high (cp : Z) (rest : string) :
  65536 <= cp < 1114112 ->
  scanstring (escape_point cp ++ rest) = prepend (utf8 cp) (scanstring rest).
Proof.
  intros H. unfold escape_point. destruct (Z.ltb_spec cp 65536); [lia|].
  rewrite append_assoc, scan_pair.
  - f_equal. f_equal. Z.div_mod_to_equations. lia.
  - Z.div_mod_to_equations. lia.
  - Z.div_mod_to_equations. lia.
Qed.

Lemma scan_encoded_le (n : nat) (s rest : string) :
  (String.length s <= n)%nat -> utf8_valid s = true ->
  scanstring (encode_chars s ++ String dquote rest) = Some (s, rest).
Proof.
  revert s. induction n as [|n IH]; intros s Hn Hv.
  - destruct s; [|cbn [String.length] in Hn; lia]. cbn [encode_chars append scanstring].
    now rewrite Ascii.eqb_refl.
  - destruct s as [|c1 r1].
    { cbn [encode_chars append scanstring]. now rewrite Ascii.eqb_refl. }
    cbn [String.length] in Hn. cbn [utf8_valid encode_chars] in *. cbv zeta in *.
    pose proof (code_range c1) as R1.
    destruct (Z.ltb_spec (code c1) 128) as [L1|L1].
    { rewrite append_assoc, scan_ascii by (apply Z.ltb_lt; lia).
      apply (prepend_some (String c1 "")). apply IH; [lia | exact Hv]. }
    destruct (Z.ltb_spec (code c1) 194) as [L2|L2]; [discriminate|].
    destruct (Z.ltb_spec (code c1) 192) as [L3|_]; [lia|].
    destruct r1 as [|c2 r2]; [discriminate|]. cbn [String.length] in Hn.
    destruct (Z.ltb_spec (code c1) 224) as [L4|L4].
    { apply andb_true_iff in Hv as [C2 Hv]. apply continuation_range in C2.
      rewrite append_assoc, escape_point_low by lia.
      rewrite utf8_2 by lia.
      apply (prepend_some (String c1 (String c2 ""))). apply IH; [lia | exact Hv]. }
    destruct r2 as [|c3 r3]; [discriminate|]. cbn [String.length] in Hn.
    destruct (Z.ltb_spec (code c1) 240) as [L5|L5].
    { apply andb_true_iff in Hv as [Hv V]. apply andb_true_iff in Hv as [Hv S].
      apply andb_true_iff in Hv as [Hv B]. apply andb_true_iff in Hv as [C2 C3].
      apply continuation_range in C2, C3. apply Z.leb_le in B.
      apply negb_true_iff in S.
      assert (HS : (code c1 - 224) * 4096 + (code c2 - 128) * 64 + (code c3 - 128) < 55296
                   \/ 57344 <= (code c1 - 224) * 4096 + (code c2 - 128) * 64 + (code c3 - 128)).
      { apply andb_false_iff in S as [S|S]; [apply Z.leb_gt in S | apply Z.ltb_ge in S]; lia. }
      rewrite append_assoc, escape_point_low by lia.
      rewrite utf8_3 by lia.
      apply (prepend_some (String c1 (String c2 (String c3 "")))).
      apply IH; [lia | exact V]. }
    destruct r3 as [|c4 r4]; [discriminate|]. cbn [String.length] in Hn.
    apply andb_true_iff in Hv as [Hv V]. apply andb_true_iff in Hv as [Hv U].
    apply andb_true_iff in Hv as [Hv B]. apply andb_true_iff in Hv as [Hv C4].
    apply andb_true_iff in Hv as [C2 C3].
    apply continuation_range in C2, C3, C4. apply Z.leb_le in B. apply Z.ltb_lt in U.
    rewrite append_assoc, escape_point_high by lia.
    rewrite utf8_4 by lia.
    apply (prepend_some (String c1 (String c2 (String c3 (String c4 ""))))).
    apply IH; [lia | exact V].
Qed.

(** A string is read back as written. *)
Lemma scan_encoded (s rest : string) :
  utf8_valid s = true ->
  scanstring (encode_chars s ++ String dquote rest) = Some (s, rest).
Proof. apply (scan_encoded_le (String.length s)). lia. Qed.

Lemma parse_value_str (f : nat) (s rest : string) :
  utf8_valid s = true ->
  parse_value (S f) (encode_str s ++ rest) = Some (OStr s, rest).
Proof.
  intros Hv. unfold encode_str. cbn [append parse_value].
  rewrite Ascii.eqb_refl, append_assoc. cbn [append].
  now rewrite (scan_encoded s rest Hv).
Qed.

End StringFacts.

Import StringFacts.

(** ** The reader on the text of the records *)

Module ReaderFacts.

Lemma skip_ws_spaces (n : nat) (s : string) : skip_ws (spaces n ++ s) = skip_ws s.
Proof. induction n as [|n IH]; cbn [spaces append skip_ws]; [reflexivity | exact IH]. Qed.

Lemma skip_ws_break (level : nat) (s : string) : skip_ws (break level ++ s) = skip_ws s.
Proof. unfold break. cbn [append skip_ws]. apply skip_ws_spaces. Qed.

Lemma number_end_break (level : nat) (s : string) : number_end (break level ++ s) = true.
Proof. reflexivity. Qed.


Lemma reads_value_str (s : string) :
  utf8_valid s = true -> reads_value (encode_str s) (OStr s).
Proof.
  intros Hv f tail _. split; [now apply parse_value_str | reflexivity].
Qed.

Lemma reads_value_float (x : float) :
  valid_binary prec emax x = true -> reads_value (float_text x) (OFloat x).
Proof.
  intros Hv f tail Ht. split; [now apply parse_value_float|].
  pose proof (float_text_tok x Hv) as H. destruct x as [s|s| |s m e].
  - destruct s; reflexivity.
  - destruct s; reflexivity.
  - reflexivity.
  - destruct H as (t & -> & Hr). destruct (reads_as_facts _ _ Hr) as [Hok _].
    destruct (print_tok_head t tail Hok) as (c & r & -> & Hc).
    cbn [skip_ws]. destruct Hc as [->|Hc]; [reflexivity|].
    unfold is_ws.
    destruct (head_differs c " " (or_intror Hc) eq_refl eq_refl) as [_ ->].
    unfold is_digit in Hc. apply andb_true_iff in Hc as [H1 H2].
    apply Z.leb_le in H1, H2.
    destruct (Z.eqb_spec (code c) 9); [lia|].
    destruct (Z.eqb_spec (code c) 10); [lia|].
    destruct (Z.eqb_spec (code c) 13); [lia|]. reflexivity.
Qed.

Lemma parse_members_eq (f : nat) (s : string) (acc : list (string * pyobj)) :
  parse_members (S f) s acc
  = match s with
    | String c r =>
        if Ascii.eqb c dquote then
          match scanstring r with
          | Some (k, r1) =>
              match skip_ws r1 with
              | String ":" r2 =>
                  match parse_value f (skip_ws r2) with
                  | Some (v, r3) =>
                      match skip_ws r3 with
                      | String "}" rest => Some (ODict (dict_set k v acc), rest)
                      | String "," r4 => parse_members f (skip_ws r4) (dict_set k v acc)
                      | _ => None
                      end
                  | None => None
                  end
              | _ => None
              end
          | None => None
          end
        else None
    | "" => None
    end.
Proof. reflexivity. Qed.

Lemma parse_elements_eq (f : nat) (s : string) (acc : list pyobj) :
  parse_elements (S f) s acc
  = match parse_value f s with
    | Some (v, r1) =>
        match skip_ws r1 with
        | String "]" rest => Some (OList (acc ++ [v]), rest)
        | String "," r2 => parse_elements f (skip_ws r2) (acc ++ [v])
        | _ => None
        end
    | None => None
    end.
Proof. reflexivity. Qed.

Lemma parse_value_eq (f : nat) (c : ascii) (r : string) :
  parse_value (S f) (String c r)
  = if Ascii.eqb c dquote then
      match scanstring r with
      | Some (t, rest) => Some (OStr t, rest)
      | None => None
      end
    else if Ascii.eqb c "{" then
      match skip_ws r with
      | String "}" rest => Some (ODict [], rest)
      | r1 => parse_members f r1 []
      end
    else if Ascii.eqb c "[" then
      match skip_ws r with
      | String "]" rest => Some (OList [], rest)
      | r1 => parse_elements f r1 []
      end
    else literal (String c r).
Proof. reflexivity. Qed.

Lemma members_head (f : nat) (k vt tail : string) (v : pyobj)
      (acc : list (string * pyobj)) :
  utf8_valid k = true -> reads_value vt v -> number_end tail = true ->
  parse_members (S (S f)) (encode_str k ++ ": " ++ vt ++ tail) acc
  = match skip_ws tail with
    | String "}" rest => Some (ODict (dict_set k v acc), rest)
    | String "," r4 => parse_members (S f) (skip_ws r4) (dict_set k v acc)
    | _ => None
    end.
Proof.
  intros Hk Hv Ht. destruct (Hv f tail Ht) as [Hp Hs].
  etransitivity; [apply parse_members_eq|].
  unfold encode_str. cbn [append]. rewrite Ascii.eqb_refl.
  rewrite append_assoc. cbn [append]. rewrite (scan_encoded k _ Hk).
  change (skip_ws (String ":" (String " " (vt ++ tail)))) with
    (String ":" (String " " (vt ++ tail))). cbv iota.
  change (skip_ws (String " " (vt ++ tail))) with (skip_ws (vt ++ tail)).
  rewrite Hs, Hp. reflexivity.
Qed.

Lemma skip_ws_str (k tail : string) :
  skip_ws (encode_str k ++ tail) = encode_str k ++ tail.
Proof. reflexivity. Qed.

Lemma members_more (f L : nat) (k vt more : string) (v : pyobj)
      (acc : list (string * pyobj)) :
  utf8_valid k = true -> reads_value vt v ->
  parse_members (S (S f)) (encode_str k ++ ": " ++ vt ++ "," ++ break L ++ more) acc
  = parse_members (S f) (skip_ws more) (dict_set k v acc).
Proof.
  intros Hk Hv.
  rewrite (members_head f k vt ("," ++ break L ++ more) v acc Hk Hv eq_refl).
  change (skip_ws ("," ++ break L ++ more)) with (String "," (break L ++ more)).
  cbv iota. now rewrite skip_ws_break.
Qed.

Lemma members_last (f L : nat) (k vt rest : string) (v : pyobj)
      (acc : list (string * pyobj)) :
  utf8_valid k = true -> reads_value vt v ->
  parse_members (S (S f)) (encode_str k ++ ": " ++ vt ++ break L ++ String "}" rest) acc
  = Some (ODict (dict_set k v acc), rest).
Proof.
  intros Hk Hv.
  rewrite (members_head f k vt (break L ++ String "}" rest) v acc Hk Hv eq_refl).
  rewrite skip_ws_break. reflexivity.
Qed.


Lemma open_brace (f L : nat) (k tail : string) :
  parse_value (S f) (String "{" (break L ++ encode_str k ++ tail))
  = parse_members f (encode_str k ++ tail) [].
Proof.
  rewrite parse_value_eq. change (Ascii.eqb "{" dquote) with false.
  change (Ascii.eqb "{" "{") with true. cbv iota.
  rewrite skip_ws_break. reflexivity.
Qed.

Lemma open_bracket (f L : nat) (tail : string) :
  parse_value (S f) (String "[" (break L ++ String "{" tail))
  = parse_elements f (String "{" tail) [].
Proof.
  rewrite parse_value_eq. change (Ascii.eqb "[" dquote) with false.
  change (Ascii.eqb "[" "{") with false. change (Ascii.eqb "[" "[") with true.
  cbv iota. rewrite skip_ws_break. reflexivity.
Qed.

Lemma row_ok_inv (r : row) :
  row_ok r = true ->
  exists d s u, r = mkrow (PStr d) (PStr s) (row_amount r) (PStr u)
    /\ utf8_valid d = true /\ utf8_valid s = true /\ utf8_valid u = true
    /\ valid_binary prec emax (row_amount r) = true.
Proof.
  destruct r as [d s a u]. unfold row_ok. cbn [row_date row_service row_unit row_amount].
  destruct d as [| | |d| |]; try discriminate.
  destruct s as [| | |s| |]; try discriminate.
  destruct u as [| | |u| |]; try discriminate.
  intros H. apply andb_true_iff in H as [H Hv]. apply andb_true_iff in H as [H Hu].
  apply andb_true_iff in H as [Hd Hs]. now exists d, s, u.
Qed.

Lemma row_text (d s u : string) (a : float) (rest : string) :
  encode 1 (obj_of_row (mkrow (PStr d) (PStr s) a (PStr u))) ++ rest
  = String "{" (break 2 ++ encode_str "date" ++ ": " ++ encode_str d ++ ","
      ++ break 2 ++ encode_str "service" ++ ": " ++ encode_str s ++ ","
      ++ break 2 ++ encode_str "amount" ++ ": " ++ float_text a ++ ","
      ++ break 2 ++ encode_str "unit" ++ ": " ++ encode_str u
      ++ break 1 ++ String "}" rest).
Proof.
  unfold obj_of_row.
  cbn [encode map join_with obj_of_val row_date row_service row_amount row_unit].
  rewrite !append_assoc. reflexivity.
Qed.

(** One record is read back as written. *)
Lemma parse_row (f : nat) (r : row) (rest : string) :
  row_ok r = true ->
  parse_value (6 + f) (encode 1 (obj_of_row r) ++ rest) = Some (obj_of_row r, rest).
Proof.
  intros Hok. destruct (row_ok_inv r Hok) as (d & s & u & E & Hd & Hs & Hu & Hv).
  rewrite E. cbn [row_amount]. set (a := row_amount r) in *. clearbody a.
  rewrite row_text. change (6 + f)%nat with (S (S (S (S (S (S f)))))).
  rewrite open_brace.
  rewrite (members_more _ 2 "date" (encode_str d) _ (OStr d) [] eq_refl
             (reads_value_str d Hd)).
  rewrite skip_ws_str.
  rewrite (members_more _ 2 "service" (encode_str s) _ (OStr s) _ eq_refl
             (reads_value_str s Hs)).
  rewrite skip_ws_str.
  rewrite (members_more _ 2 "amount" (float_text a) _ (OFloat a) _ eq_refl
             (reads_value_float a Hv)).
  rewrite skip_ws_str.
  rewrite (members_last _ 1 "unit" (encode_str u) _ (OStr u) _ eq_refl
             (reads_value_str u Hu)).
  reflexivity.
Qed.


Lemma row_text_head (r : row) :
  exists tail, encode 1 (obj_of_row r) = String "{" tail
               /\ (8 <= String.length (encode 1 (obj_of_row r)))%nat.
Proof.
  unfold obj_of_row. cbn [encode]. eexists. split; [reflexivity|].
  rewrite !length_append. change (String.length "{") with 1%nat.
  change (String.length (break 2)) with 5%nat.
  change (String.length (break 1)) with 3%nat. change (String.length "}") with 1%nat. lia.
Qed.

Lemma join_head (sep : string) (r : row) (rows : list row) (rest : string) :
  exists tail,
    join_with sep (map (encode 1) (map obj_of_row (r :: rows))) ++ rest
    = String "{" tail.
Proof.
  destruct (row_text_head r) as (tail & E & _). cbn [map join_with].
  destruct (map (encode 1) (map obj_of_row rows)); rewrite E; eexists; reflexivity.
Qed.

Lemma join_length (sep : string) (rows : list row) :
  (8 * List.length rows
   <= String.length (join_with sep (map (encode 1) (map obj_of_row rows))))%nat.
Proof.
  induction rows as [|r rows IH]; [cbn; lia|].
  destruct (row_text_head r) as (_ & _ & Hr).
  cbn [map join_with List.length] in *.
  destruct (map (encode 1) (map obj_of_row rows)) as [|y l] eqn:E.
  - destruct rows; [cbn [List.length]; lia | discriminate E].
  - rewrite !length_append. lia.
Qed.

Lemma elements_rows (rows : list row) :
  forall (r : row) (acc : list pyobj) (f : nat) (rest : string),
  forallb row_ok (r :: rows) = true -> (List.length rows + 7 <= f)%nat ->
  parse_elements f
    (join_with ("," ++ break 1) (map (encode 1) (map obj_of_row (r :: rows)))
     ++ break 0 ++ String "]" rest) acc
  = Some (OList (acc ++ map obj_of_row (r :: rows)), rest).
Proof.
  induction rows as [|r2 rows IH]; intros r acc f rest Hok Hf.
  - cbn [forallb] in Hok. apply andb_true_iff in Hok as [Hr _].
    cbn [List.length] in Hf. destruct f as [|f]; [lia|].
    replace f with (6 + (f - 6))%nat by lia.
    rewrite parse_elements_eq. cbn [map join_with].
    rewrite (parse_row _ r _ Hr). rewrite skip_ws_break. reflexivity.
  - cbn [forallb] in Hok. apply andb_true_iff in Hok as [Hr Hok].
    cbn [List.length] in Hf. destruct f as [|f]; [lia|].
    rewrite parse_elements_eq.
    change (join_with ("," ++ break 1) (map (encode 1) (map obj_of_row (r :: r2 :: rows))))
      with (encode 1 (obj_of_row r) ++ ("," ++ break 1)
            ++ join_with ("," ++ break 1) (map (encode 1) (map obj_of_row (r2 :: rows)))).
    rewrite !append_assoc.
    replace f with (6 + (f - 6))%nat at 1 by lia.
    rewrite (parse_row _ r _ Hr).
    change (skip_ws ("," ++ ?x)) with (String "," x).
    cbn [append skip_ws is_ws Ascii.eqb Bool.eqb orb].
    change (code "," =? 9) with false. change (code "," =? 10) with false.
    change (code "," =? 13) with false. cbv iota.
    change (String newline (spaces (2 * 1) ++ ?x)) with (break 1 ++ x).
    rewrite skip_ws_break.
    destruct (join_head ("," ++ break 1) r2 rows (break 0 ++ String "]" rest))
      as (tail & E).
    assert (Es : forall x, x = String "{" tail -> skip_ws x = x) by (now intros x ->).
    change (String "," (break 1)) with ("," ++ break 1).
    rewrite (Es _ E).
    rewrite (IH r2 (acc ++ [obj_of_row r])%list f rest Hok) by lia.
    rewrite <- app_assoc. reflexivity.
Qed.

(** The file is read back as the list of the records written. *)
Lemma load_rows (rows : list row) :
  forallb row_ok rows = true ->
  json_load (json_text rows) = Ok (obj_of_rows rows).
Proof.
  intros Hok. destruct rows as [|r rows]; [reflexivity|].
  unfold json_load, json_text, obj_of_rows.
  set (J := join_with ("," ++ break 1) (map (encode 1) (map obj_of_row (r :: rows)))).
  assert (Et : encode 0 (OList (map obj_of_row (r :: rows)))
               = String "[" (break 1 ++ J ++ break 0 ++ String "]" "")).
  { reflexivity. }
  rewrite Et.
  assert (Hlen : (List.length rows + 7
                  <= String.length (String "[" (break 1 ++ J ++ break 0 ++ String "]" "")))%nat).
  { cbn [String.length]. rewrite !length_append.
    pose proof (join_length ("," ++ break 1) (r :: rows)) as HJ. fold J in HJ.
    cbn [List.length] in HJ. cbn [break String.length]. lia. }
  change (skip_ws (String "[" ?x)) with (String "[" x).
  destruct (join_head ("," ++ break 1) r rows (break 0 ++ String "]" "")) as (tail & E).
  fold J in E.
  set (n := String.length _) in *.
  rewrite E, open_bracket, <- E. unfold J.
  rewrite (elements_rows rows r [] n "" Hok Hlen). reflexivity.
Qed.

End ReaderFacts.

Import ReaderFacts.

(** ** Equality of what is written and what is read *)

Module EqFacts.

Lemma SFeqb_refl (x : float) : SFeqb x x = negb (is_nan x).
Proof.
  destruct x as [s|s| |s m e]; try (destruct s; reflexivity); try reflexivity.
  unfold SFeqb. cbn [SFcompare is_nan negb].
  rewrite Z.compare_refl, Pos.compare_cont_refl. destruct s; reflexivity.
Qed.

Lemma py_eq_cons (a b : pyobj) (x y : list pyobj) :
  py_eq (OList (a :: x)) (OList (b :: y)) = py_eq a b && py_eq (OList x) (OList y).
Proof. reflexivity. Qed.

Lemma py_eq_row (r : row) :
  row_ok r = true ->
  py_eq (obj_of_row r) (obj_of_row r) = negb (is_nan (row_amount r)).
Proof.
  intros Hok. destruct (row_ok_inv r Hok) as (d & s & u & E & _).
  rewrite E. unfold obj_of_row.
  cbn [row_date row_service row_amount row_unit obj_of_val py_eq List.length
       Nat.eqb forallb lookup_obj String.eqb Ascii.eqb Bool.eqb andb].
  rewrite !String.eqb_refl, SFeqb_refl. cbn [andb]. now rewrite andb_true_r.
Qed.

Lemma py_eq_rows (rows : list row) :
  forallb row_ok rows = true ->
  py_eq (obj_of_rows rows) (obj_of_rows rows)
  = forallb (fun r => negb (is_nan (row_amount r))) rows.
Proof.
  unfold obj_of_rows. induction rows as [|r rows IH]; [reflexivity|].
  cbn [forallb map]. intros H. apply andb_true_iff in H as [Hr H].
  rewrite py_eq_cons, (py_eq_row r Hr), (IH H). reflexivity.
Qed.

Lemma json_written_last (t : list event) (path : string) (rows : list row) :
  json_written (t ++ [EvWriteJson path rows])%list path = Some (json_text rows).
Proof.
  induction t as [|ev t IH]; cbn [app json_written].
  - now rewrite String.eqb_refl.
  - now rewrite IH.
Qed.

End EqFacts.

Import EqFacts.

(** C7, as it holds: for records whose date, service and unit are strings
    and whose amount is a binary64 number, the file [save_json] writes is
    read by [json.load] as the list of the same dictionaries, as many and
    in the same order, with the same keys, the same strings and the same
    floats; that list is [==] to the one written exactly when no amount is
    [nan]. *)
Theorem json_round_trip (rows : list row) (path : string) (t : list event) :
  forallb row_ok rows = true ->
  exists text loaded,
    json_written (snd (save_json rows path t)) path = Some text
    /\ json_load text = Ok loaded
    /\ loaded = obj_of_rows rows
    /\ py_eq (obj_of_rows rows) loaded
       = forallb (fun r => negb (is_nan (row_amount r))) rows.
Proof.
  intros Hok. exists (json_text rows), (obj_of_rows rows).
  split; [|split; [|split]].
  - unfold save_json, emit. cbn [snd]. apply json_written_last.
  - now apply load_rows.
  - reflexivity.
  - now apply py_eq_rows.
Qed.

Lemma json_round_trip_witness :
  forallb row_ok rows_example = true
  /\ exists text loaded,
       json_written (snd (save_json rows_example "output/aws_costs_2024-01-01.json" []))
                    "output/aws_costs_2024-01-01.json" = Some text
       /\ json_load text = Ok loaded
       /\ loaded = obj_of_rows rows_example
       /\ py_eq (obj_of_rows rows_example) loaded
          = forallb (fun r => negb (is_nan (row_amount r))) rows_example.
Proof.
  split; [reflexivity|].
  apply (json_round_trip rows_example "output/aws_costs_2024-01-01.json" []).
  reflexivity.
Defined.

(** C7, as stated, fails: an amount given as [NaN] is normalized to [nan],
    written as [NaN] and read back as a [nan], which equals no number, and
    the records read are not equal to the records written. *)
Lemma json_round_trip_counterexample :
  exists rows text loaded,
    normalize response_nan = Ok rows
    /\ json_written (snd (save_json rows "output/aws_costs_2024-01-01.json" []))
                    "output/aws_costs_2024-01-01.json" = Some text
    /\ json_load text = Ok loaded
    /\ py_eq (obj_of_rows rows) loaded = false.
Proof.
  eexists _, _, _. split; [reflexivity|]. split; [reflexivity|].
  split; [vm_compute; reflexivity|]. reflexivity.
Qed.
